(** * Verification of the invoice / expense-report validators

    Shallow embedding of the two Python validators of the repository:
    - [src/validate.py]: the strict pass/fail validator
      ([validate_invoice], [validate_expense], [validate_document]);
    - [src/normalize.py]: the confidence-scoring invoice validator
      ([validate_logical_check], [validate_invoice_data],
      [validate_invoice_file]).

    Modelling conventions.
    - A JSON/Python value is a [pyval]; a Python dict is an association
      list (first binding wins on lookup, insertion order kept).
    - ints are [Z] (bool counts as an int in arithmetic); a float is an
      IEEE-754 binary64 number, the [spec_float] of the Standard Library
      with [prec] = 53 and [emax] = 1024, and float arithmetic is its
      [SFadd], [SFsub], [SFmul] (round to nearest, ties to even).  The
      theorems quantify over every [spec_float], a superset of the values
      of binary64.  The conversions Python performs itself (int to float,
      int / int, [float(str)]) are correctly rounded: [round_q].
      Comparisons between numbers are exact, as Python's int/float
      comparisons are, and a NaN compares false.
    - A string is a Stdlib [string]; its characters are the code points
      0..255 (Latin-1), and the string methods, [float(str)] and the
      regular expressions follow Python's Unicode tables on that range.
    - Python exceptions are the constructors of [exc]; a function that
      can raise returns [res A].
    - [datetime.fromisoformat] accepts different strings in different
      Python versions: the confidence validator is parameterised by the
      parser ([IsoFormat]), which either returns a datetime or raises
      ValueError; the theorems hold for every such parser.  [iso_date_only]
      accepts exactly the YYYY-MM-DD strings naming a calendar day, on
      which all versions agree; the examples use it.
    - [json.loads] and the interpreter's int-to-str digit limit are
      parameters of [validate_invoice_file]. *)

From Stdlib Require Import ZArith QArith Qabs Qminmax List String Ascii Bool Lia Lqa.
From Stdlib Require Import Floats.SpecFloat.
Set Warnings "-register-all".
Import ListNotations.
Open Scope string_scope.

(** ** Python values, exceptions, the exception monad *)

Inductive pyval : Type :=
| PNone
| PBool (b : bool)
| PInt (z : Z)
| PFloat (f : spec_float)
| PStr (s : string)
| PList (l : list pyval)
| PDict (d : list (string * pyval)).

Definition pydict := list (string * pyval).

Inductive exc : Type :=
| TypeError
| ValueError
| AttributeError
| OverflowError
| ZeroDivisionError
| JSONDecodeError
| RecursionError.

Inductive res (A : Type) : Type :=
| Ok (a : A)
| Raise (e : exc).
Arguments Ok {A} a.
Arguments Raise {A} e.

Definition bind {A B} (m : res A) (k : A -> res B) : res B :=
  match m with Ok a => k a | Raise e => Raise e end.

Notation "x <- m ;; k" := (bind m (fun x => k))
  (at level 61, m at next level, right associativity).

(** A [for] loop whose body may raise. *)
Fixpoint foldM {A S} (f : S -> A -> res S) (l : list A) (s : S) : res S :=
  match l with
  | [] => Ok s
  | x :: l' => s' <- f s x ;; foldM f l' s'
  end.

(** ** Dictionaries *)

(** [d.get(k)] as an option; [k in d] is [isSome]. *)
Fixpoint dict_get (d : pydict) (k : string) : option pyval :=
  match d with
  | [] => None
  | (k', v) :: d' => if String.eqb k k' then Some v else dict_get d' k
  end.

Definition dict_mem (d : pydict) (k : string) : bool :=
  match dict_get d k with Some _ => true | None => false end.

(** [d.get(k, default)] *)
Definition dict_get_default (d : pydict) (k : string) (dflt : pyval) : pyval :=
  match dict_get d k with Some v => v | None => dflt end.

(** [d[k] = v] on a dict of strings: overwrite in place, else append. *)
Fixpoint dict_set {V} (d : list (string * V)) (k : string) (v : V)
  : list (string * V) :=
  match d with
  | [] => [(k, v)]
  | (k', v') :: d' =>
      if String.eqb k k' then (k', v) :: d' else (k', v') :: dict_set d' k v
  end.

(** ** Binary64 floats *)

Definition prec : Z := 53.
Definition emax : Z := 1024.

Definition pow2 (k : Z) : Z := Z.shiftl 1 k.

(** [n / d] (n, d > 0) correctly rounded to binary64, to nearest with ties
    to even; [neg] is the sign.  [e] is the binary exponent of [n / d]
    ([2^e <= n / d < 2^(e+1)]), [ex] the exponent of the last place kept
    (subnormals below [2^(-1022)]); [q] and [r] are the quotient and the
    remainder of [n / d] in units of [2^ex]. *)
Definition round_q (neg : bool) (n d : positive) : spec_float :=
  let a := Z.log2 (Zpos n) in
  let b := Z.log2 (Zpos d) in
  let k := (a - b)%Z in
  let ge_k := if (0 <=? k)%Z then (Zpos d * pow2 k <=? Zpos n)%Z
              else (Zpos d <=? Zpos n * pow2 (- k))%Z in
  let e := if ge_k then k else (k - 1)%Z in
  let ex := Z.max (e - (prec - 1)) (3 - emax - prec) in
  let num := (Zpos n * pow2 (Z.max 0 (- ex)))%Z in
  let den := (Zpos d * pow2 (Z.max 0 ex))%Z in
  let q := (num / den)%Z in
  let r := (num mod den)%Z in
  let up := match Z.compare (2 * r) den with
            | Gt => true | Eq => Z.odd q | Lt => false end in
  let m := if up then (q + 1)%Z else q in
  let '(m', ex') := if (m =? pow2 prec)%Z then (pow2 (prec - 1), (ex + 1)%Z) else (m, ex) in
  match m' with
  | Zpos p => if (ex' <=? emax - prec)%Z then S754_finite neg p ex' else S754_infinity neg
  | _ => S754_zero neg
  end.

(** The exact value of a float: NaN, an infinity, or a rational. *)
Inductive xnum := XNaN | XInf (neg : bool) | XFin (q : Q).

Definition float_value (f : spec_float) : xnum :=
  match f with
  | S754_zero _ => XFin 0
  | S754_infinity s => XInf s
  | S754_nan => XNaN
  | S754_finite s m e =>
      let q := if (0 <=? e)%Z then inject_Z (Zpos m * pow2 e)
               else Qmake (Zpos m) (Z.to_pos (pow2 (- e))) in
      XFin (if s then Qopp q else q)
  end.

(** Strict order on rationals as a boolean. *)
Definition Qltb (x y : Q) : bool := negb (Qle_bool y x).

(** [a < b] on exact values; false as soon as one side is NaN. *)
Definition xlt (a b : xnum) : bool :=
  match a, b with
  | XNaN, _ | _, XNaN => false
  | XInf true, XInf true => false
  | XInf true, _ => true
  | _, XInf true => false
  | XInf false, _ => false
  | _, XInf false => true
  | XFin x, XFin y => Qltb x y
  end.

(** [a <= b]: NaN compares false, otherwise [not (b < a)]. *)
Definition xle (a b : xnum) : bool :=
  match a, b with
  | XNaN, _ | _, XNaN => false
  | _, _ => negb (xlt b a)
  end.

(** Python numbers: an int (or a bool, as 0 / 1) or a float. *)
Inductive num := NInt (z : Z) | NFloat (f : spec_float).

(** The numeric value of an int, bool or float. *)
Definition num_of (v : pyval) : option num :=
  match v with
  | PBool b => Some (NInt (if b then 1 else 0))
  | PInt z => Some (NInt z)
  | PFloat f => Some (NFloat f)
  | _ => None
  end.

Definition num_value (x : num) : xnum :=
  match x with NInt z => XFin (inject_Z z) | NFloat f => float_value f end.

(** Comparisons of numbers, exact across int and float. *)
Definition num_lt (a b : num) : bool := xlt (num_value a) (num_value b).
Definition num_le (a b : num) : bool := xle (num_value a) (num_value b).

(** [float(z)] of an int: OverflowError past the largest finite double. *)
Definition int_to_float (z : Z) : res spec_float :=
  match z with
  | Z0 => Ok (S754_zero false)
  | Zpos p => match round_q false p 1 with
              | S754_infinity _ => Raise OverflowError
              | f => Ok f
              end
  | Zneg p => match round_q true p 1 with
              | S754_infinity _ => Raise OverflowError
              | f => Ok f
              end
  end.

Definition to_float (x : num) : res spec_float :=
  match x with NInt z => int_to_float z | NFloat f => Ok f end.

(** A binary operator: int with int stays int; otherwise both operands are
    converted to float and the float operation is applied. *)
Definition num_arith (op_int : Z -> Z -> Z) (op_float : spec_float -> spec_float -> spec_float)
    (a b : num) : res num :=
  match a, b with
  | NInt x, NInt y => Ok (NInt (op_int x y))
  | _, _ => x <- to_float a ;; y <- to_float b ;; Ok (NFloat (op_float x y))
  end.

Definition num_add : num -> num -> res num := num_arith Z.add (SFadd prec emax).
Definition num_sub : num -> num -> res num := num_arith Z.sub (SFsub prec emax).
Definition num_mul : num -> num -> res num := num_arith Z.mul (SFmul prec emax).

Definition num_abs (x : num) : num :=
  match x with NInt z => NInt (Z.abs z) | NFloat f => NFloat (SFabs f) end.

(** [a / b] on ints (true division): correctly rounded quotient. *)
Definition int_truediv (a b : Z) : res spec_float :=
  match b with
  | Z0 => Raise ZeroDivisionError
  | _ =>
      let neg := xorb (a <? 0)%Z (b <? 0)%Z in
      match a with
      | Z0 => Ok (S754_zero neg)
      | _ => match round_q neg (Z.to_pos (Z.abs a)) (Z.to_pos (Z.abs b)) with
             | S754_infinity _ => Raise OverflowError
             | f => Ok f
             end
      end
  end.

(** [min(a, b)] and [max(a, b)]: the first argument unless the second is
    strictly smaller (larger). *)
Definition py_min (a b : num) : num := if num_lt b a then b else a.
Definition py_max (a b : num) : num := if num_lt a b then b else a.

(** ** Python builtins used by the validators *)

(** [x is not None] *)
Definition not_none (v : pyval) : bool :=
  match v with PNone => false | _ => true end.

(** [field in d and d[field] is not None] *)
Definition present (d : pydict) (k : string) : bool :=
  match dict_get d k with Some v => not_none v | None => false end.

Definition is_str (v : pyval) : bool := match v with PStr _ => true | _ => false end.
Definition is_list (v : pyval) : bool := match v with PList _ => true | _ => false end.
Definition is_dict (v : pyval) : bool := match v with PDict _ => true | _ => false end.
(** [isinstance(v, float)]: ints and bools are not floats. *)
Definition is_float (v : pyval) : bool := match v with PFloat _ => true | _ => false end.
(** [isinstance(v, (int, float))]: bool is a subclass of int. *)
Definition is_num (v : pyval) : bool :=
  match v with PBool _ | PInt _ | PFloat _ => true | _ => false end.

Definition of_num (x : num) : pyval :=
  match x with NInt z => PInt z | NFloat f => PFloat f end.

(** Truthiness ([if x:]). *)
Definition truthy (v : pyval) : bool :=
  match v with
  | PNone => false
  | PBool b => b
  | PInt z => negb (Z.eqb z 0)
  | PFloat f => match f with S754_zero _ => false | _ => true end
  | PStr s => negb (String.eqb s "")
  | PList l => match l with [] => false | _ => true end
  | PDict d => match d with [] => false | _ => true end
  end.

(** [a + b]: str and list concatenate, numbers add. *)
Definition py_add (a b : pyval) : res pyval :=
  match a, b with
  | PStr x, PStr y => Ok (PStr (x ++ y))
  | PList x, PList y => Ok (PList (x ++ y))
  | _, _ =>
      match num_of a, num_of b with
      | Some x, Some y => r <- num_add x y ;; Ok (of_num r)
      | _, _ => Raise TypeError
      end
  end.

(** [a - b]: numbers only. *)
Definition py_sub (a b : pyval) : res pyval :=
  match num_of a, num_of b with
  | Some x, Some y => r <- num_sub x y ;; Ok (of_num r)
  | _, _ => Raise TypeError
  end.

(** [abs(a)] *)
Definition py_abs (a : pyval) : res num :=
  match num_of a with Some x => Ok (num_abs x) | None => Raise TypeError end.

(** [a < c] and [a > c] where [c] is a numeric literal (every call site):
    a non-number on the left raises TypeError. *)
Definition py_lt_lit (a : pyval) (c : num) : res bool :=
  match num_of a with Some x => Ok (num_lt x c) | None => Raise TypeError end.

Definition py_gt_lit (a : pyval) (c : num) : res bool :=
  match num_of a with Some x => Ok (num_lt c x) | None => Raise TypeError end.

(** ** Characters and strings *)

Definition is_digit (c : ascii) : bool :=
  let n := nat_of_ascii c in Nat.leb 48 n && Nat.leb n 57.

Definition digit_val (c : ascii) : Z := Z.of_nat (nat_of_ascii c - 48).

(** [str.isspace]: \t \n \v \f \r, \x1c-\x1f, space, \x85 and \xa0. *)
Definition is_space (c : ascii) : bool :=
  let n := nat_of_ascii c in
  (Nat.leb 9 n && Nat.leb n 13) || (Nat.leb 28 n && Nat.leb n 32)
  || Nat.eqb n 133 || Nat.eqb n 160.

Fixpoint lstrip_by (p : ascii -> bool) (s : string) : string :=
  match s with
  | EmptyString => EmptyString
  | String c s' => if p c then lstrip_by p s' else s
  end.

Fixpoint rev_str (s : string) (acc : string) : string :=
  match s with
  | EmptyString => acc
  | String c s' => rev_str s' (String c acc)
  end.

Definition strip_by (p : ascii -> bool) (s : string) : string :=
  rev_str (lstrip_by p (rev_str (lstrip_by p s) EmptyString)) EmptyString.

(** [s.strip()] *)
Definition strip (s : string) : string := strip_by is_space s.

(** [s.lower()]: A-Z and the Latin-1 capitals (except the sign 215). *)
Definition lower_char (c : ascii) : ascii :=
  let n := nat_of_ascii c in
  if (Nat.leb 65 n && Nat.leb n 90)
     || (Nat.leb 192 n && Nat.leb n 222 && negb (Nat.eqb n 215))
  then ascii_of_nat (n + 32) else c.

Fixpoint map_str (f : ascii -> ascii) (s : string) : string :=
  match s with
  | EmptyString => EmptyString
  | String c s' => String (f c) (map_str f s')
  end.

Definition lower (s : string) : string := map_str lower_char s.

(** Decimal rendering of a natural number (for ["expense_items 3"]). *)
Fixpoint digits_rev (fuel n : nat) : string :=
  match fuel with
  | O => EmptyString
  | S fuel' =>
      let c := ascii_of_nat (48 + Nat.modulo n 10) in
      if Nat.ltb n 10 then String c EmptyString
      else String c (digits_rev fuel' (Nat.div n 10))
  end.

Definition nat_to_string (n : nat) : string :=
  rev_str (digits_rev (S n) n) EmptyString.

(** ** [float(s)] of a string (CPython's [PyFloat_FromString])

    1. Characters from 127 up become a space when they are whitespace
       (\x85, \xa0) and ['?'] otherwise (no Latin-1 character above 127 is
       a decimal digit); the string is then ASCII.
    2. An underscore must follow a digit and precede a digit; the
       underscores are removed.
    3. Leading and trailing ASCII whitespace (\t \n \v \f \r, space) is
       stripped; nothing may remain but a number.
    4. The number is an optional sign followed by [inf], [infinity] or
       [nan] (any case), or by digits with an optional point (at least one
       digit in all) and an optional exponent [e]/[E], sign, digits.  More
       than 10^9 significant or fractional digits are refused.
    5. The value is correctly rounded; it overflows to an infinity and
       underflows to a zero of the sign.  Every failure is ValueError. *)

Definition to_ascii_char (c : ascii) : ascii :=
  let n := nat_of_ascii c in
  if Nat.ltb n 127 then c
  else if Nat.eqb n 133 || Nat.eqb n 160 then " "%char
  else "?"%char.

Definition is_underscore (c : ascii) : bool := Nat.eqb (nat_of_ascii c) 95.

Fixpoint remove_underscores (prev : ascii) (s : string) : option string :=
  match s with
  | EmptyString => if is_underscore prev then None else Some EmptyString
  | String c s' =>
      if is_underscore c then
        if is_digit prev then remove_underscores c s' else None
      else if is_underscore prev && negb (is_digit c) then None
      else option_map (String c) (remove_underscores c s')
  end.

(** [Py_ISSPACE] *)
Definition c_isspace (c : ascii) : bool :=
  let n := nat_of_ascii c in Nat.eqb n 32 || (Nat.leb 9 n && Nat.leb n 13).

Definition ascii_lower (c : ascii) : ascii :=
  let n := nat_of_ascii c in
  if Nat.leb 65 n && Nat.leb n 90 then ascii_of_nat (n + 32) else c.

Definition parse_sign (s : string) : bool * string :=
  match s with
  | String c r =>
      if Nat.eqb (nat_of_ascii c) 45 then (true, r)
      else if Nat.eqb (nat_of_ascii c) 43 then (false, r)
      else (false, s)
  | EmptyString => (false, s)
  end.

(** The maximal prefix of digits and the rest. *)
Fixpoint take_digits (s : string) : list ascii * string :=
  match s with
  | String c r =>
      if is_digit c then let '(ds, rest) := take_digits r in (c :: ds, rest)
      else ([], s)
  | EmptyString => ([], EmptyString)
  end.

Definition digits_value (ds : list ascii) : Z :=
  fold_left (fun acc c => 10 * acc + digit_val c)%Z ds 0%Z.

Fixpoint drop_zeros (ds : list ascii) : list ascii :=
  match ds with
  | c :: ds' => if Nat.eqb (nat_of_ascii c) 48 then drop_zeros ds' else ds
  | [] => []
  end.

(** An exponent part that makes up the rest of the string. *)
Definition parse_exponent (s : string) : option Z :=
  match s with
  | EmptyString => Some 0%Z
  | String c r =>
      if Nat.eqb (nat_of_ascii c) 101 || Nat.eqb (nat_of_ascii c) 69 then
        let '(neg, r1) := parse_sign r in
        match take_digits r1 with
        | ((_ :: _) as ds, EmptyString) =>
            Some (if neg then - digits_value ds else digits_value ds)%Z
        | _ => None
        end
      else None
  end.

Definition max_digits : Z := 1000000000.

(** [N * 10^k] correctly rounded, [nd] being the number of digits of [N]. *)
Definition decimal_to_float (neg : bool) (n nd k : Z) : spec_float :=
  match n with
  | Zpos p =>
      if (310 <=? nd + k)%Z then S754_infinity neg
      else if (nd + k <=? -324)%Z then S754_zero neg
      else if (0 <=? k)%Z then round_q neg (p * Z.to_pos (10 ^ k)) 1
      else round_q neg p (Z.to_pos (10 ^ (- k)))
  | _ => S754_zero neg
  end.

Definition parse_decimal (neg : bool) (s : string) : option spec_float :=
  let '(ip, r1) := take_digits s in
  let '(fp, r2) := match r1 with
                   | String c r => if Nat.eqb (nat_of_ascii c) 46 then take_digits r
                                   else ([], r1)
                   | EmptyString => ([], r1)
                   end in
  match (ip ++ fp)%list with
  | [] => None
  | ds =>
      let nd := Z.of_nat (List.length (drop_zeros ds)) in
      let fraclen := Z.of_nat (List.length fp) in
      if (max_digits <? nd)%Z || (max_digits <? fraclen)%Z then None
      else match parse_exponent r2 with
           | Some e => Some (decimal_to_float neg (digits_value ds) nd (e - fraclen))
           | None => None
           end
  end.

Definition parse_special (neg : bool) (s : string) : option spec_float :=
  let l := map_str ascii_lower s in
  if String.eqb l "inf" || String.eqb l "infinity" then Some (S754_infinity neg)
  else if String.eqb l "nan" then Some S754_nan
  else None.

Definition float_of_string (s : string) : option spec_float :=
  match remove_underscores "000"%char (map_str to_ascii_char s) with
  | None => None
  | Some t =>
      match strip_by c_isspace t with
      | EmptyString => None
      | u =>
          let '(neg, body) := parse_sign u in
          match parse_decimal neg body with
          | Some f => Some f
          | None => parse_special neg body
          end
      end
  end.

(** [float(v)]: numbers convert (OverflowError for an int past the
    largest double), strings are parsed (ValueError), None, lists and
    dicts raise TypeError. *)
Definition py_float (v : pyval) : res spec_float :=
  match v with
  | PStr s => match float_of_string s with Some f => Ok f | None => Raise ValueError end
  | _ => match num_of v with Some x => to_float x | None => Raise TypeError end
  end.

(** A float literal of the source. *)
Definition float_lit (s : string) : spec_float :=
  match float_of_string s with Some f => f | None => S754_nan end.

(** [x < y] on floats. *)
Definition float_lt (x y : spec_float) : bool := xlt (float_value x) (float_value y).

(** ** Calendar dates *)

Record date := mkdate { year : Z; month : Z; day : Z }.

Definition is_leap (y : Z) : bool :=
  (Z.eqb (Z.modulo y 4) 0 && negb (Z.eqb (Z.modulo y 100) 0))
  || Z.eqb (Z.modulo y 400) 0.

Definition days_in_month (y m : Z) : Z :=
  if Z.eqb m 2 then (if is_leap y then 29 else 28)
  else if Z.eqb m 4 || Z.eqb m 6 || Z.eqb m 9 || Z.eqb m 11 then 30
  else 31.

(** [datetime(y, m, d)] raises ValueError outside 1..9999 / 1..12 / the month. *)
Definition mk_datetime (y m d : Z) : res date :=
  if (1 <=? y)%Z && (y <=? 9999)%Z && (1 <=? m)%Z && (m <=? 12)%Z
     && (1 <=? d)%Z && (d <=? days_in_month y m)%Z
  then Ok (mkdate y m d) else Raise ValueError.

(** Lexicographic order of dates, [d1 > d2]. *)
Definition date_gt (d1 d2 : date) : bool :=
  (year d2 <? year d1)%Z
  || ((year d1 =? year d2)%Z && ((month d2 <? month d1)%Z
      || ((month d1 =? month d2)%Z && (day d2 <? day d1)%Z))).

Definition date_le (d1 d2 : date) : bool := negb (date_gt d1 d2).

Definition date_eqb (d1 d2 : date) : bool :=
  (year d1 =? year d2)%Z && (month d1 =? month d2)%Z && (day d1 =? day d2)%Z.
(** *** [datetime.strptime(s, "%Y-%m-%d")]

    [_strptime] builds the regex [(?P<Y>\d\d\d\d)-(?P<m>1[0-2]|0[1-9]|[1-9])-]
    [(?P<d>3[01]|[12]\d|0[1-9]|[1-9]| [1-9])], matches it at the start of the
    string (first alternative that lets the whole pattern match), raises
    ValueError when nothing matches or when unconverted data remains, then
    builds the date (ValueError for year 0 or a day past the month's end). *)

Definition month_alts (s : string) : list (Z * string) :=
  match s with
  | String c1 (String c2 r) =>
      (if (Nat.eqb (nat_of_ascii c1) 49) && is_digit c2
          && Nat.leb (nat_of_ascii c2) 50
       then [(10 + digit_val c2, r)] else [])%Z
      ++ (if (Nat.eqb (nat_of_ascii c1) 48) && is_digit c2
             && Nat.leb 49 (nat_of_ascii c2)
          then [(digit_val c2, r)] else [])
      ++ (if is_digit c1 && Nat.leb 49 (nat_of_ascii c1)
          then [(digit_val c1, String c2 r)] else [])
  | String c1 EmptyString =>
      if is_digit c1 && Nat.leb 49 (nat_of_ascii c1)
      then [(digit_val c1, EmptyString)] else []
  | EmptyString => []
  end.

Definition nz_digit (c : ascii) : bool := is_digit c && Nat.leb 49 (nat_of_ascii c).

Definition day_first (s : string) : option (Z * string) :=
  match s with
  | String c1 r1 =>
      let two :=
        match r1 with
        | String c2 r2 =>
            if Nat.eqb (nat_of_ascii c1) 51
               && (Nat.eqb (nat_of_ascii c2) 48 || Nat.eqb (nat_of_ascii c2) 49)
            then Some (30 + digit_val c2, r2)%Z
            else if (Nat.eqb (nat_of_ascii c1) 49 || Nat.eqb (nat_of_ascii c1) 50)
                    && is_digit c2
            then Some (10 * digit_val c1 + digit_val c2, r2)%Z
            else if Nat.eqb (nat_of_ascii c1) 48 && nz_digit c2
            then Some (digit_val c2, r2)
            else None
        | EmptyString => None
        end in
      match two with
      | Some p => Some p
      | None =>
          if nz_digit c1 then Some (digit_val c1, r1)
          else match r1 with
               | String c2 r2 =>
                   if Nat.eqb (nat_of_ascii c1) 32 && nz_digit c2
                   then Some (digit_val c2, r2) else None
               | EmptyString => None
               end
      end
  | EmptyString => None
  end.

Definition is_dash (c : ascii) : bool := Nat.eqb (nat_of_ascii c) 45.

(** The regex match: first month alternative after which ["-" day] matches. *)
Fixpoint first_month_day (alts : list (Z * string)) : option (Z * Z * string) :=
  match alts with
  | [] => None
  | (m, String c r) :: alts' =>
      if is_dash c then
        match day_first r with
        | Some (d, rest) => Some (m, d, rest)
        | None => first_month_day alts'
        end
      else first_month_day alts'
  | (_, EmptyString) :: alts' => first_month_day alts'
  end.

Definition strptime_ymd (s : string) : res date :=
  match s with
  | String y1 (String y2 (String y3 (String y4 (String c r)))) =>
      if is_digit y1 && is_digit y2 && is_digit y3 && is_digit y4 && is_dash c then
        match first_month_day (month_alts r) with
        | Some (m, d, EmptyString) =>
            mk_datetime (1000 * digit_val y1 + 100 * digit_val y2
                         + 10 * digit_val y3 + digit_val y4)%Z m d
        | Some _ => Raise ValueError   (* unconverted data remains *)
        | None => Raise ValueError
        end
      else Raise ValueError
  | _ => Raise ValueError
  end.

(** [strptime] on a non-string raises TypeError. *)
Definition strptime (v : pyval) : res date :=
  match v with PStr s => strptime_ymd s | _ => Raise TypeError end.

(** [date_format(date_str)] of validate.py: catches ValueError and TypeError. *)
Definition date_format (v : pyval) : bool :=
  match strptime v with Ok _ => true | Raise _ => false end.

(** *** [datetime] values and their comparison

    A datetime is a date, the time of day in microseconds and, for an
    aware datetime, its UTC offset in microseconds. *)
Record pydatetime := mkdt { dt_date : date; dt_micro : Z; dt_offset : option Z }.

Definition days_before_year (y : Z) : Z :=
  let y' := (y - 1)%Z in (y' * 365 + y' / 4 - y' / 100 + y' / 400)%Z.

Fixpoint days_before_month_nat (y : Z) (n : nat) : Z :=
  match n with
  | O => 0%Z
  | S n' => (days_before_month_nat y n' + days_in_month y (Z.of_nat n))%Z
  end.

(** Days of the year [y] before the first day of month [m]. *)
Definition days_before_month (y m : Z) : Z := days_before_month_nat y (Z.to_nat (m - 1)).

(** [date.toordinal()] *)
Definition toordinal (d : date) : Z :=
  (days_before_year (year d) + days_before_month (year d) (month d) + day d)%Z.

(** The field-by-field comparison [a <= b] (date, then time of day). *)
Definition base_le (a b : pydatetime) : bool :=
  date_gt (dt_date b) (dt_date a)
  || (date_eqb (dt_date a) (dt_date b) && (dt_micro a <=? dt_micro b)%Z).

(** Microseconds since the epoch of ordinals, in UTC. *)
Definition utc_micro (t : pydatetime) (off : Z) : Z :=
  (toordinal (dt_date t) * 86400000000 + dt_micro t - off)%Z.

(** [a <= b]: two naive datetimes, or two aware ones with the same offset,
    compare field by field; aware ones with different offsets compare in
    UTC; a naive with an aware one raises TypeError. *)
Definition datetime_le (a b : pydatetime) : res bool :=
  match dt_offset a, dt_offset b with
  | None, None => Ok (base_le a b)
  | Some oa, Some ob =>
      if (oa =? ob)%Z then Ok (base_le a b) else Ok (utc_micro a oa <=? utc_micro b ob)%Z
  | _, _ => Raise TypeError
  end.

(** *** [datetime.fromisoformat(s)]

    The parser of the running Python version: [None] is the ValueError it
    raises on a string it does not accept. *)
Class IsoFormat := iso_parse : string -> option pydatetime.

Section FromIso.
Context {iso : IsoFormat}.

(** [datetime.fromisoformat(v)]: TypeError on a non-string. *)
Definition fromisoformat (v : pyval) : res pydatetime :=
  match v with
  | PStr s => match iso_parse s with Some t => Ok t | None => Raise ValueError end
  | _ => Raise TypeError
  end.

End FromIso.

(** ** The strict validator, [src/validate.py] *)
Module Strict.

(** The Python types named in the field tables. *)
Inductive pytype := TStr | TDict | TList | TFloat.

(** [isinstance(value, rules["type"])] *)
Definition isinstance (v : pyval) (t : pytype) : bool :=
  match t with
  | TStr => is_str v
  | TDict => is_dict v
  | TList => is_list v
  | TFloat => is_float v
  end.

(** [f"{rules['type']}"] *)
Definition type_repr (t : pytype) : string :=
  match t with
  | TStr => "<class 'str'>"
  | TDict => "<class 'dict'>"
  | TList => "<class 'list'>"
  | TFloat => "<class 'float'>"
  end.

Definition INVOICE_REQUIRED_FIELDS : list (string * pytype) :=
  [("document_type", TStr); ("invoice_number", TStr); ("invoice_date", TStr);
   ("vendor_information", TDict); ("buyer_information", TDict);
   ("item_details", TList); ("total_amount", TFloat)].

Definition INVOICE_OPTIONAL_FIELDS : list (string * pytype) :=
  [("due_date", TStr); ("purchase_order_number", TStr); ("payment_terms", TStr);
   ("subtotal_amount", TFloat); ("total_discount", TFloat); ("vat_amount", TFloat);
   ("amount_in_words", TStr); ("currency", TStr); ("remarks", TStr)].

Definition EXPENSE_REQUIRED_FIELDS : list (string * pytype) :=
  [("document_type", TStr); ("employee_name", TStr);
   ("expense_items", TList); ("total_amount", TFloat)].

Definition EXPENSE_OPTIONAL_FIELDS : list (string * pytype) :=
  [("report_id", TStr); ("employee_id", TStr); ("department", TStr);
   ("report_date", TStr); ("period_start", TStr); ("period_end", TStr);
   ("subtotal_amount", TFloat); ("vat_amount", TFloat); ("approval_name", TStr);
   ("approval_status", TStr); ("currency", TStr); ("remarks", TStr)].

(** [value in PLACEHOLDER_VALUES] with [PLACEHOLDER_VALUES = ["", "N/A", "null", None]]. *)
Definition in_placeholders (v : pyval) : bool :=
  match v with
  | PNone => true
  | PStr s => String.eqb s "" || String.eqb s "N/A" || String.eqb s "null"
  | _ => false
  end.

(** [is_empty(value)] *)
Definition is_empty (v : pyval) : bool :=
  in_placeholders v || (match v with PStr s => String.eqb (strip s) "" | _ => false end).

(** [find_empty_fields(data, required_fields)] *)
Definition find_empty_fields (data : pydict) (req : list (string * pytype))
  : list (string * string) :=
  fold_left (fun acc (fr : string * pytype) =>
               if is_empty (dict_get_default data (fst fr) PNone)
               then dict_set acc (fst fr) "Required field cannot be empty"
               else acc) req [].

(** Entries of [result["logical_checks"]]: the f-string messages keep the
    values they render. *)
Inductive check_msg :=
| IncorrectTotalInvoice (subtotal vat discount total : pyval)
| IncorrectTotalExpense (subtotal vat total : pyval)
| CalculationError (e : exc)
| CheckText (s : string).

Record report := mkreport {
  status : string;
  invalid_fields : list (string * string);
  logical_checks : list check_msg }.

Definition init_report : report := mkreport "pass" [] [].

(** [result["status"] = "fail"; result["invalid_fields"][f] = msg] *)
Definition fail_field (r : report) (f msg : string) : report :=
  mkreport "fail" (dict_set (invalid_fields r) f msg) (logical_checks r).

(** [result["status"] = "fail"; result["logical_checks"].append(m)] *)
Definition fail_check (r : report) (m : check_msg) : report :=
  mkreport "fail" (invalid_fields r) (logical_checks r ++ [m]).

(** [if empty_fields: status = "fail"; invalid_fields.update(empty_fields)] *)
Definition apply_empty (r : report) (empty : list (string * string)) : report :=
  match empty with
  | [] => r
  | _ => fold_left (fun r' (kv : string * string) => fail_field r' (fst kv) (snd kv)) empty r
  end.

(** Optional-field step shared by both document types; [date_fields] are
    the fields whose YYYY-MM-DD format is also checked. *)
Definition optional_step (doc : pydict) (date_fields : list string)
    (r : report) (fr : string * pytype) : report :=
  let (f, t) := fr in
  match dict_get doc f with
  | Some v =>
      if in_placeholders v then r
      else
        let r1 := if isinstance v t then r
                  else fail_field r f ("Invalid type for optional field. Expected " ++ type_repr t) in
        if existsb (String.eqb f) date_fields then
          if negb (is_str v) || negb (date_format v)
          then fail_field r1 f "Invalid date format. Expected YYYY-MM-DD"
          else r1
        else r1
  | None => r
  end.

(** Required-field step of [validate_invoice]. *)
Definition invoice_required_step (inv : pydict) (r : report) (fr : string * pytype) : report :=
  let (f, t) := fr in
  match dict_get inv f with
  | None => fail_field r f "Missing required field"
  | Some v =>
      if negb (isinstance v t) then
        fail_field r f ("Invalid type for required field. Expected " ++ type_repr t)
      else if String.eqb f "invoice_date" then
        if negb (is_str v) || negb (date_format v)
        then fail_field r f "Invalid date format. Expected YYYY-MM-DD" else r
      else if String.eqb f "item_details" then
        match v with
        | PList (_ :: _) => r
        | _ => fail_field r f "item_details must be a non-empty list"
        end
      else r
  end.

(** The [try: ... except Exception as e:] around the total calculation:
    every exception is caught and recorded. *)
Definition try_total (r : report) (body : res report) : report :=
  match body with
  | Ok r' => r'
  | Raise e => fail_check r (CalculationError e)
  end.

(** The literal [0.01]. *)
Definition tolerance : spec_float := float_lit "0.01".

(** Logical check of [validate_invoice]: subtotal + vat - discount == total.
    The message renders the four values; [float()] has already accepted
    each of them, so rendering raises nothing. *)
Definition invoice_total_check (inv : pydict) (r : report) : report :=
  let subtotal := dict_get_default inv "subtotal_amount" PNone in
  let vat := dict_get_default inv "vat_amount" PNone in
  let discount0 := dict_get_default inv "total_discount" PNone in
  let total := dict_get_default inv "total_amount" PNone in
  if not_none subtotal && not_none vat && not_none total then
    let discount := if not_none discount0 then discount0 else PFloat (S754_zero false) in
    try_total r
      (s <- py_float subtotal ;; v <- py_float vat ;; d <- py_float discount ;;
       let expected_total := SFsub prec emax (SFadd prec emax s v) d in
       t <- py_float total ;;
       if float_lt tolerance (SFabs (SFsub prec emax t expected_total))
       then Ok (fail_check r (IncorrectTotalInvoice subtotal vat discount total))
       else Ok r)
  else r.

(** [validate_invoice(invoice)] *)
Definition validate_invoice (inv : pydict) : report :=
  let r1 := apply_empty init_report (find_empty_fields inv INVOICE_REQUIRED_FIELDS) in
  let r2 := fold_left (invoice_required_step inv) INVOICE_REQUIRED_FIELDS r1 in
  let r3 := fold_left (optional_step inv ["due_date"]) INVOICE_OPTIONAL_FIELDS r2 in
  invoice_total_check inv r3.

(** Required-field step of [validate_expense]. *)
Definition expense_required_step (ex : pydict) (r : report) (fr : string * pytype) : report :=
  let (f, t) := fr in
  match dict_get ex f with
  | None => fail_field r f "Missing required field"
  | Some v =>
      if negb (isinstance v t) then
        fail_field r f ("Invalid type. Expected " ++ type_repr t)
      else if String.eqb f "expense_items" then
        match v with
        | PList (_ :: _) => r
        | _ => fail_field r f "expense_items must be a non-empty list"
        end
      else r
  end.

(** Logical check of [validate_expense]: subtotal + vat == total. *)
Definition expense_total_check (ex : pydict) (r : report) : report :=
  let subtotal := dict_get_default ex "subtotal_amount" PNone in
  let vat := dict_get_default ex "vat_amount" PNone in
  let total := dict_get_default ex "total_amount" PNone in
  if not_none subtotal && not_none vat && not_none total then
    try_total r
      (s <- py_float subtotal ;; v <- py_float vat ;;
       let expected_total := SFadd prec emax s v in
       t <- py_float total ;;
       if float_lt tolerance (SFabs (SFsub prec emax t expected_total))
       then Ok (fail_check r (IncorrectTotalExpense subtotal vat total))
       else Ok r)
  else r.

(** Date logic of [validate_expense]: period_start <= period_end.  Both
    [strptime] calls repeat the ones [date_format] has just accepted; the
    [except Exception] branch appends without setting the status. *)
Definition expense_period_check (ex : pydict) (r : report) : report :=
  let start := dict_get_default ex "period_start" PNone in
  let end_ := dict_get_default ex "period_end" PNone in
  if truthy start && truthy end_ && date_format start && date_format end_ then
    match strptime start, strptime end_ with
    | Ok d1, Ok d2 =>
        if date_gt d1 d2 then fail_check r (CheckText "period_start is after period_end")
        else r
    | _, _ => mkreport (status r) (invalid_fields r)
                       (logical_checks r ++ [CheckText "Date format error"])
    end
  else r.

(** Loop over [enumerate(items)]: [item.get("date")] raises
    AttributeError when the item is not a dict. *)
Fixpoint expense_items_loop (idx : nat) (items : list pyval) (r : report) : res report :=
  match items with
  | [] => Ok r
  | item :: items' =>
      match item with
      | PDict it =>
          let date_val := dict_get_default it "date" PNone in
          let r' := if negb (in_placeholders date_val)
                       && (negb (is_str date_val) || negb (date_format date_val))
                    then fail_field r ("expense_items " ++ nat_to_string (S idx))
                                    "Invalid date format. Expected YYYY-MM-DD"
                    else r in
          expense_items_loop (S idx) items' r'
      | _ => Raise AttributeError
      end
  end.

Definition expense_items_check (ex : pydict) (r : report) : res report :=
  match dict_get_default ex "expense_items" (PList []) with
  | PList items => expense_items_loop 0 items r
  | _ => Ok r
  end.

(** [validate_expense(expense)] *)
Definition validate_expense (ex : pydict) : res report :=
  let r1 := apply_empty init_report (find_empty_fields ex EXPENSE_REQUIRED_FIELDS) in
  let r2 := fold_left (expense_required_step ex) EXPENSE_REQUIRED_FIELDS r1 in
  let r3 := fold_left (optional_step ex ["report_date"; "period_start"; "period_end"])
                      EXPENSE_OPTIONAL_FIELDS r2 in
  let r4 := expense_total_check ex r3 in
  let r5 := expense_period_check ex r4 in
  expense_items_check ex r5.

Definition unknown_type_report : report :=
  mkreport "fail" [("document_type", "Unknown or missing document_type")] [].

(** [validate_document(document)]: [document.get("document_type", "").lower()]
    raises AttributeError on a non-string value. *)
Definition validate_document (doc : pydict) : res report :=
  match dict_get_default doc "document_type" (PStr "") with
  | PStr s =>
      let doc_type := lower s in
      if String.eqb doc_type "invoice" then Ok (validate_invoice doc)
      else if String.eqb doc_type "expense_report" then validate_expense doc
      else Ok unknown_type_report
  | _ => Raise AttributeError
  end.

End Strict.

(** ** The confidence-scoring validator, [src/normalize.py] *)
Module Confidence.

Inductive ftype := FString | FDate | FNumber | FArray.

(** [re.match] patterns of [formats]. *)
Inductive fmt := IsoDatePattern | InvoiceNumberPattern.

(** [re.match] patterns of [placeholder_patterns] (re.IGNORECASE). *)
Inductive placeholder := NumberPlaceholder | NamePlaceholder.

Record logical_check := mkcheck { name : string; fields : list string; error_message : string }.

Definition required_fields : list string := ["invoice_number"; "invoice_date"; "total_amount"].
Definition important_fields : list string :=
  ["vendor_name"; "due_date"; "subtotal"; "tax_amount"; "line_items"].
Definition expected_field_count : Z := 10.

Definition field_types : list (string * ftype) :=
  [("invoice_number", FString); ("invoice_date", FDate); ("due_date", FDate);
   ("total_amount", FNumber); ("subtotal", FNumber); ("tax_amount", FNumber);
   ("line_items", FArray); ("vendor_name", FString); ("client_name", FString);
   ("payment_terms", FString)].

Definition formats : list (string * fmt) :=
  [("invoice_date", IsoDatePattern); ("due_date", IsoDatePattern);
   ("invoice_number", InvoiceNumberPattern)].

(** [constraints]: field, optional min, optional max. *)
Definition constraints : list (string * option Z * option Z) :=
  [("total_amount", Some 0%Z, None); ("subtotal", Some 0%Z, None);
   ("tax_amount", Some 0%Z, None)].

Definition logical_checks : list logical_check :=
  [mkcheck "dates_chronology" ["invoice_date"; "due_date"]
           "Due date must be on or after invoice date";
   mkcheck "amount_calculation" ["subtotal"; "tax_amount"; "total_amount"]
           "Total amount should equal subtotal plus tax amount";
   mkcheck "line_items_sum" ["line_items"; "subtotal"]
           "Line items should sum to subtotal"].

Definition placeholder_patterns : list (string * placeholder) :=
  [("invoice_number", NumberPlaceholder); ("vendor_name", NamePlaceholder);
   ("client_name", NamePlaceholder)].

Definition w_required : spec_float := float_lit "0.5".
Definition w_important : spec_float := float_lit "0.2".
Definition w_logical : spec_float := float_lit "0.2".
Definition w_field_count : spec_float := float_lit "0.1".

(** The literals [0.01] (tolerance), [0.1] (penalty), [1.0] (initial
    confidence) and the level thresholds [0.9], [0.7], [0.5]. *)
Definition f_0_01 : spec_float := float_lit "0.01".
Definition f_0_1 : spec_float := float_lit "0.1".
Definition f_1_0 : spec_float := float_lit "1.0".
Definition f_0_9 : spec_float := float_lit "0.9".
Definition f_0_7 : spec_float := float_lit "0.7".
Definition f_0_5 : spec_float := float_lit "0.5".

Fixpoint assoc {V} (l : list (string * V)) (k : string) : option V :=
  match l with
  | [] => None
  | (k', v) :: l' => if String.eqb k k' then Some v else assoc l' k
  end.

(** *** Regular expressions

    [$] matches at the end of the string or before a final newline, so
    [re.match("^...$", s)] succeeds when the body matches [s] or [s]
    without its trailing ["\n"]. *)
Definition without_final_newline (s : string) : option string :=
  match rev_str s EmptyString with
  | String c r => if Nat.eqb (nat_of_ascii c) 10 then Some (rev_str r EmptyString) else None
  | EmptyString => None
  end.

Definition dollar_match (body : string -> bool) (s : string) : bool :=
  body s || match without_final_newline s with Some s' => body s' | None => false end.

(** [\d{4}-\d{2}-\d{2}] *)
Definition iso_body (s : string) : bool :=
  match s with
  | String y1 (String y2 (String y3 (String y4 (String c1
      (String m1 (String m2 (String c2 (String d1 (String d2 EmptyString))))))))) =>
      is_digit y1 && is_digit y2 && is_digit y3 && is_digit y4 && is_dash c1
      && is_digit m1 && is_digit m2 && is_dash c2 && is_digit d1 && is_digit d2
  | _ => false
  end.

(** [[\w\-\/\.]+]: [\w] is [_] or a letter, digit or numeric character:
    in Latin-1 also the code points 170, 178, 179, 181, 185, 186, 188-190
    and 192-255 but for 215 and 247. *)
Definition id_char (c : ascii) : bool :=
  let n := nat_of_ascii c in
  is_digit c || (Nat.leb 65 n && Nat.leb n 90) || (Nat.leb 97 n && Nat.leb n 122)
  || Nat.eqb n 95 || Nat.eqb n 45 || Nat.eqb n 47 || Nat.eqb n 46
  || Nat.eqb n 170 || Nat.eqb n 178 || Nat.eqb n 179 || Nat.eqb n 181
  || Nat.eqb n 185 || Nat.eqb n 186 || (Nat.leb 188 n && Nat.leb n 190)
  || (Nat.leb 192 n && Nat.leb n 255 && negb (Nat.eqb n 215) && negb (Nat.eqb n 247)).

Fixpoint all_chars (p : ascii -> bool) (s : string) : bool :=
  match s with EmptyString => true | String c s' => p c && all_chars p s' end.

Definition id_body (s : string) : bool :=
  negb (String.eqb s "") && all_chars id_char s.

Definition fmt_match (p : fmt) (s : string) : bool :=
  match p with
  | IsoDatePattern => dollar_match iso_body s
  | InvoiceNumberPattern => dollar_match id_body s
  end.

(** [(N\/A|Unknown|TBD|0+)] and [(N\/A|Unknown|TBD|None)], case-insensitive. *)
Definition placeholder_body (p : placeholder) (s : string) : bool :=
  let l := lower s in
  String.eqb l "n/a" || String.eqb l "unknown" || String.eqb l "tbd"
  || match p with
     | NumberPlaceholder =>
         negb (String.eqb s "") && all_chars (fun c => Nat.eqb (nat_of_ascii c) 48) s
     | NamePlaceholder => String.eqb l "none"
     end.

Definition placeholder_match (p : placeholder) (s : string) : bool :=
  dollar_match (placeholder_body p) s.

(** *** [validate_logical_check(invoice, check)] *)

(** The loop of [line_items_sum]: [item.get(...)] raises AttributeError
    on an item that is not a dict; the running sum is a number (it starts
    as the int 0). *)
Fixpoint line_items_total (items : list pyval) (acc : num) : res num :=
  match items with
  | [] => Ok acc
  | item :: items' =>
      match item with
      | PDict it =>
          let total := dict_get_default it "total" PNone in
          let qty := dict_get_default it "quantity" PNone in
          let price := dict_get_default it "unit_price" PNone in
          acc' <- match num_of total with
                  | Some t => num_add acc t
                  | None =>
                      match num_of qty, num_of price with
                      | Some q, Some p => x <- num_mul q p ;; num_add acc x
                      | _, _ => Ok acc
                      end
                  end ;;
          line_items_total items' acc'
      | _ => Raise AttributeError
      end
  end.

Section Validator.
Context {iso : IsoFormat}.

Definition validate_logical_check (inv : pydict) (check : logical_check) : res bool :=
  if negb (forallb (present inv) (fields check)) then Ok true
  else if String.eqb (name check) "dates_chronology" then
    d1 <- fromisoformat (dict_get_default inv "invoice_date" PNone) ;;
    d2 <- fromisoformat (dict_get_default inv "due_date" PNone) ;;
    datetime_le d1 d2
  else if String.eqb (name check) "amount_calculation" then
    let subtotal := dict_get_default inv "subtotal" PNone in
    let tax_amount := dict_get_default inv "tax_amount" PNone in
    let total_amount := dict_get_default inv "total_amount" PNone in
    s <- py_add subtotal tax_amount ;;
    diff <- py_sub s total_amount ;;
    a <- py_abs diff ;;
    Ok (num_lt a (NFloat f_0_01))
  else if String.eqb (name check) "line_items_sum" then
    let subtotal := dict_get_default inv "subtotal" PNone in
    match dict_get_default inv "line_items" PNone with
    | PList [] => Ok true
    | PList items =>
        sum <- line_items_total items (NInt 0) ;;
        diff <- py_sub (of_num sum) subtotal ;;
        a <- py_abs diff ;;
        Ok (num_lt a (NFloat f_0_01))
    | _ => Ok true
    end
  else Ok true.

(** *** [validate_invoice_data(invoice_data)] *)

Record result := mkresult {
  valid : bool;
  errors : list string;
  warnings : list string;
  confidence : num;
  confidence_level : option string }.

Record metrics := mkmetrics {
  required_fields_present : nat;
  required_fields_total : nat;
  important_fields_present : nat;
  important_fields_total : nat;
  logical_checks_valid : nat;
  logical_checks_total : nat;
  fields_with_values : nat;
  suspicious_values : nat }.

Definition dq : string := String "034"%char EmptyString.

Definition z_to_string (z : Z) : string :=
  if (z <? 0)%Z then "-" ++ nat_to_string (Z.to_nat (- z)) else nat_to_string (Z.to_nat z).

Definition add_error (r : result) (e : string) : result :=
  mkresult false (errors r ++ [e]) (warnings r) (confidence r) (confidence_level r).

Definition add_warning (r : result) (w : string) : result :=
  mkresult (valid r) (errors r) (warnings r ++ [w]) (confidence r) (confidence_level r).

Definition bump_required (m : metrics) : metrics :=
  mkmetrics (S (required_fields_present m)) (required_fields_total m)
    (important_fields_present m) (important_fields_total m)
    (logical_checks_valid m) (logical_checks_total m)
    (S (fields_with_values m)) (suspicious_values m).

Definition bump_important (m : metrics) : metrics :=
  mkmetrics (required_fields_present m) (required_fields_total m)
    (S (important_fields_present m)) (important_fields_total m)
    (logical_checks_valid m) (logical_checks_total m)
    (S (fields_with_values m)) (suspicious_values m).

Definition bump_values (m : metrics) : metrics :=
  mkmetrics (required_fields_present m) (required_fields_total m)
    (important_fields_present m) (important_fields_total m)
    (logical_checks_valid m) (logical_checks_total m)
    (S (fields_with_values m)) (suspicious_values m).

Definition bump_suspicious (m : metrics) : metrics :=
  mkmetrics (required_fields_present m) (required_fields_total m)
    (important_fields_present m) (important_fields_total m)
    (logical_checks_valid m) (logical_checks_total m)
    (fields_with_values m) (S (suspicious_values m)).

Definition bump_checks (passed : bool) (m : metrics) : metrics :=
  mkmetrics (required_fields_present m) (required_fields_total m)
    (important_fields_present m) (important_fields_total m)
    (if passed then S (logical_checks_valid m) else logical_checks_valid m)
    (S (logical_checks_total m)) (fields_with_values m) (suspicious_values m).

Definition state := (result * metrics)%type.

Definition required_step (d : pydict) (st : state) (f : string) : state :=
  let (r, m) := st in
  if present d f then (r, bump_required m)
  else (add_error r ("Missing required field: " ++ f), m).

Definition important_step (d : pydict) (st : state) (f : string) : state :=
  let (r, m) := st in
  if present d f then (r, bump_important m)
  else (add_warning r ("Missing important field: " ++ f), m).

(** [for field in invoice_data]: the entry's value is [invoice_data[field]]. *)
Definition completeness_step (st : state) (kv : string * pyval) : state :=
  let (r, m) := st in
  if negb (existsb (String.eqb (fst kv)) required_fields)
     && negb (existsb (String.eqb (fst kv)) important_fields)
     && not_none (snd kv)
  then (r, bump_values m) else (r, m).

(** Type check of one field value (the if/elif chain). *)
Definition type_check (f : string) (t : ftype) (v : pyval) (r : result) : res result :=
  match t with
  | FString => if is_str v then Ok r
               else Ok (add_error r ("Field " ++ dq ++ f ++ dq ++ " must be a string"))
  | FNumber => if is_num v then Ok r
               else Ok (add_error r ("Field " ++ dq ++ f ++ dq ++ " must be a number"))
  | FArray => if is_list v then Ok r
              else Ok (add_error r ("Field " ++ dq ++ f ++ dq ++ " must be an array"))
  | FDate =>
      match v with
      | PStr s =>
          match assoc formats f with
          | Some p =>
              if fmt_match p s then Ok r
              else Ok (add_error r ("Field " ++ dq ++ f ++ dq
                                    ++ " has invalid date format. Expected: YYYY-MM-DD"))
          | None =>
              match fromisoformat v with
              | Ok _ => Ok r
              | Raise ValueError =>
                  Ok (add_error r ("Field " ++ dq ++ f ++ dq ++ " contains an invalid date"))
              | Raise e => Raise e
              end
          end
      | _ => Ok (add_error r ("Field " ++ dq ++ f ++ dq ++ " must be a date string"))
      end
  end.

Definition field_type_step (d : pydict) (st : state) (ft : string * ftype) : res state :=
  let (r, m) := st in
  let (f, t) := ft in
  if present d f then
    let v := dict_get_default d f PNone in
    r1 <- type_check f t v r ;;
    match assoc placeholder_patterns f, v with
    | Some p, PStr s =>
        if placeholder_match p s then
          Ok (add_warning r1 ("Field " ++ dq ++ f ++ dq
                ++ " appears to contain a placeholder value: " ++ dq ++ s ++ dq),
              bump_suspicious m)
        else Ok (r1, m)
    | _, _ => Ok (r1, m)
    end
  else Ok (r, m).

Definition constraint_step (d : pydict) (st : state) (c : string * option Z * option Z)
  : res state :=
  let (r, m) := st in
  let '(f, mn, mx) := c in
  if present d f then
    let v := dict_get_default d f PNone in
    r1 <- match mn with
          | Some lo => b <- py_lt_lit v (NInt lo) ;;
                       Ok (if b then add_error r ("Field " ++ dq ++ f ++ dq
                                    ++ " must be at least " ++ z_to_string lo) else r)
          | None => Ok r
          end ;;
    r2 <- match mx with
          | Some hi => b <- py_gt_lit v (NInt hi) ;;
                       Ok (if b then add_error r1 ("Field " ++ dq ++ f ++ dq
                                    ++ " must be at most " ++ z_to_string hi) else r1)
          | None => Ok r1
          end ;;
    Ok (r2, m)
  else Ok (r, m).

Definition logical_step (d : pydict) (st : state) (c : logical_check) : res state :=
  let (r, m) := st in
  if forallb (present d) (fields c) then
    ok <- validate_logical_check d c ;;
    if ok then Ok (r, bump_checks true m)
    else Ok (add_error r (error_message c), bump_checks false m)
  else Ok (r, m).

(** A component score: [present / total if total > 0 else 1]. *)
Definition score (present total : nat) : res num :=
  if Nat.ltb 0 total then
    f <- int_truediv (Z.of_nat present) (Z.of_nat total) ;; Ok (NFloat f)
  else Ok (NInt 1).

(** The blended score before clamping, evaluated as Python evaluates the
    expression: the scores, the penalty, then the weighted sum from left
    to right. *)
Definition blend (m : metrics) : res num :=
  required_fields_score <- score (required_fields_present m) (required_fields_total m) ;;
  important_fields_score <- score (important_fields_present m) (important_fields_total m) ;;
  logical_checks_score <- score (logical_checks_valid m) (logical_checks_total m) ;;
  ratio <- int_truediv (Z.of_nat (fields_with_values m)) expected_field_count ;;
  let completeness_score := py_min (NInt 1) (NFloat ratio) in
  suspicious_value_penalty <-
    num_mul (NFloat f_0_1) (NInt (Z.of_nat (Nat.min (suspicious_values m) 5))) ;;
  a <- num_mul (NFloat w_required) required_fields_score ;;
  b <- num_mul (NFloat w_important) important_fields_score ;;
  s1 <- num_add a b ;;
  c <- num_mul (NFloat w_logical) logical_checks_score ;;
  s2 <- num_add s1 c ;;
  e <- num_mul (NFloat w_field_count) completeness_score ;;
  s3 <- num_add s2 e ;;
  num_sub s3 suspicious_value_penalty.

(** [max(0, min(1, x))] *)
Definition clamp01 (x : num) : num := py_max (NInt 0) (py_min (NInt 1) x).

(** [x >= 0.9] and so on. *)
Definition level_of (c : num) : string :=
  if num_le (NFloat f_0_9) c then "High"
  else if num_le (NFloat f_0_7) c then "Medium"
  else if num_le (NFloat f_0_5) c then "Low"
  else "Very Low".

Definition init_result : result := mkresult true [] [] (NFloat f_1_0) None.

Definition init_metrics : metrics :=
  mkmetrics 0 (List.length required_fields) 0 (List.length important_fields) 0 0 0 0.

Definition validate_dict (d : pydict) : res result :=
  let st1 := fold_left (required_step d) required_fields (init_result, init_metrics) in
  let st2 := fold_left (important_step d) important_fields st1 in
  let st3 := fold_left completeness_step d st2 in
  st4 <- foldM (field_type_step d) field_types st3 ;;
  st5 <- foldM (constraint_step d) constraints st4 ;;
  st6 <- foldM (logical_step d) logical_checks st5 ;;
  let (r, m) := st6 in
  b <- blend m ;;
  let c := clamp01 b in
  Ok (mkresult (valid r) (errors r) (warnings r) c (Some (level_of c))).

Definition validate_invoice_data (v : pyval) : res result :=
  match v with
  | PDict d => validate_dict d
  | _ => Ok (mkresult false ["Invalid invoice data: must be a JSON object"] [] (NInt 0) None)
  end.



(** *** The confidence formula in the words of the specification

    [0.5 * required present / required total + 0.2 * important present /
    important total + 0.2 * checks passed / checks evaluated (1 when none
    is evaluated) + 0.1 * min(1, fields with values / expected count)
    - 0.1 * min(suspicious values, 5)], clamped to [0, 1]. *)

Fixpoint count_if {A} (p : A -> bool) (l : list A) : nat :=
  match l with
  | [] => 0
  | x :: l' => (if p x then 1 else 0) + count_if p l'
  end.

(** A logical check is evaluated when all its fields are present and non-null. *)
Definition check_evaluated (d : pydict) (c : logical_check) : bool :=
  forallb (present d) (fields c).

Definition check_passed (d : pydict) (c : logical_check) : bool :=
  match validate_logical_check d c with Ok b => b | Raise _ => false end.

(** A suspicious value: a string matching the field's placeholder pattern. *)
Definition suspicious (d : pydict) (fp : string * placeholder) : bool :=
  match dict_get d (fst fp) with
  | Some (PStr s) => placeholder_match (snd fp) s
  | _ => false
  end.

Definition spec_required_present (d : pydict) : nat := count_if (present d) required_fields.
Definition spec_important_present (d : pydict) : nat := count_if (present d) important_fields.
Definition spec_checks_evaluated (d : pydict) : nat := count_if (check_evaluated d) logical_checks.
Definition spec_checks_passed (d : pydict) : nat :=
  count_if (fun c => check_evaluated d c && check_passed d c) logical_checks.
Definition spec_fields_with_values (d : pydict) : nat :=
  count_if (fun kv => not_none (snd kv)) d.
Definition spec_suspicious_count (d : pydict) : nat := count_if (suspicious d) placeholder_patterns.

(** The formula evaluated with Python's float arithmetic: each quotient,
    product and sum rounded to binary64, the sum taken from left to
    right, [min] as Python's.  First the weighted sum. *)
Definition spec_unpenalised (d : pydict) : res num :=
  rq <- int_truediv (Z.of_nat (spec_required_present d)) (Z.of_nat (List.length required_fields)) ;;
  iq <- int_truediv (Z.of_nat (spec_important_present d)) (Z.of_nat (List.length important_fields)) ;;
  lq <- (if Nat.eqb (spec_checks_evaluated d) 0 then Ok (NInt 1)
         else f <- int_truediv (Z.of_nat (spec_checks_passed d)) (Z.of_nat (spec_checks_evaluated d)) ;;
              Ok (NFloat f)) ;;
  cq <- int_truediv (Z.of_nat (spec_fields_with_values d)) 10 ;;
  t1 <- num_mul (NFloat (float_lit "0.5")) (NFloat rq) ;;
  t2 <- num_mul (NFloat (float_lit "0.2")) (NFloat iq) ;;
  s1 <- num_add t1 t2 ;;
  t3 <- num_mul (NFloat (float_lit "0.2")) lq ;;
  s2 <- num_add s1 t3 ;;
  t4 <- num_mul (NFloat (float_lit "0.1")) (py_min (NInt 1) (NFloat cq)) ;;
  num_add s2 t4.

(** 0.1 per suspicious value, at most 5 of them. *)
Definition spec_penalty (d : pydict) : res num :=
  num_mul (NFloat (float_lit "0.1")) (NInt (Z.of_nat (Nat.min (spec_suspicious_count d) 5))).


(** The same formula over the rationals, without rounding. *)
Definition ratio (n d : nat) : Q := inject_Z (Z.of_nat n) / inject_Z (Z.of_nat d).


End Validator.

(** Conditions under which the loops of [validate_invoice_data] raise a
    counter: a key outside the required and important tables with a
    value, and a field of [field_types] holding a placeholder string. *)
Definition other_field (kv : string * pyval) : bool :=
  negb (existsb (String.eqb (fst kv)) required_fields)
  && negb (existsb (String.eqb (fst kv)) important_fields)
  && not_none (snd kv).

Definition placeholder_hit (d : pydict) (ft : string * ftype) : bool :=
  match assoc placeholder_patterns (fst ft) with
  | Some p => match dict_get_default d (fst ft) PNone with
              | PStr s => placeholder_match p s
              | _ => false
              end
  | None => false
  end.

(** The metrics [validate_invoice_data] ends with on a dict [d]: the counts
    of the formula, with the fields-with-values count split as the
    completeness loop raises it. *)
Definition final {iso : IsoFormat} (d : pydict) : metrics :=
  mkmetrics (spec_required_present d) 3 (spec_important_present d) 5
    (spec_checks_passed d) (spec_checks_evaluated d)
    (spec_required_present d + spec_important_present d + count_if other_field d)
    (spec_suspicious_count d).

(** The example records of [src/normalize.py]. *)
Definition valid_invoice : pydict :=
  [("invoice_number", PStr "INV-2023-001"); ("invoice_date", PStr "2023-05-15");
   ("due_date", PStr "2023-06-15"); ("vendor_name", PStr "Acme Corp");
   ("client_name", PStr "Globex Inc."); ("subtotal", PFloat (float_lit "1000.00"));
   ("tax_amount", PFloat (float_lit "250.50")); ("total_amount", PFloat (float_lit "1250.50"));
   ("payment_terms", PStr "Net 30"); ("currency", PStr "USD");
   ("line_items",
     PList [PDict [("description", PStr "Product A"); ("quantity", PInt 2);
                   ("unit_price", PFloat (float_lit "250.00"));
                   ("total", PFloat (float_lit "500.00"))];
            PDict [("description", PStr "Service B"); ("quantity", PInt 5);
                   ("unit_price", PFloat (float_lit "100.00"));
                   ("total", PFloat (float_lit "500.00"))]])].

Definition invalid_invoice : pydict :=
  [("invoice_date", PStr "05/15/2023"); ("due_date", PStr "2023-04-15");
   ("vendor_name", PStr "N/A"); ("total_amount", PStr "1250.50");
   ("subtotal", PFloat (float_lit "1000.00")); ("tax_amount", PFloat (float_lit "200.00"))].

Definition partial_invoice : pydict :=
  [("invoice_number", PStr "INV-2023-002"); ("invoice_date", PStr "2023-05-20");
   ("total_amount", PFloat (float_lit "500.00"))].

End Confidence.

(** [datetime.fromisoformat] on the strings YYYY-MM-DD naming a calendar
    day, which every Python version accepts, giving a naive midnight.  It
    refuses every other string (a Python version may accept some of them,
    with a time part for instance), so it serves the examples only. *)
Definition iso_date_only : IsoFormat := fun s =>
  match s with
  | String y1 (String y2 (String y3 (String y4 (String _
      (String m1 (String m2 (String _ (String d1 (String d2 EmptyString))))))))) =>
      if Confidence.iso_body s then
        match mk_datetime (1000 * digit_val y1 + 100 * digit_val y2
                           + 10 * digit_val y3 + digit_val y4)%Z
                          (10 * digit_val m1 + digit_val m2)%Z
                          (10 * digit_val d1 + digit_val d2)%Z with
        | Ok dt => Some (mkdt dt 0 None)
        | Raise _ => None
        end
      else None
  | _ => None
  end.

(** ** Failing and sample inputs used by the theorems below *)

(** An expense report whose [expense_items] holds a string instead of a dict. *)
Definition expense_with_string_item : pydict :=
  [("document_type", PStr "expense_report"); ("employee_name", PStr "Ann");
   ("expense_items", PList [PStr "taxi"]); ("total_amount", PFloat (float_lit "10.0"))].

(** A well-formed invoice whose due date precedes its invoice date. *)
Definition invoice_due_before_issue : pydict :=
  [("document_type", PStr "invoice"); ("invoice_number", PStr "INV-1");
   ("invoice_date", PStr "2023-06-15"); ("due_date", PStr "2023-05-15");
   ("vendor_information", PDict [("name", PStr "Acme")]);
   ("buyer_information", PDict [("name", PStr "Globex")]);
   ("item_details", PList [PDict [("description", PStr "A")]]);
   ("total_amount", PFloat (float_lit "100.0"))].

(** An expense report whose period starts after it ends. *)
Definition expense_period_reversed : pydict :=
  [("document_type", PStr "expense_report"); ("employee_name", PStr "Ann");
   ("expense_items", PList [PDict [("date", PStr "2023-05-10")]]);
   ("total_amount", PFloat (float_lit "10.0"));
   ("period_start", PStr "2023-06-01"); ("period_end", PStr "2023-05-01")].


(** Subtotal and tax are zero and the total is exactly the 0.01 tolerance. *)
Definition total_at_tolerance : pydict :=
  [("subtotal", PFloat (float_lit "0.0")); ("tax_amount", PFloat (float_lit "0.0"));
   ("total_amount", PFloat (float_lit "0.01"))].

(** The same amounts under the keys of the strict validators. *)
Definition strict_total_at_tolerance : pydict :=
  [("subtotal_amount", PFloat (float_lit "0.0")); ("vat_amount", PFloat (float_lit "0.0"));
   ("total_amount", PFloat (float_lit "0.01"))].

(** 100 + 10 - 10 = 100: a discount that balances the tax. *)
Definition discounted_total : pydict :=
  [("subtotal", PFloat (float_lit "100.0")); ("tax_amount", PFloat (float_lit "10.0"));
   ("total_discount", PFloat (float_lit "10.0")); ("total_amount", PFloat (float_lit "100.0"))].

Definition strict_discounted_total : pydict :=
  [("subtotal_amount", PFloat (float_lit "100.0")); ("vat_amount", PFloat (float_lit "10.0"));
   ("total_discount", PFloat (float_lit "10.0")); ("total_amount", PFloat (float_lit "100.0"))].

(** The valid example of the source with vendor_name set to "N/A". *)
Definition placeholder_vendor_invoice : pydict :=
  dict_set Confidence.valid_invoice "vendor_name" (PStr "N/A").

(** ** Invariants and shapes used by the proofs *)

(** ** [validate_invoice_file(json_data)] of [src/normalize.py] *)
Module InvoiceFile.
Import Confidence.

Section File.
Context {iso : IsoFormat}.

(** [json.loads(s)]: a value, or [JSONDecodeError] on a malformed
    document (or another exception, such as RecursionError on a too
    deeply nested one). *)
Variable json_loads : string -> res pyval.

(** [sys.get_int_max_str_digits()]: [str] of an int with more digits
    raises ValueError; 0 (and any Python before 3.11) means no limit. *)
Variable max_str_digits : Z.

(** [print(f"... {format_value(v)} ...")]: [format_value] returns ints,
    floats and bools unchanged and renders them with [str]; strings, None,
    lists and dicts are printed as ["..."], [null] and [[Object]].  Only
    [str] of a too long int raises (the output stream is taken to accept
    every string). *)
Definition format_value_prints (v : pyval) : bool :=
  match v with
  | PInt z => (max_str_digits <=? 0)%Z || (Z.abs z <? 10 ^ max_str_digits)%Z
  | _ => true
  end.

(** The console report after the scores: the fields of the record other
    than [line_items], then, when [line_items] is a list, the entries of
    each item through [item.items()], which raises AttributeError on an
    item that is not a dict. *)
Definition print_assessment (d : pydict) : res unit :=
  if forallb (fun k => String.eqb k "line_items" || format_value_prints (dict_get_default d k PNone))
             (map fst d)
  then
    match dict_get d "line_items" with
    | Some (PList items) =>
        foldM (fun _ item =>
                 match item with
                 | PDict it =>
                     if forallb (fun k => format_value_prints (dict_get_default it k PNone))
                                (map fst it)
                     then Ok tt else Raise ValueError
                 | _ => Raise AttributeError
                 end) items tt
    | _ => Ok tt
    end
  else Raise ValueError.

(** The dict returned by an [except] branch, for an exception whose [str]
    is [msg]. *)
Definition caught_report (msg : string) : result :=
  mkresult false ["Validation error: " ++ msg] [] (NInt 0) (Some "Very Low").

(** [str(KeyError(k))] *)
Definition key_error_str (k : string) : string := "'" ++ k ++ "'".

(** The value returned: [inl r] is the dict [r]; [inr e] is the dict of
    an [except] branch for the exception [e] (its message is not
    modelled): for JSONDecodeError the ["JSON parsing error: ..."] dict,
    for any other exception the ["Validation error: ..."] dict.  For a
    non-dict record, [validation_result['confidence_level']] raises
    KeyError, as the validator's result for it has no such key. *)
Definition validate_invoice_file (json_data : pyval) : result + exc :=
  match (match json_data with PStr s => json_loads s | v => Ok v end) with
  | Raise e => inr e
  | Ok data =>
      match validate_invoice_data data with
      | Raise e => inr e
      | Ok validation_result =>
          match confidence_level validation_result with
          | None => inl (caught_report (key_error_str "confidence_level"))
          | Some _ =>
              match data with
              | PDict d =>
                  match print_assessment d with
                  | Ok _ => inl validation_result
                  | Raise e => inr e
                  end
              | _ => inr AttributeError   (* [data.keys()] *)
              end
          end
      end
  end.

End File.

End InvoiceFile.

(** ** Renderings of a calendar date

    Strings used to state which texts [strptime(s, "%Y-%m-%d")] accepts:
    the year on four digits, the month and the day zero-padded, unpadded,
    or (for the day) padded with a space. *)
Module DateText.

Definition digit_char (n : Z) : ascii := ascii_of_nat (48 + Z.to_nat n).

Definition pad4 (y : Z) : string :=
  String (digit_char (y / 1000)) (String (digit_char (y / 100 mod 10))
    (String (digit_char (y / 10 mod 10)) (String (digit_char (y mod 10)) EmptyString))).

Definition pad2 (n : Z) : string :=
  String (digit_char (n / 10)) (String (digit_char (n mod 10)) EmptyString).

Definition unpadded (n : Z) : string :=
  if (n <? 10)%Z then String (digit_char n) EmptyString else pad2 n.

Definition space_padded (n : Z) : string :=
  if (n <? 10)%Z then String " " (String (digit_char n) EmptyString) else pad2 n.

Definition render (mr dr : Z -> string) (dt : date) : string :=
  pad4 (year dt) ++ "-" ++ mr (month dt) ++ "-" ++ dr (day dt).

(** A date of the proleptic Gregorian calendar with years 1..9999. *)
Definition valid_date (dt : date) : bool :=
  (1 <=? year dt)%Z && (year dt <=? 9999)%Z && (1 <=? month dt)%Z && (month dt <=? 12)%Z
  && (1 <=? day dt)%Z && (day dt <=? days_in_month (year dt) (month dt))%Z.

End DateText.

(** The status of a strict report agrees with its entries. *)
Module StrictInv.
Import Strict.

(** The report is ["fail"] with an entry, or ["pass"] with none. *)
Definition consistent (r : report) : Prop :=
  (status r = "fail" /\ (invalid_fields r <> [] \/ logical_checks r <> []))
  \/ (status r = "pass" /\ invalid_fields r = [] /\ logical_checks r = []).

End StrictInv.

(** How a confidence report evolves along [validate_dict]. *)
Module ResultInv.
Import Confidence.

(** [r'] extends [r] by errors satisfying [E] and by warnings, and a
    result that became invalid stays invalid. *)
Definition grows (E : string -> Prop) (r r' : result) : Prop :=
  exists es ws, errors r' = (errors r ++ es)%list /\ Forall E es
    /\ warnings r' = (warnings r ++ ws)%list /\ (valid r' = true -> valid r = true).

(** The kinds of errors each loop adds. *)
Definition missing_error (f : string) (e : string) : Prop :=
  e = "Missing required field: " ++ f.

Definition type_error (d : pydict) (ft : string * ftype) (e : string) : Prop :=
  exists sfx, e = "Field " ++ dq ++ fst ft ++ dq ++ sfx
    /\ (snd ft = FString ->
         sfx = " must be a string" /\ is_str (dict_get_default d (fst ft) PNone) = false).

Definition constraint_error (c : string * option Z * option Z) (e : string) : Prop :=
  exists sfx, e = "Field " ++ dq ++ fst (fst c) ++ dq ++ sfx.

Definition check_error (c : logical_check) (e : string) : Prop := e = error_message c.

(** Every error of a report comes from one of the loops. *)
Definition dict_error (d : pydict) (e : string) : Prop :=
  (exists f, In f required_fields /\ missing_error f e)
  \/ (exists ft, In ft field_types /\ type_error d ft e)
  \/ (exists c, In c constraints /\ constraint_error c e)
  \/ (exists c, In c logical_checks /\ check_error c e).

Definition after_required (d : pydict) : state :=
  fold_left (required_step d) required_fields (init_result, init_metrics).

(** The warning for a vendor name holding the placeholder ["N/A"]. *)
Definition vendor_warning : string :=
  "Field " ++ dq ++ "vendor_name" ++ dq ++ " appears to contain a placeholder value: "
  ++ dq ++ "N/A" ++ dq.

End ResultInv.

(** ** Predicates and messages used by the proofs of the strict validator *)
Module StrictAux.
Import Confidence Strict.

(** The entry of an empty required field. *)
Definition M_empty : string := "Required field cannot be empty".

(** Steps that leave the entry of [f] alone. *)
Definition keeps (f : string) (r r' : report) : Prop :=
  assoc (invalid_fields r') f = assoc (invalid_fields r) f.

(** Keys of [invalid_fields] within a set [K]. *)
Definition within (K : string -> Prop) (r : report) : Prop :=
  forall k m, In (k, m) (invalid_fields r) -> K k.

(** The entry of an expense item whose date is not YYYY-MM-DD. *)
Definition M_item_date : string := "Invalid date format. Expected YYYY-MM-DD".

End StrictAux.

(** ** Predicates and messages used by the proofs of the confidence validator *)
Module ConfidenceAux.
Import Confidence ResultInv.

(** Errors added after the required-field loop. *)
Definition later_error (d : pydict) (e : string) : Prop :=
  (exists ft, In ft field_types /\ type_error d ft e)
  \/ (exists c, In c constraints /\ constraint_error c e)
  \/ (exists c, In c logical_checks /\ check_error c e).

(** Warnings added after the important-field loop. *)
Definition placeholder_warning (w : string) : Prop :=
  exists f s, w = "Field " ++ dq ++ f ++ dq ++ " appears to contain a placeholder value: "
                  ++ dq ++ s ++ dq.

(** [r'] extends the warnings of [r] by placeholder warnings only. *)
Definition wgrows (r r' : result) : Prop :=
  exists ws, warnings r' = (warnings r ++ ws)%list /\ Forall placeholder_warning ws.

(** The validity flag agrees with the error list. *)
Definition flag_ok (r : result) : Prop := valid r = true <-> errors r = [].

(** The error of the [dates_chronology] check. *)
Definition chrono_msg : string := "Due date must be on or after invoice date".

Section Chrono.
Context {iso : IsoFormat}.

(** Both dates parse and the due date is earlier than the invoice date. *)
Definition chrono_fails (d : pydict) : Prop :=
  exists d1 d2, fromisoformat (dict_get_default d "invoice_date" PNone) = Ok d1
    /\ fromisoformat (dict_get_default d "due_date" PNone) = Ok d2 /\ datetime_le d1 d2 = Ok false.

End Chrono.

(** A line item that is a dict whose [total] is a float [t]. *)
Definition float_total_item (it : pyval) (t : spec_float) : Prop :=
  exists kv, it = PDict kv /\ dict_get_default kv "total" PNone = PFloat t.

End ConfidenceAux.


(** * Proofs *)

Import Confidence.
Open Scope nat_scope.

(** ** Generic facts about the loops *)

Lemma bind_ok {A B} (m : res A) (k : A -> res B) (b : B) :
  bind m k = Ok b -> exists a, m = Ok a /\ k a = Ok b.
Proof. destruct m as [a|e]; simpl; [eauto | discriminate]. Qed.

Lemma Ok_inj {A} (a b : A) : Ok a = Ok b -> a = b.
Proof. intros H. injection H. auto. Qed.

Lemma bind_assoc {A B C} (m : res A) (f : A -> res B) (g : B -> res C) :
  bind (bind m f) g = bind m (fun a => bind (f a) g).
Proof. destruct m; reflexivity. Qed.

Lemma foldM_inv {A S} (P : S -> Prop) (f : S -> A -> res S) (l : list A) :
  (forall s x s', In x l -> P s -> f s x = Ok s' -> P s') ->
  forall s s', P s -> foldM f l s = Ok s' -> P s'.
Proof.
  induction l as [|x l IH]; simpl; intros Hstep s s' Hs H.
  - injection H as <-; exact Hs.
  - apply bind_ok in H as [s1 [H1 H2]].
    apply (IH (fun s0 y s0' Hin => Hstep s0 y s0' (or_intror Hin)) s1 s');
      [eapply Hstep; eauto | exact H2].
Qed.

Lemma fold_left_inv {A S} (P : S -> Prop) (f : S -> A -> S) (l : list A) :
  (forall s x, In x l -> P s -> P (f s x)) ->
  forall s, P s -> P (fold_left f l s).
Proof.
  induction l as [|x l IH]; simpl; intros Hstep s Hs; [exact Hs|].
  apply IH; [intros; apply Hstep; auto | apply Hstep; auto].
Qed.

(** A counter [g] that each step raises by one exactly when [p] holds. *)
Lemma foldM_count {A S} (g : S -> nat) (p : A -> bool) (f : S -> A -> res S) (l : list A) :
  (forall s x s', In x l -> f s x = Ok s' -> g s' = (if p x then 1 else 0) + g s) ->
  forall s s', foldM f l s = Ok s' -> g s' = count_if p l + g s.
Proof.
  induction l as [|x l IH]; simpl; intros Hstep s s' H.
  - injection H as <-; reflexivity.
  - apply bind_ok in H as [s1 [H1 H2]].
    rewrite (IH (fun s0 y s0' Hin => Hstep s0 y s0' (or_intror Hin)) s1 s' H2).
    rewrite (Hstep s x s1 (or_introl eq_refl) H1). lia.
Qed.

Lemma fold_left_count {A S} (g : S -> nat) (p : A -> bool) (f : S -> A -> S) (l : list A) :
  (forall s x, In x l -> g (f s x) = (if p x then 1 else 0) + g s) ->
  forall s, g (fold_left f l s) = count_if p l + g s.
Proof.
  induction l as [|x l IH]; simpl; intros Hstep s; [reflexivity|].
  rewrite IH by (intros; apply Hstep; auto).
  rewrite Hstep by auto. lia.
Qed.

(** ** Claims settled by evaluation *)

(** C1 (code_bug): both validators can raise on a mapping.  The confidence
    validator raises TypeError on the repository's own [invalid_invoice]
    (the constraint check evaluates ["1250.50" < 0]), whatever
    [datetime.fromisoformat] accepts; the strict validator raises
    AttributeError when an [expense_items] element is not a dict. *)
Theorem C1_validators_raise_on_records (iso : IsoFormat) :
  validate_invoice_data (PDict invalid_invoice) = Raise TypeError
  /\ Strict.validate_document expense_with_string_item = Raise AttributeError.
Proof. split; [cbv; reflexivity | vm_compute; reflexivity]. Qed.

(** C4 (code_bug): the strict invoice validator runs no date-ordering
    check: an invoice whose due date precedes its invoice date passes
    with no logical-check entry. *)
Theorem C4_strict_invoice_ignores_date_order :
  Strict.validate_document invoice_due_before_issue
  = Ok (Strict.mkreport "pass" [] []).
Proof. vm_compute; reflexivity. Qed.

(** C6 (code_bug): a null [document_type] makes [validate_document]
    raise AttributeError ([None.lower()]) instead of returning the
    unknown-type report. *)
Theorem C6_null_document_type_raises :
  Strict.validate_document [("document_type", PNone)] = Raise AttributeError
  /\ Strict.validate_document [("document_type", PInt 7)] = Raise AttributeError.
Proof. split; [cbv; reflexivity | vm_compute; reflexivity]. Qed.

(** ** The strict report: status agrees with its entries *)
Module StrictFacts.
Import Strict StrictInv.

Lemma dict_set_not_nil {V} (d : list (string * V)) k v : dict_set d k v <> [].
Proof. destruct d as [|[k' v'] d]; simpl; [discriminate|]. destruct (String.eqb k k'); discriminate. Qed.

Lemma consistent_init : consistent init_report.
Proof. right. repeat split. Qed.

Lemma consistent_fail_field r f m : consistent (fail_field r f m).
Proof. left. split; [reflexivity|]. left. apply dict_set_not_nil. Qed.

Lemma consistent_fail_check r m : consistent (fail_check r m).
Proof. left. split; [reflexivity|]. right. simpl. destruct (logical_checks r); discriminate. Qed.

Create HintDb strict.
#[local] Hint Resolve consistent_init consistent_fail_field consistent_fail_check : strict.

Lemma consistent_apply_empty r e : consistent r -> consistent (apply_empty r e).
Proof.
  intros H. destruct e as [|kv e]; [exact H|].
  unfold apply_empty. apply fold_left_inv; auto.
  intros s x _ _. apply consistent_fail_field.
Qed.

Lemma consistent_optional_step doc dfs r fr :
  consistent r -> consistent (optional_step doc dfs r fr).
Proof.
  intros H. destruct fr as [f t]. unfold optional_step.
  destruct (dict_get doc f) as [v|]; [|exact H].
  destruct (in_placeholders v); [exact H|].
  destruct (isinstance v t); destruct (existsb (String.eqb f) dfs); simpl;
    try destruct (negb (is_str v) || negb (date_format v)); auto with strict.
Qed.

Lemma consistent_invoice_required_step inv r fr :
  consistent r -> consistent (invoice_required_step inv r fr).
Proof.
  intros H. destruct fr as [f t]. unfold invoice_required_step.
  destruct (dict_get inv f) as [v|]; [|auto with strict].
  destruct (negb (isinstance v t)); [auto with strict|].
  destruct (String.eqb f "invoice_date");
    [destruct (negb (is_str v) || negb (date_format v)); auto with strict|].
  destruct (String.eqb f "item_details"); [|exact H].
  destruct v as [| | | | |[|]|]; auto with strict.
Qed.

Lemma consistent_expense_required_step ex r fr :
  consistent r -> consistent (expense_required_step ex r fr).
Proof.
  intros H. destruct fr as [f t]. unfold expense_required_step.
  destruct (dict_get ex f) as [v|]; [|auto with strict].
  destruct (negb (isinstance v t)); [auto with strict|].
  destruct (String.eqb f "expense_items"); [|exact H].
  destruct v as [| | | | |[|]|]; auto with strict.
Qed.

Lemma consistent_try_total r body :
  (forall b, body = Ok b -> consistent b) -> consistent (try_total r body).
Proof.
  intros Hb. unfold try_total. destruct body as [b|e]; auto with strict.
Qed.

Lemma consistent_invoice_total_check inv r :
  consistent r -> consistent (invoice_total_check inv r).
Proof.
  intros H. unfold invoice_total_check.
  destruct (_ && _ && _); [|exact H].
  apply consistent_try_total. intros b Hb.
  repeat (apply bind_ok in Hb as [? [_ Hb]]).
  destruct (float_lt _ _); injection Hb as <-; auto with strict.
Qed.

Lemma consistent_expense_total_check ex r :
  consistent r -> consistent (expense_total_check ex r).
Proof.
  intros H. unfold expense_total_check.
  destruct (_ && _ && _); [|exact H].
  apply consistent_try_total. intros b Hb.
  repeat (apply bind_ok in Hb as [? [_ Hb]]).
  destruct (float_lt _ _); injection Hb as <-; auto with strict.
Qed.

(** [date_format] succeeds exactly when [strptime] does, so the
    [except Exception] branch of the period check is never reached. *)
Lemma date_format_strptime v : date_format v = true -> exists d, strptime v = Ok d.
Proof. unfold date_format. destruct (strptime v); [eauto | discriminate]. Qed.

Lemma consistent_expense_period_check ex r :
  consistent r -> consistent (expense_period_check ex r).
Proof.
  intros H. unfold expense_period_check.
  destruct (truthy _ && truthy _ && date_format _ && date_format _) eqn:C; [|exact H].
  apply andb_true_iff in C as [C C2]. apply andb_true_iff in C as [_ C1].
  apply date_format_strptime in C1 as [d1 E1].
  apply date_format_strptime in C2 as [d2 E2].
  rewrite E1, E2.
  destruct (date_gt d1 d2); auto with strict.
Qed.

Lemma consistent_expense_items_loop items : forall idx r r',
  consistent r -> expense_items_loop idx items r = Ok r' -> consistent r'.
Proof.
  induction items as [|it items IH]; simpl; intros idx r r' H E.
  - injection E as <-. exact H.
  - destruct it; try discriminate.
    eapply IH; [|exact E].
    destruct (_ && _); auto with strict.
Qed.

Lemma consistent_validate_invoice inv : consistent (validate_invoice inv).
Proof.
  unfold validate_invoice. cbv zeta.
  apply consistent_invoice_total_check.
  apply fold_left_inv; [intros; apply consistent_optional_step; auto|].
  apply fold_left_inv; [intros; apply consistent_invoice_required_step; auto|].
  apply consistent_apply_empty, consistent_init.
Qed.

Lemma consistent_validate_expense ex r :
  validate_expense ex = Ok r -> consistent r.
Proof.
  unfold validate_expense, expense_items_check. cbv zeta. intros E.
  assert (H3 : consistent (fold_left (optional_step ex ["report_date"; "period_start"; "period_end"])
                 EXPENSE_OPTIONAL_FIELDS
                 (fold_left (expense_required_step ex) EXPENSE_REQUIRED_FIELDS
                    (apply_empty init_report (find_empty_fields ex EXPENSE_REQUIRED_FIELDS))))).
  { apply fold_left_inv; [intros; apply consistent_optional_step; auto|].
    apply fold_left_inv; [intros; apply consistent_expense_required_step; auto|].
    apply consistent_apply_empty, consistent_init. }
  pose proof (consistent_expense_period_check ex _ (consistent_expense_total_check ex _ H3)) as H5.
  destruct (dict_get_default ex "expense_items" (PList [])).
  6: { eapply consistent_expense_items_loop; [exact H5|exact E]. }
  all: apply Ok_inj in E; subst r; exact H5.
Qed.

Lemma consistent_validate_document doc r :
  validate_document doc = Ok r -> consistent r.
Proof.
  unfold validate_document. destruct (dict_get_default doc "document_type" (PStr "")); try discriminate.
  destruct (String.eqb (lower s) "invoice").
  { intros E. apply Ok_inj in E. subst r. apply consistent_validate_invoice. }
  destruct (String.eqb (lower s) "expense_report"); [apply consistent_validate_expense|].
  intros E. injection E as <-. left. split; [reflexivity|]. left. discriminate.
Qed.

(** The only exception of the strict validator is AttributeError:
    [document_type] that is not a string, or an expense item that is not
    a dict. *)
Lemma expense_items_loop_raise items : forall idx r e,
  expense_items_loop idx items r = Raise e -> e = AttributeError.
Proof.
  induction items as [|it items IH]; simpl; intros idx r e E; [discriminate|].
  destruct it; try (injection E as <-; reflexivity). eapply IH, E.
Qed.

Lemma validate_document_raise doc e :
  validate_document doc = Raise e -> e = AttributeError.
Proof.
  unfold validate_document.
  destruct (dict_get_default doc "document_type" (PStr ""));
    try (intros E; injection E as <-; reflexivity).
  destruct (String.eqb (lower s) "invoice"); [discriminate|].
  destruct (String.eqb (lower s) "expense_report"); [|discriminate].
  unfold validate_expense, expense_items_check. cbv zeta.
  destruct (dict_get_default doc "expense_items" (PList [])); try discriminate.
  apply expense_items_loop_raise.
Qed.

End StrictFacts.

(** C10: for every mapping, a report of the strict validator has status
    ["fail"] exactly when [invalid_fields] or [logical_checks] is
    non-empty, and ["pass"] otherwise; the validator returns a report on
    every mapping except where it raises AttributeError (a non-string
    [document_type], or an expense item that is not a dict). *)
Theorem C10_status_matches_entries (doc : pydict) :
  (forall r, Strict.validate_document doc = Ok r ->
     (Strict.status r = "fail" <-> (Strict.invalid_fields r <> [] \/ Strict.logical_checks r <> []))
     /\ (Strict.status r <> "fail" -> Strict.status r = "pass"))
  /\ (forall e, Strict.validate_document doc = Raise e -> e = AttributeError).
Proof.
  split; [|apply StrictFacts.validate_document_raise].
  intros r E. destruct (StrictFacts.consistent_validate_document doc r E)
    as [[Hs Hne] | [Hs [Hi Hl]]]; rewrite Hs.
  - split; [tauto | intros []; reflexivity].
  - split; [|auto]. split; [discriminate|]. intros [H|H]; contradiction.
Qed.

Lemma C10_witness :
  Strict.validate_document expense_period_reversed
    = Ok (Strict.mkreport "fail" []
            [Strict.CheckText "period_start is after period_end"])
  /\ Strict.status (Strict.mkreport "fail" []
            [Strict.CheckText "period_start is after period_end"]) = "fail".
Proof.
  split; [vm_compute; reflexivity|].
  apply (proj1 (proj1 (C10_status_matches_entries expense_period_reversed) _
           ltac:(vm_compute; reflexivity))).
  right. discriminate.
Defined.


(** ** The confidence validator: metrics *)
Module ConfidenceFacts.

Lemma fold_left_iter {A} (f : state -> A -> state) (p : A -> bool)
    (bump : metrics -> metrics) (l : list A) :
  (forall r m x, snd (f (r, m) x) = if p x then bump m else m) ->
  forall st, snd (fold_left f l st) = Nat.iter (count_if p l) bump (snd st).
Proof.
  intros Hstep. induction l as [|x l IH]; intros [r m]; simpl; [reflexivity|].
  rewrite IH. destruct (f (r, m) x) as [r' m'] eqn:E.
  pose proof (Hstep r m x) as Hx. rewrite E in Hx. simpl in Hx |- *. rewrite Hx.
  destruct (p x); simpl; [|reflexivity]. apply Nat.iter_swap.
Qed.

Lemma foldM_iter {A} (f : state -> A -> res state) (p : A -> bool)
    (bump : metrics -> metrics) (l : list A) :
  (forall r m x st', f (r, m) x = Ok st' -> snd st' = if p x then bump m else m) ->
  forall st st', foldM f l st = Ok st' -> snd st' = Nat.iter (count_if p l) bump (snd st).
Proof.
  intros Hstep. induction l as [|x l IH]; intros [r m] st' E; simpl in E.
  - injection E as <-. reflexivity.
  - apply bind_ok in E as [[r1 m1] [E1 E2]].
    rewrite (IH _ _ E2). cbn [snd count_if]. rewrite (Hstep r m x _ E1 : m1 = _).
    destruct (p x); simpl; [|reflexivity]. apply Nat.iter_swap.
Qed.

Lemma present_false_get d f : present d f = false -> dict_get_default d f PNone = PNone.
Proof.
  unfold present, dict_get_default. destruct (dict_get d f) as [[]|]; simpl; congruence.
Qed.

Lemma required_step_metrics d r m f :
  snd (required_step d (r, m) f) = if present d f then bump_required m else m.
Proof. unfold required_step. destruct (present d f); reflexivity. Qed.

Lemma important_step_metrics d r m f :
  snd (important_step d (r, m) f) = if present d f then bump_important m else m.
Proof. unfold important_step. destruct (present d f); reflexivity. Qed.

Lemma completeness_step_metrics r m kv :
  snd (completeness_step (r, m) kv) = if other_field kv then bump_values m else m.
Proof. unfold completeness_step, other_field. destruct (_ && _ && _); reflexivity. Qed.

Lemma constraint_step_metrics d r m c st' :
  constraint_step d (r, m) c = Ok st' -> snd st' = m.
Proof.
  destruct c as [[f mn] mx]. unfold constraint_step.
  destruct (present d f); intros E; [|injection E as <-; reflexivity].
  apply bind_ok in E as [r1 [_ E]]. apply bind_ok in E as [r2 [_ E]].
  injection E as <-. reflexivity.
Qed.

Section WithIso.
Context {iso : IsoFormat}.

Lemma field_type_step_metrics d r m ft st' :
  field_type_step d (r, m) ft = Ok st' ->
  snd st' = if placeholder_hit d ft then bump_suspicious m else m.
Proof.
  destruct ft as [f t]. unfold field_type_step, placeholder_hit. cbn [fst].
  destruct (present d f) eqn:P.
  - intros E. apply bind_ok in E as [r1 [_ E]].
    remember (assoc placeholder_patterns f) as a eqn:A.
    remember (dict_get_default d f PNone) as v eqn:V.
    destruct a as [p|]; [destruct v as [| | | |str| |]|];
      try (injection E as <-; reflexivity).
    destruct (placeholder_match p str); injection E as <-; reflexivity.
  - intros E. injection E as <-. rewrite (present_false_get _ _ P).
    destruct (assoc placeholder_patterns f); reflexivity.
Qed.

Lemma logical_step_metrics d r m c st' :
  logical_step d (r, m) c = Ok st' ->
  snd st' = if check_evaluated d c then bump_checks (check_passed d c) m else m.
Proof.
  unfold logical_step, check_evaluated, check_passed.
  destruct (forallb (present d) (fields c)); intros E; [|injection E as <-; reflexivity].
  apply bind_ok in E as [b [Eb E]]. rewrite Eb.
  destruct b; injection E as <-; reflexivity.
Qed.

End WithIso.

(** Iterated bumps, field by field. *)
Lemma iter_bump_required n m :
  Nat.iter n bump_required m =
  mkmetrics (n + required_fields_present m) (required_fields_total m)
    (important_fields_present m) (important_fields_total m)
    (logical_checks_valid m) (logical_checks_total m)
    (n + fields_with_values m) (suspicious_values m).
Proof. induction n as [|n IH]; simpl; [destruct m; reflexivity|]. rewrite IH. reflexivity. Qed.

Lemma iter_bump_important n m :
  Nat.iter n bump_important m =
  mkmetrics (required_fields_present m) (required_fields_total m)
    (n + important_fields_present m) (important_fields_total m)
    (logical_checks_valid m) (logical_checks_total m)
    (n + fields_with_values m) (suspicious_values m).
Proof. induction n as [|n IH]; simpl; [destruct m; reflexivity|]. rewrite IH. reflexivity. Qed.

Lemma iter_bump_values n m :
  Nat.iter n bump_values m =
  mkmetrics (required_fields_present m) (required_fields_total m)
    (important_fields_present m) (important_fields_total m)
    (logical_checks_valid m) (logical_checks_total m)
    (n + fields_with_values m) (suspicious_values m).
Proof. induction n as [|n IH]; simpl; [destruct m; reflexivity|]. rewrite IH. reflexivity. Qed.

Lemma iter_bump_suspicious n m :
  Nat.iter n bump_suspicious m =
  mkmetrics (required_fields_present m) (required_fields_total m)
    (important_fields_present m) (important_fields_total m)
    (logical_checks_valid m) (logical_checks_total m)
    (fields_with_values m) (n + suspicious_values m).
Proof. induction n as [|n IH]; simpl; [destruct m; reflexivity|]. rewrite IH. reflexivity. Qed.

End ConfidenceFacts.
Module Counting.

Lemma count_if_ext {A} (p q : A -> bool) l :
  (forall x, p x = q x) -> count_if p l = count_if q l.
Proof. intros H. induction l as [|x l IH]; simpl; [reflexivity|]. rewrite H, IH. reflexivity. Qed.

Lemma count_if_orb {A} (p q : A -> bool) l :
  (forall x, p x && q x = false) ->
  count_if (fun x => p x || q x) l = count_if p l + count_if q l.
Proof.
  intros H. induction l as [|x l IH]; simpl; [reflexivity|]. rewrite IH.
  specialize (H x). destruct (p x), (q x); simpl in *; try discriminate; lia.
Qed.



Lemma existsb_eqb_in k L : existsb (String.eqb k) L = true -> In k L.
Proof.
  intros H. apply existsb_exists in H as [x [Hx E]].
  apply String.eqb_eq in E. subst. exact Hx.
Qed.

Lemma not_in_existsb k L : ~ In k L -> existsb (String.eqb k) L = false.
Proof.
  intros H. destruct (existsb (String.eqb k) L) eqn:E; [|reflexivity].
  exfalso. apply H, existsb_eqb_in, E.
Qed.

(** With distinct keys, one key contributes at most one entry. *)
Lemma count_key (d : pydict) (a : string) :
  NoDup (map fst d) ->
  count_if (fun kv => String.eqb (fst kv) a && not_none (snd kv)) d
  = if present d a then 1 else 0.
Proof.
  induction d as [|[k v] d IH]; simpl; intros ND; [reflexivity|].
  inversion ND as [|? ? Hk ND']; subst.
  unfold present. simpl. rewrite (String.eqb_sym a k).
  destruct (String.eqb k a) eqn:E.
  - apply String.eqb_eq in E. subst k.
    assert (Z : count_if (fun kv => String.eqb (fst kv) a && not_none (snd kv)) d = 0).
    { clear IH ND ND'. induction d as [|[k' v'] d IH']; simpl; [reflexivity|].
      simpl in Hk. destruct (String.eqb k' a) eqn:E'.
      - apply String.eqb_eq in E'. subst. exfalso. apply Hk. left. reflexivity.
      - simpl. apply IH'. intros H. apply Hk. right. exact H. }
    rewrite Z. simpl. destruct (not_none v); reflexivity.
  - simpl. rewrite IH by exact ND'. unfold present. reflexivity.
Qed.

Lemma count_keys (d : pydict) (L : list string) :
  NoDup (map fst d) -> NoDup L ->
  count_if (fun kv => existsb (String.eqb (fst kv)) L && not_none (snd kv)) d
  = count_if (present d) L.
Proof.
  intros ND. induction L as [|a L IH]; intros NDL; simpl.
  - clear ND. induction d as [|x d IHd]; simpl; [reflexivity|]. exact IHd.
  - inversion NDL as [|? ? Ha NDL']; subst.
    rewrite (count_if_ext _
               (fun kv => (String.eqb (fst kv) a && not_none (snd kv))
                          || (existsb (String.eqb (fst kv)) L && not_none (snd kv)))).
    + rewrite count_if_orb.
      * rewrite count_key by exact ND. rewrite IH by exact NDL'. reflexivity.
      * intros [k v]. simpl. destruct (String.eqb k a) eqn:E; [|reflexivity].
        apply String.eqb_eq in E. subst. rewrite not_in_existsb by exact Ha.
        destruct (not_none v); reflexivity.
    + intros x. destruct (String.eqb (fst x) a), (existsb (String.eqb (fst x)) L),
        (not_none (snd x)); reflexivity.
Qed.

Lemma required_important_disjoint k :
  existsb (String.eqb k) required_fields && existsb (String.eqb k) important_fields = false.
Proof.
  destruct (existsb (String.eqb k) required_fields) eqn:R; [|reflexivity].
  destruct (existsb (String.eqb k) important_fields) eqn:I; [|reflexivity].
  apply existsb_eqb_in in R, I. simpl in R, I.
  exfalso. repeat (destruct R as [<-|R]); try contradiction;
    repeat (destruct I as [I|I]; [discriminate I|]); contradiction.
Qed.

(** Fields with values = required present + important present + others. *)
Lemma fields_with_values_split (d : pydict) :
  NoDup (map fst d) ->
  spec_fields_with_values d
  = spec_required_present d + spec_important_present d + count_if other_field d.
Proof.
  intros ND. unfold spec_fields_with_values, spec_required_present, spec_important_present.
  rewrite <- (count_keys d required_fields ND) by (repeat constructor; simpl; intuition discriminate).
  rewrite <- (count_keys d important_fields ND) by (repeat constructor; simpl; intuition discriminate).
  unfold other_field. clear ND.
  induction d as [|[k v] d IH]; cbn [count_if fst snd]; [reflexivity|]. rewrite IH.
  pose proof (required_important_disjoint k) as Hd.
  destruct (existsb (String.eqb k) required_fields), (existsb (String.eqb k) important_fields),
    (not_none v); cbn in Hd |- *; try discriminate; lia.
Qed.

(** The suspicious-value counter of the type loop counts the fields of
    [placeholder_patterns] holding a matching string. *)
Lemma placeholder_hits_suspicious (d : pydict) :
  count_if (placeholder_hit d) field_types = spec_suspicious_count d.
Proof.
  unfold spec_suspicious_count, placeholder_hit, suspicious, dict_get_default. simpl.
  destruct (dict_get d "invoice_number") as [[]|];
  destruct (dict_get d "vendor_name") as [[]|];
  destruct (dict_get d "client_name") as [[]|]; simpl; lia.
Qed.

End Counting.

(** ** The confidence validator: from the loops to the formula *)
Module Pipeline.
Import ConfidenceFacts Counting.

(** The penalty [0.1 * min(n, 5)] never raises. *)
Lemma penalty_ok k : k <= 5 -> exists p, num_mul (NFloat f_0_1) (NInt (Z.of_nat k)) = Ok p.
Proof.
  intros H. destruct k as [|[|[|[|[|[|k]]]]]]; try lia; eexists; reflexivity.
Qed.

(** Steps of a computation in the exception monad, one at a time. *)
Ltac run_binds :=
  repeat (cbn [bind];
          match goal with
          | |- context [bind ?m _] =>
              lazymatch m with
              | Ok _ => fail
              | Raise _ => fail
              | bind _ _ => fail
              | _ => destruct m
              end
          end).

Section WithIso.
Context {iso : IsoFormat}.

Lemma validate_dict_steps d r :
  validate_dict d = Ok r ->
  exists st4 st5 r6 m6 b,
    foldM (field_type_step d) field_types
      (fold_left completeness_step d
         (fold_left (important_step d) important_fields
            (fold_left (required_step d) required_fields (init_result, init_metrics))))
      = Ok st4
    /\ foldM (constraint_step d) constraints st4 = Ok st5
    /\ foldM (logical_step d) logical_checks st5 = Ok (r6, m6)
    /\ blend m6 = Ok b
    /\ r = mkresult (valid r6) (errors r6) (warnings r6) (clamp01 b)
                    (Some (level_of (clamp01 b))).
Proof.
  unfold validate_dict. intros E.
  apply bind_ok in E as [st4 [E4 E]]. apply bind_ok in E as [st5 [E5 E]].
  apply bind_ok in E as [[r6 m6] [E6 E]]. apply bind_ok in E as [b [Eb E]].
  apply Ok_inj in E. subst r. exists st4, st5, r6, m6, b. auto.
Qed.

(** The metrics the code ends with. *)
Lemma final_metrics d st4 st5 r6 m6 :
  foldM (field_type_step d) field_types
    (fold_left completeness_step d
       (fold_left (important_step d) important_fields
          (fold_left (required_step d) required_fields (init_result, init_metrics))))
    = Ok st4 ->
  foldM (constraint_step d) constraints st4 = Ok st5 ->
  foldM (logical_step d) logical_checks st5 = Ok (r6, m6) ->
  m6 = mkmetrics (spec_required_present d) 3 (spec_important_present d) 5
         (spec_checks_passed d) (spec_checks_evaluated d)
         (spec_required_present d + spec_important_present d + count_if other_field d)
         (spec_suspicious_count d).
Proof.
  intros E4 E5 E6.
  pose proof (foldM_iter _ _ _ _ (fun r m x st' H => field_type_step_metrics d r m x st' H) _ _ E4)
    as M4.
  rewrite fold_left_iter with (p := other_field) (bump := bump_values)
    in M4 by (intros; apply completeness_step_metrics).
  rewrite fold_left_iter with (p := present d) (bump := bump_important)
    in M4 by (intros; apply important_step_metrics).
  rewrite fold_left_iter with (p := present d) (bump := bump_required)
    in M4 by (intros; apply required_step_metrics).
  rewrite iter_bump_suspicious, iter_bump_values, iter_bump_important, iter_bump_required in M4.
  cbn [snd] in M4. rewrite placeholder_hits_suspicious in M4.
  assert (M5 : snd st5 = snd st4).
  { apply (foldM_iter (constraint_step d) (fun _ => false) bump_suspicious constraints)
      with (st := st4) in E5; [exact E5|].
    intros r m x st' H. apply (constraint_step_metrics _ _ _ _ _ H). }
  assert (T : logical_checks_total m6 = spec_checks_evaluated d + logical_checks_total (snd st5)).
  { apply (foldM_count (fun st => logical_checks_total (snd st)) (check_evaluated d)
             (logical_step d) logical_checks) with (s := st5) (s' := (r6, m6)); [|exact E6].
    intros [r m] c st' _ H. rewrite (logical_step_metrics _ _ _ _ _ H).
    destruct (check_evaluated d c); reflexivity. }
  assert (V : logical_checks_valid m6 = spec_checks_passed d + logical_checks_valid (snd st5)).
  { apply (foldM_count (fun st => logical_checks_valid (snd st))
             (fun c => check_evaluated d c && check_passed d c)
             (logical_step d) logical_checks) with (s := st5) (s' := (r6, m6)); [|exact E6].
    intros [r m] c st' _ H. rewrite (logical_step_metrics _ _ _ _ _ H).
    destruct (check_evaluated d c), (check_passed d c); reflexivity. }
  set (frozen := fun m : metrics =>
         (required_fields_present m, required_fields_total m, important_fields_present m,
          important_fields_total m, fields_with_values m, suspicious_values m)).
  assert (F : frozen m6 = frozen (snd st5)).
  { apply (foldM_inv (fun st => frozen (snd st) = frozen (snd st5)) (logical_step d)
             logical_checks) with (s := st5) (s' := (r6, m6)); [|reflexivity|exact E6].
    intros [r m] c st' _ Hs H. rewrite (logical_step_metrics _ _ _ _ _ H).
    destruct (check_evaluated d c); [|exact Hs]. rewrite <- Hs. reflexivity. }
  rewrite M5, M4 in T, V, F. cbn in T, V.
  unfold frozen in F. cbn in F.
  destruct m6; cbn in *. injection F as -> -> -> -> -> ->.
  rewrite T, V. f_equal; lia.
Qed.

(** On the final metrics, [blend] computes the weighted sum and the
    penalty of the formula, then their difference. *)
Lemma blend_final d :
  NoDup (map fst d) ->
  blend (final d) = (u <- spec_unpenalised d ;; p <- spec_penalty d ;; num_sub u p).
Proof.
  intros ND. unfold final, blend, spec_unpenalised, spec_penalty, score.
  cbn [required_fields_present required_fields_total
    important_fields_present important_fields_total logical_checks_valid logical_checks_total
    fields_with_values suspicious_values].
  rewrite <- (fields_with_values_split d ND).
  destruct (penalty_ok (Nat.min (spec_suspicious_count d) 5)) as [p Hp]; [lia|].
  unfold f_0_1 in Hp.
  unfold w_required, w_important, w_logical, w_field_count, f_0_1, expected_field_count.
  rewrite Hp.
  change (Z.of_nat (List.length required_fields)) with 3%Z.
  change (Z.of_nat (List.length important_fields)) with 5%Z.
  change (Z.of_nat 3) with 3%Z. change (Z.of_nat 5) with 5%Z.
  change (Nat.ltb 0 3) with true. change (Nat.ltb 0 5) with true. cbv iota.
  destruct (spec_checks_evaluated d) as [|n]; cbn [Nat.ltb Nat.leb Nat.eqb];
    run_binds; cbn [bind]; reflexivity.
Qed.


End WithIso.
End Pipeline.

(** ** The confidence validator: errors and warnings only grow *)
Module Growth.
Import ResultInv.


Lemma grows_refl E r : grows E r r.
Proof. exists [], []. rewrite !app_nil_r. auto. Qed.

Lemma grows_weaken (E E' : string -> Prop) r r' :
  (forall e, E e -> E' e) -> grows E r r' -> grows E' r r'.
Proof.
  intros H [es [ws [He [Hf [Hw Hv]]]]]. exists es, ws.
  repeat split; auto. eapply Forall_impl; eauto.
Qed.

Lemma grows_trans E r1 r2 r3 : grows E r1 r2 -> grows E r2 r3 -> grows E r1 r3.
Proof.
  intros [es1 [ws1 [He1 [Hf1 [Hw1 Hv1]]]]] [es2 [ws2 [He2 [Hf2 [Hw2 Hv2]]]]].
  exists (es1 ++ es2)%list, (ws1 ++ ws2)%list.
  rewrite He2, He1, Hw2, Hw1, !app_assoc. repeat split; auto.
  apply Forall_app; auto.
Qed.

Lemma grows_add_error (E : string -> Prop) r e : E e -> grows E r (add_error r e).
Proof. intros H. exists [e], []. simpl. rewrite app_nil_r. repeat split; auto. discriminate. Qed.

Lemma grows_add_warning E r w : grows E r (add_warning r w).
Proof. exists [], [w]. simpl. rewrite app_nil_r. repeat split; auto. Qed.

Create HintDb growth.
#[local] Hint Resolve grows_refl grows_add_error grows_add_warning : growth.

Lemma grows_fold_left {A} (E : A -> string -> Prop) (f : state -> A -> state) l :
  (forall st x, In x l -> grows (E x) (fst st) (fst (f st x))) ->
  forall st, grows (fun e => exists x, In x l /\ E x e) (fst st) (fst (fold_left f l st)).
Proof.
  induction l as [|x l IH]; simpl; intros Hstep st; [apply grows_refl|].
  eapply grows_trans.
  - eapply grows_weaken; [|apply (Hstep st x (or_introl eq_refl))].
    intros e He. exists x. auto.
  - eapply grows_weaken; [|apply IH; intros; apply Hstep; auto].
    intros e [y [Hy He]]. exists y. auto.
Qed.

Lemma grows_foldM {A} (E : A -> string -> Prop) (f : state -> A -> res state) l :
  (forall st x st', In x l -> f st x = Ok st' -> grows (E x) (fst st) (fst st')) ->
  forall st st', foldM f l st = Ok st' ->
  grows (fun e => exists x, In x l /\ E x e) (fst st) (fst st').
Proof.
  induction l as [|x l IH]; simpl; intros Hstep st st' H.
  - injection H as <-. apply grows_refl.
  - apply bind_ok in H as [st1 [H1 H2]]. eapply grows_trans.
    + eapply grows_weaken; [|apply (Hstep st x st1 (or_introl eq_refl) H1)].
      intros e He. exists x. auto.
    + eapply grows_weaken; [|eapply IH; [intros; eapply Hstep; eauto | exact H2]].
      intros e [y [Hy He]]. exists y. auto.
Qed.


Ltac type_error_tac :=
  eexists; split; [reflexivity|];
  intros HT; first [discriminate HT | split; reflexivity].

Lemma required_step_grows d st f :
  grows (missing_error f) (fst st) (fst (required_step d st f)).
Proof.
  destruct st as [r m]. unfold required_step.
  destruct (present d f); simpl; auto with growth. apply grows_add_error. reflexivity.
Qed.

Lemma important_step_grows d st f (E : string -> Prop) :
  grows E (fst st) (fst (important_step d st f)).
Proof. destruct st as [r m]. unfold important_step. destruct (present d f); simpl; auto with growth. Qed.

Lemma completeness_step_grows st kv (E : string -> Prop) :
  grows E (fst st) (fst (completeness_step st kv)).
Proof. destruct st as [r m]. unfold completeness_step. destruct (_ && _ && _); simpl; auto with growth. Qed.

Section WithIso.
Context {iso : IsoFormat}.

Lemma type_check_grows d f t r r' :
  type_check f t (dict_get_default d f PNone) r = Ok r' ->
  grows (type_error d (f, t)) r r'.
Proof.
  unfold type_check, type_error. cbn [fst snd].
  destruct t; destruct (dict_get_default d f PNone) eqn:V; intros E;
    try (injection E as <-; first [apply grows_refl | apply grows_add_error; type_error_tac]).
  destruct (assoc formats f).
  - destruct (fmt_match f0 s); injection E as <-; [apply grows_refl|].
    apply grows_add_error. type_error_tac.
  - destruct (fromisoformat (PStr s)) as [|[]]; try discriminate;
      injection E as <-; [apply grows_refl|].
    apply grows_add_error. type_error_tac.
Qed.

Lemma field_type_step_grows d st ft st' :
  field_type_step d st ft = Ok st' -> grows (type_error d ft) (fst st) (fst st').
Proof.
  destruct st as [r m], ft as [f t]. unfold field_type_step.
  destruct (present d f); intros E; [|injection E as <-; apply grows_refl].
  apply bind_ok in E as [r1 [E1 E]].
  apply type_check_grows in E1.
  remember (assoc placeholder_patterns f) as a.
  remember (dict_get_default d f PNone) as v.
  destruct a as [p|]; [destruct v|];
    try (injection E as <-; exact E1).
  destruct (placeholder_match p s); injection E as <-; [|exact E1].
  eapply grows_trans; [exact E1|]. apply grows_add_warning.
Qed.

Lemma constraint_step_grows d st c st' :
  constraint_step d st c = Ok st' -> grows (constraint_error c) (fst st) (fst st').
Proof.
  destruct st as [r m], c as [[f mn] mx]. unfold constraint_step.
  destruct (present d f); intros E; [|injection E as <-; apply grows_refl].
  apply bind_ok in E as [r1 [E1 E]]. apply bind_ok in E as [r2 [E2 E]].
  injection E as <-. simpl.
  assert (G1 : grows (constraint_error (f, mn, mx)) r r1).
  { destruct mn as [lo|]; [|injection E1 as <-; apply grows_refl].
    apply bind_ok in E1 as [b [_ E1]]. injection E1 as <-.
    destruct b; [|apply grows_refl]. apply grows_add_error. eexists. reflexivity. }
  eapply grows_trans; [exact G1|].
  destruct mx as [hi|]; [|injection E2 as <-; apply grows_refl].
  apply bind_ok in E2 as [b [_ E2]]. injection E2 as <-.
  destruct b; [|apply grows_refl]. apply grows_add_error. eexists. reflexivity.
Qed.

Lemma logical_step_grows d st c st' :
  logical_step d st c = Ok st' -> grows (check_error c) (fst st) (fst st').
Proof.
  destruct st as [r m]. unfold logical_step.
  destruct (forallb (present d) (fields c)); intros E; [|injection E as <-; apply grows_refl].
  apply bind_ok in E as [b [_ E]].
  destruct b; injection E as <-; [apply grows_refl|]. apply grows_add_error. reflexivity.
Qed.

End WithIso.


End Growth.

(** ** Where the errors of a confidence report come from *)
Module Origins.
Import ResultInv Growth.

Section WithIso.
Context {iso : IsoFormat}.


Lemma after_required_grows d r :
  validate_dict d = Ok r -> grows (dict_error d) (fst (after_required d)) r.
Proof.
  intros E. destruct (Pipeline.validate_dict_steps d r E) as (st4&st5&r6&m6&b&E4&E5&E6&Eb&->).
  unfold after_required.
  eapply grows_trans.
  { eapply grows_weaken; [|apply (grows_fold_left (A:=string) (fun _ _ => False))];
      [intros e [x [_ []]] | intros; apply important_step_grows]. }
  eapply grows_trans.
  { eapply grows_weaken; [|apply (grows_fold_left (A:=string*pyval) (fun _ _ => False))];
      [intros e [x [_ []]] | intros; apply completeness_step_grows]. }
  eapply grows_trans.
  { eapply grows_weaken; [|eapply (grows_foldM (type_error d)); [|exact E4]].
    - intros e He. right; left. exact He.
    - intros st x st' _ H. eapply field_type_step_grows, H. }
  eapply grows_trans.
  { eapply grows_weaken; [|eapply (grows_foldM constraint_error); [|exact E5]].
    - intros e He. right; right; left. exact He.
    - intros st x st' _ H. eapply constraint_step_grows, H. }
  eapply grows_trans.
  { eapply grows_weaken; [|eapply (grows_foldM check_error); [|exact E6]].
    - intros e He. right; right; right. exact He.
    - intros st x st' _ H. eapply logical_step_grows, H. }
  exists [], []. cbn. rewrite !app_nil_r. auto.
Qed.

Lemma validate_dict_grows d r :
  validate_dict d = Ok r -> grows (dict_error d) init_result r.
Proof.
  intros E. eapply grows_trans; [|exact (after_required_grows d r E)].
  eapply grows_weaken; [|apply (grows_fold_left missing_error)].
  - intros e He. left. exact He.
  - intros st x _. apply required_step_grows.
Qed.


Lemma foldM_app {A S} (f : S -> A -> res S) l1 l2 s s' :
  foldM f (l1 ++ l2) s = Ok s' ->
  exists s1, foldM f l1 s = Ok s1 /\ foldM f l2 s1 = Ok s'.
Proof.
  revert s. induction l1 as [|x l1 IH]; simpl; intros s E; [eauto|].
  apply bind_ok in E as [s0 [E0 E]]. destruct (IH s0 E) as [s1 [E1 E2]].
  exists s1. rewrite E0. simpl. auto.
Qed.

(** From the end of the type loop to the report, errors and warnings only grow. *)
Lemma after_types_grows d r :
  validate_dict d = Ok r ->
  exists st4,
    foldM (field_type_step d) field_types
      (fold_left completeness_step d
         (fold_left (important_step d) important_fields (after_required d))) = Ok st4
    /\ grows (fun _ => True) (fst st4) r.
Proof.
  intros E. destruct (Pipeline.validate_dict_steps d r E) as (st4&st5&r6&m6&b&E4&E5&E6&Eb&->).
  exists st4. split; [exact E4|].
  eapply grows_trans.
  { eapply grows_weaken; [|eapply (grows_foldM constraint_error); [|exact E5]].
    - intros; exact I.
    - intros st x st' _ H. eapply constraint_step_grows, H. }
  eapply grows_trans.
  { eapply grows_weaken; [|eapply (grows_foldM check_error); [|exact E6]].
    - intros; exact I.
    - intros st x st' _ H. eapply logical_step_grows, H. }
  exists [], []. cbn. rewrite !app_nil_r. auto.
Qed.

End WithIso.
End Origins.



(** ** The confidence score *)




(** C9: every non-dict input gives a report with valid = false, one error,
    the int confidence 0 and no confidence level; a dict input that returns
    a report has a confidence level. *)
Theorem C9_level_only_for_dicts {iso : IsoFormat} (v : pyval) :
  (is_dict v = false ->
     exists r, validate_invoice_data v = Ok r /\ valid r = false /\ errors r <> []
       /\ confidence r = NInt 0 /\ confidence_level r = None)
  /\ (forall r, is_dict v = true -> validate_invoice_data v = Ok r ->
        exists l, confidence_level r = Some l).
Proof.
  split.
  - intros Hv. destruct v as [| | | | | |d]; try discriminate Hv;
      (eexists; split; [reflexivity|]; cbn; repeat split; first [discriminate | reflexivity]).
  - intros r Hv E. destruct v as [| | | | | |d]; try discriminate Hv.
    cbn [validate_invoice_data] in E.
    destruct (Pipeline.validate_dict_steps d r E) as (st4&st5&r6&m6&b&E4&E5&E6&Eb&->).
    eexists. reflexivity.
Qed.

Lemma C9_witness :
  is_dict (PList []) = false
  /\ exists r, validate_invoice_data (iso:=iso_date_only) (PList []) = Ok r /\ valid r = false
       /\ errors r <> [] /\ confidence r = NInt 0 /\ confidence_level r = None.
Proof.
  split; [reflexivity|].
  apply (proj1 (C9_level_only_for_dicts (iso:=iso_date_only) (PList []))). reflexivity.
Defined.

(** ** Bounds on the blended score *)
Module Bounds.
Import Counting Pipeline.









Section WithIso.
Context {iso : IsoFormat}.


End WithIso.
End Bounds.





(** ** A placeholder vendor name *)
Module Placeholder.
Import ResultInv Growth Origins.

Lemma append_cancel_l (p x y : string) : p ++ x = p ++ y -> x = y.
Proof. induction p as [|a p IH]; simpl; [auto|]. intros H. injection H. exact IH. Qed.

Lemma no_vendor_error d e sfx :
  dict_get d "vendor_name" = Some (PStr "N/A") ->
  dict_error d e -> e <> "Field " ++ dq ++ "vendor_name" ++ dq ++ sfx.
Proof.
  intros Hv He ->.
  destruct He as [[f [_ Hm]] | [[ft [Hft Ht]] | [[c [Hc Hce]] | [c [Hc Hce]]]]].
  - unfold missing_error in Hm. cbn in Hm. discriminate Hm.
  - destruct Ht as [sfx' [He' Hs]].
    unfold field_types in Hft. cbn in Hft.
    repeat destruct Hft as [<- | Hft]; try contradiction;
      first [ cbn in He'; discriminate He' | idtac ].
    cbn [fst snd] in He', Hs.
    do 4 apply append_cancel_l in He'. subst sfx'.
    destruct (Hs eq_refl) as [_ Hstr].
    unfold dict_get_default in Hstr. rewrite Hv in Hstr. discriminate Hstr.
  - destruct Hce as [sfx' He']. unfold constraints in Hc. cbn in Hc.
    repeat destruct Hc as [<- | Hc]; try contradiction; cbn in He'; discriminate He'.
  - unfold check_error in Hce. unfold logical_checks in Hc. cbn in Hc.
    repeat destruct Hc as [<- | Hc]; try contradiction; cbn in Hce; discriminate Hce.
Qed.

Lemma vendor_suspicious d :
  dict_get d "vendor_name" = Some (PStr "N/A") -> 1 <= spec_suspicious_count d.
Proof.
  intros Hv. unfold spec_suspicious_count, placeholder_patterns. cbn [count_if].
  assert (S : suspicious d ("vendor_name", NamePlaceholder) = true).
  { unfold suspicious. cbn [fst snd]. rewrite Hv. vm_compute. reflexivity. }
  rewrite S. lia.
Qed.

Section WithIso.
Context {iso : IsoFormat}.

Lemma vendor_step d st st' :
  dict_get d "vendor_name" = Some (PStr "N/A") ->
  field_type_step d st ("vendor_name", FString) = Ok st' ->
  st' = (add_warning (fst st) vendor_warning, bump_suspicious (snd st)).
Proof.
  intros Hv E. destruct st as [r m].
  unfold field_type_step, present, dict_get_default in E. rewrite Hv in E.
  simpl in E. apply Ok_inj in E. subst st'. reflexivity.
Qed.

Lemma vendor_warning_kept d r :
  dict_get d "vendor_name" = Some (PStr "N/A") ->
  validate_dict d = Ok r -> In vendor_warning (warnings r).
Proof.
  intros Hv E. destruct (after_types_grows d r E) as [st4 [E4 G]].
  assert (Hsplit : field_types =
    (firstn 7 field_types ++ ("vendor_name", FString) :: skipn 8 field_types)%list) by reflexivity.
  rewrite Hsplit in E4.
  apply foldM_app in E4 as [s1 [_ E4]]. cbn [foldM] in E4.
  apply bind_ok in E4 as [s2 [Es2 Epost]].
  apply (vendor_step _ _ _ Hv) in Es2. subst s2.
  assert (G2 : grows (fun _ => True)
                 (fst (add_warning (fst s1) vendor_warning, bump_suspicious (snd s1))) (fst st4)).
  { eapply grows_weaken; [|eapply (grows_foldM (type_error d)); [|exact Epost]].
    - intros; exact I.
    - intros st x st' _ H. eapply field_type_step_grows, H. }
  cbn [fst] in G2.
  destruct (grows_trans _ _ _ _ G2 G) as [es [ws [_ [_ [Hw _]]]]].
  rewrite Hw. cbn [warnings add_warning]. apply in_or_app. left.
  apply in_or_app. right. left. reflexivity.
Qed.

End WithIso.
End Placeholder.

(** C8: with vendor_name = "N/A" (keys distinct) no error about vendor_name
    is reported, a placeholder warning is, vendor_name counts as a suspicious
    value, and the confidence is the blended score minus the penalty
    [0.1 * min(suspicious values, 5)], clamped to [0, 1] (in binary64
    arithmetic, as Python computes it). *)
Theorem C8_placeholder_vendor_name {iso : IsoFormat} (d : pydict) (r : result) :
  NoDup (map fst d) ->
  dict_get d "vendor_name" = Some (PStr "N/A") ->
  validate_invoice_data (PDict d) = Ok r ->
  (forall sfx, ~ In ("Field " ++ dq ++ "vendor_name" ++ dq ++ sfx) (errors r))
  /\ In ("Field " ++ dq ++ "vendor_name" ++ dq ++ " appears to contain a placeholder value: "
         ++ dq ++ "N/A" ++ dq) (warnings r)
  /\ 1 <= spec_suspicious_count d
  /\ exists u p x, spec_unpenalised d = Ok u
       /\ spec_penalty d = Ok p
       /\ num_sub u p = Ok x /\ confidence r = clamp01 x.
Proof.
  intros ND Hv E. cbn [validate_invoice_data] in E.
  split; [|split; [|split]].
  - intros sfx Hin.
    destruct (Origins.validate_dict_grows d r E) as [es [ws [He [Hf _]]]].
    rewrite He in Hin. cbn [errors init_result app] in Hin.
    rewrite Forall_forall in Hf.
    exact (Placeholder.no_vendor_error d _ sfx Hv (Hf _ Hin) eq_refl).
  - exact (Placeholder.vendor_warning_kept d r Hv E).
  - exact (Placeholder.vendor_suspicious d Hv).
  - destruct (Pipeline.validate_dict_steps d r E) as (st4&st5&r6&m6&b&E4&E5&E6&Eb&->).
    cbn [confidence].
    rewrite (Pipeline.final_metrics _ _ _ _ _ E4 E5 E6) in Eb. fold (final d) in Eb.
    rewrite (Pipeline.blend_final d ND) in Eb.
    destruct (spec_unpenalised d) as [u|ex]; [|discriminate].
    cbn [bind] in Eb.
    destruct (spec_penalty d) as [p|ex]; [|discriminate].
    cbn [bind] in Eb. exists u, p, b. auto.
Qed.

Lemma C8_witness :
  exists r, validate_invoice_data (iso:=iso_date_only) (PDict placeholder_vendor_invoice) = Ok r
  /\ (forall sfx, ~ In ("Field " ++ dq ++ "vendor_name" ++ dq ++ sfx) (errors r))
  /\ In ("Field " ++ dq ++ "vendor_name" ++ dq ++ " appears to contain a placeholder value: "
         ++ dq ++ "N/A" ++ dq) (warnings r)
  /\ 1 <= spec_suspicious_count placeholder_vendor_invoice
  /\ exists u p x, spec_unpenalised (iso:=iso_date_only) placeholder_vendor_invoice = Ok u
       /\ spec_penalty placeholder_vendor_invoice = Ok p
       /\ num_sub u p = Ok x /\ confidence r = clamp01 x.
Proof.
  eexists. split; [vm_compute; reflexivity|].
  apply (C8_placeholder_vendor_name (iso:=iso_date_only)).
  - vm_compute. repeat constructor; simpl; intuition discriminate.
  - vm_compute. reflexivity.
  - vm_compute. reflexivity.
Defined.


(** ** The reconciliation tolerance *)

(** C7 (code_bug): the two validators disagree on the reconciliation.
    At a difference of exactly 0.01 (subtotal 0, tax 0, total 0.01) the
    confidence validator's amount_calculation check ([abs(...) < 0.01])
    records its error, while the strict validators ([abs(...) > 0.01])
    record no logical-check entry; and the confidence validator ignores
    [total_discount]: 100 + 10 - 10 = 100 fails there and passes in the
    strict invoice validator. *)
Theorem C7_tolerance_mismatch :
  (exists r, validate_invoice_data (iso:=iso_date_only) (PDict total_at_tolerance) = Ok r
     /\ In "Total amount should equal subtotal plus tax amount" (errors r))
  /\ Strict.logical_checks (Strict.validate_invoice strict_total_at_tolerance) = []
  /\ Strict.expense_total_check strict_total_at_tolerance Strict.init_report = Strict.init_report
  /\ (exists r, validate_invoice_data (iso:=iso_date_only) (PDict discounted_total) = Ok r
     /\ In "Total amount should equal subtotal plus tax amount" (errors r))
  /\ Strict.logical_checks (Strict.validate_invoice strict_discounted_total) = [].
Proof.
  split; [|split; [|split; [|split]]].
  - eexists. split; [vm_compute; reflexivity|]. vm_compute. auto.
  - vm_compute. reflexivity.
  - vm_compute. reflexivity.
  - eexists. split; [vm_compute; reflexivity|]. vm_compute. auto.
  - vm_compute. reflexivity.
Qed.

(** * Further properties of the code *)

(** ** Dates rendered and parsed by the strict validator *)

Module DateFacts.
Import DateText.

Lemma digit_char_ok (n : Z) :
  (0 <= n <= 9)%Z -> is_digit (digit_char n) = true /\ digit_val (digit_char n) = n.
Proof.
  intros Hn. unfold digit_char, is_digit, digit_val.
  rewrite nat_ascii_embedding by lia. split.
  - apply andb_true_intro. split; apply Nat.leb_le; lia.
  - rewrite Nat.add_comm, Nat.add_sub. apply Z2Nat.id. lia.
Qed.

Lemma year_digits (y : Z) :
  (0 <= y <= 9999)%Z ->
  (1000 * (y / 1000) + 100 * (y / 100 mod 10) + 10 * (y / 10 mod 10) + y mod 10 = y)%Z.
Proof.
  intros _.
  pose proof (Z.div_mod y 10 ltac:(lia)) as E1.
  pose proof (Z.div_mod (y / 10) 10 ltac:(lia)) as E2.
  pose proof (Z.div_mod (y / 100) 10 ltac:(lia)) as E3.
  rewrite Z.div_div in E2 by lia. rewrite Z.div_div in E3 by lia.
  change (10 * 10)%Z with 100%Z in E2. change (100 * 10)%Z with 1000%Z in E3.
  lia.
Qed.

Lemma days_in_month_le y m : (days_in_month y m <= 31)%Z.
Proof.
  unfold days_in_month. destruct (Z.eqb m 2), (is_leap y),
    (Z.eqb m 4 || Z.eqb m 6 || Z.eqb m 9 || Z.eqb m 11); lia.
Qed.

Lemma month_day_table :
  forallb (fun m => forallb (fun d =>
      forallb (fun mr => forallb (fun dr =>
          match first_month_day (month_alts (mr m ++ "-" ++ dr d)) with
          | Some (m', d', EmptyString) => Z.eqb m' m && Z.eqb d' d
          | _ => false
          end) [pad2; unpadded; space_padded]) [pad2; unpadded])
    (map Z.of_nat (seq 1 31))) (map Z.of_nat (seq 1 12)) = true.
Proof. vm_compute. reflexivity. Qed.

Lemma in_range (z : Z) (a n : nat) :
  (Z.of_nat a <= z < Z.of_nat (a + n))%Z -> In z (map Z.of_nat (seq a n)).
Proof.
  intros H. apply in_map_iff. exists (Z.to_nat z). split; [apply Z2Nat.id; lia|].
  apply in_seq. lia.
Qed.

Lemma month_day_parse (m d : Z) (mr dr : Z -> string) :
  (1 <= m <= 12)%Z -> (1 <= d <= 31)%Z ->
  (mr = pad2 \/ mr = unpadded) -> (dr = pad2 \/ dr = unpadded \/ dr = space_padded) ->
  first_month_day (month_alts (mr m ++ String "-" (dr d))) = Some (m, d, EmptyString).
Proof.
  intros Hm Hd Hmr Hdr. pose proof month_day_table as T.
  rewrite forallb_forall in T. specialize (T m (in_range m 1 12 ltac:(lia))).
  rewrite forallb_forall in T. specialize (T d (in_range d 1 31 ltac:(lia))).
  rewrite forallb_forall in T. specialize (T mr ltac:(simpl; intuition)).
  rewrite forallb_forall in T. specialize (T dr ltac:(simpl; intuition)).
  destruct (first_month_day _) as [[[m' d'] [|c s]]|]; try discriminate.
  apply andb_true_iff in T as [T1 T2]. apply Z.eqb_eq in T1, T2. subst. reflexivity.
Qed.

End DateFacts.

Import DateText DateFacts.

(** X1: [strptime(s, "%Y-%m-%d")], hence [date_format], accepts every valid
    date written with a four-digit year, a zero-padded or unpadded month
    and a zero-padded, unpadded or space-padded day, and returns that date. *)
Theorem strptime_renderings (dt : date) (mr dr : Z -> string) :
  valid_date dt = true ->
  (mr = pad2 \/ mr = unpadded) -> (dr = pad2 \/ dr = unpadded \/ dr = space_padded) ->
  strptime (PStr (render mr dr dt)) = Ok dt.
Proof.
  destruct dt as [y m d]. unfold valid_date. cbn [year month day].
  intros V Hmr Hdr.
  assert (Hdm := days_in_month_le y m).
  repeat rewrite andb_true_iff in V. rewrite !Z.leb_le in V.
  destruct V as [[[[[Y1 Y2] M1] M2] D1] D2].
  unfold render, pad4. cbn [year month day append strptime strptime_ymd].
  destruct (digit_char_ok (y / 1000) ltac:(split; [apply Z.div_pos; lia | cut (y / 1000 < 10)%Z; [lia | apply Z.div_lt_upper_bound; lia]])) as [A1 B1].
  destruct (digit_char_ok (y / 100 mod 10) ltac:(pose proof (Z.mod_pos_bound (y / 100) 10); lia)) as [A2 B2].
  destruct (digit_char_ok (y / 10 mod 10) ltac:(pose proof (Z.mod_pos_bound (y / 10) 10); lia)) as [A3 B3].
  destruct (digit_char_ok (y mod 10) ltac:(pose proof (Z.mod_pos_bound y 10); lia)) as [A4 B4].
  rewrite A1, A2, A3, A4, B1, B2, B3, B4. cbn [andb is_dash].
  change (nat_of_ascii "-") with 45. cbn [Nat.eqb].
  rewrite (month_day_parse m d mr dr) by (auto; lia).
  rewrite year_digits by lia.
  unfold mk_datetime.
  replace ((1 <=? y)%Z && (y <=? 9999)%Z && (1 <=? m)%Z && (m <=? 12)%Z && (1 <=? d)%Z
           && (d <=? days_in_month y m)%Z) with true; [reflexivity|].
  symmetry. repeat rewrite andb_true_iff. rewrite !Z.leb_le. lia.
Qed.

Lemma strptime_renderings_witness :
  valid_date (mkdate 2023 5 7) = true
  /\ strptime (PStr (render unpadded space_padded (mkdate 2023 5 7))) = Ok (mkdate 2023 5 7).
Proof.
  split; [reflexivity|].
  apply strptime_renderings; [reflexivity | right; reflexivity | right; right; reflexivity].
Defined.


Module ConfidenceMore.
Import ResultInv Growth Origins Placeholder ConfidenceAux.

Section WithIso.
Context {iso : IsoFormat}.


Lemma after_required_grows_later d r :
  validate_dict d = Ok r -> grows (later_error d) (fst (after_required d)) r.
Proof.
  intros E. destruct (Pipeline.validate_dict_steps d r E) as (st4&st5&r6&m6&b&E4&E5&E6&Eb&->).
  unfold after_required.
  eapply grows_trans.
  { eapply grows_weaken; [|apply (grows_fold_left (A:=string) (fun _ _ => False))];
      [intros e [x [_ []]] | intros; apply important_step_grows]. }
  eapply grows_trans.
  { eapply grows_weaken; [|apply (grows_fold_left (A:=string*pyval) (fun _ _ => False))];
      [intros e [x [_ []]] | intros; apply completeness_step_grows]. }
  eapply grows_trans.
  { eapply grows_weaken; [|eapply (grows_foldM (type_error d)); [|exact E4]].
    - intros e He. left. exact He.
    - intros st x st' _ H. eapply field_type_step_grows, H. }
  eapply grows_trans.
  { eapply grows_weaken; [|eapply (grows_foldM constraint_error); [|exact E5]].
    - intros e He. right; left. exact He.
    - intros st x st' _ H. eapply constraint_step_grows, H. }
  eapply grows_trans.
  { eapply grows_weaken; [|eapply (grows_foldM check_error); [|exact E6]].
    - intros e He. right; right. exact He.
    - intros st x st' _ H. eapply logical_step_grows, H. }
  exists [], []. cbn. rewrite !app_nil_r. auto.
Qed.

Lemma later_not_missing d f e : later_error d e -> e <> "Missing required field: " ++ f.
Proof.
  intros [[ft [_ [sfx [-> _]]]] | [[c [_ [sfx ->]]] | [c [Hc ->]]]]; intros H.
  - cbn in H. discriminate H.
  - cbn in H. discriminate H.
  - unfold logical_checks in Hc. cbn in Hc.
    repeat destruct Hc as [<- | Hc]; try contradiction; cbn in H; discriminate H.
Qed.

Lemma required_loop_errors d l st :
  errors (fst (fold_left (required_step d) l st))
  = (errors (fst st) ++ map (fun f => ("Missing required field: " ++ f)%string)
                            (filter (fun f => negb (present d f)) l))%list.
Proof.
  revert st. induction l as [|f l IH]; intros [r m]; simpl; [rewrite app_nil_r; reflexivity|].
  rewrite IH. unfold required_step. destruct (present d f); simpl; [reflexivity|].
  rewrite <- app_assoc. reflexivity.
Qed.

Lemma required_loop_warnings d l st :
  warnings (fst (fold_left (required_step d) l st)) = warnings (fst st).
Proof.
  revert st. induction l as [|f l IH]; intros [r m]; simpl; [reflexivity|].
  rewrite IH. unfold required_step. destruct (present d f); reflexivity.
Qed.

Lemma important_loop_warnings d l st :
  warnings (fst (fold_left (important_step d) l st))
  = (warnings (fst st) ++ map (fun f => ("Missing important field: " ++ f)%string)
                              (filter (fun f => negb (present d f)) l))%list.
Proof.
  revert st. induction l as [|f l IH]; intros [r m]; simpl; [rewrite app_nil_r; reflexivity|].
  rewrite IH. unfold important_step. destruct (present d f); simpl; [reflexivity|].
  rewrite <- app_assoc. reflexivity.
Qed.

Lemma in_prefixed_map (p f : string) (l : list string) :
  In (p ++ f) (map (fun x => p ++ x) l) <-> In f l.
Proof.
  split; [|apply in_map].
  intros H. apply in_map_iff in H as [x [Hx Hin]]. apply append_cancel_l in Hx. subst. exact Hin.
Qed.



Lemma wgrows_refl r : wgrows r r.
Proof. exists []. rewrite app_nil_r. auto. Qed.

Lemma wgrows_trans r1 r2 r3 : wgrows r1 r2 -> wgrows r2 r3 -> wgrows r1 r3.
Proof.
  intros [w1 [H1 F1]] [w2 [H2 F2]]. exists (w1 ++ w2)%list.
  rewrite H2, H1, app_assoc. split; [reflexivity|]. apply Forall_app; auto.
Qed.

Lemma wgrows_same r r' : warnings r' = warnings r -> wgrows r r'.
Proof. intros H. exists []. rewrite app_nil_r. auto. Qed.

Lemma wgrows_foldM {A} (f : state -> A -> res state) l :
  (forall st x st', In x l -> f st x = Ok st' -> wgrows (fst st) (fst st')) ->
  forall st st', foldM f l st = Ok st' -> wgrows (fst st) (fst st').
Proof.
  induction l as [|x l IH]; simpl; intros Hstep st st' H.
  - injection H as <-. apply wgrows_refl.
  - apply bind_ok in H as [st1 [H1 H2]]. eapply wgrows_trans.
    + eapply Hstep; eauto.
    + eapply IH; eauto.
Qed.

Lemma type_check_warnings f t v r r' : type_check f t v r = Ok r' -> warnings r' = warnings r.
Proof.
  unfold type_check. destruct t; destruct v; intros E;
    try (destruct (is_str _) || destruct (is_num _) || destruct (is_list _));
    try (injection E as <-; reflexivity).
  destruct (assoc formats f) as [p|].
  - destruct (fmt_match p s); injection E as <-; reflexivity.
  - destruct (fromisoformat (PStr s)) as [|[]]; try discriminate; injection E as <-; reflexivity.
Qed.

Lemma field_type_step_wgrows d st ft st' : field_type_step d st ft = Ok st' -> wgrows (fst st) (fst st').
Proof.
  destruct st as [r m], ft as [f t]. unfold field_type_step.
  destruct (present d f); intros E; [|injection E as <-; apply wgrows_refl].
  apply bind_ok in E as [r1 [E1 E]]. apply type_check_warnings in E1.
  destruct (assoc placeholder_patterns f) as [p|]; [destruct (dict_get_default d f PNone)|];
    try (injection E as <-; apply wgrows_same; exact E1).
  destruct (placeholder_match p s); injection E as <-; [|apply wgrows_same; exact E1].
  exists [("Field " ++ dq ++ f ++ dq ++ " appears to contain a placeholder value: " ++ dq ++ s ++ dq)].
  simpl. rewrite E1. split; [reflexivity|]. repeat constructor. exists f, s. reflexivity.
Qed.

Lemma constraint_step_warnings d st c st' : constraint_step d st c = Ok st' -> warnings (fst st') = warnings (fst st).
Proof.
  destruct st as [r m], c as [[f mn] mx]. unfold constraint_step.
  destruct (present d f); intros E; [|injection E as <-; reflexivity].
  apply bind_ok in E as [r1 [E1 E]]. apply bind_ok in E as [r2 [E2 E]].
  injection E as <-. simpl.
  assert (W1 : warnings r1 = warnings r).
  { destruct mn as [lo|]; [|injection E1 as <-; reflexivity].
    apply bind_ok in E1 as [b [_ E1]]. injection E1 as <-. destruct b; reflexivity. }
  rewrite <- W1.
  destruct mx as [hi|]; [|injection E2 as <-; reflexivity].
  apply bind_ok in E2 as [b [_ E2]]. injection E2 as <-. destruct b; reflexivity.
Qed.

Lemma logical_step_warnings d st c st' : logical_step d st c = Ok st' -> warnings (fst st') = warnings (fst st).
Proof.
  destruct st as [r m]. unfold logical_step.
  destruct (forallb (present d) (fields c)); intros E; [|injection E as <-; reflexivity].
  apply bind_ok in E as [b [_ E]]. destruct b; injection E as <-; reflexivity.
Qed.

Lemma completeness_loop_result l st : fst (fold_left completeness_step l st) = fst st.
Proof.
  revert st. induction l as [|kv l IH]; intros [r m]; simpl; [reflexivity|].
  rewrite IH. unfold completeness_step. destruct (_ && _ && _); reflexivity.
Qed.

Lemma after_important_wgrows d r :
  validate_dict d = Ok r ->
  wgrows (fst (fold_left (important_step d) important_fields (after_required d))) r.
Proof.
  intros E. destruct (Pipeline.validate_dict_steps d r E) as (st4&st5&r6&m6&b&E4&E5&E6&Eb&->).
  eapply wgrows_trans; [|eapply wgrows_trans].
  - eapply wgrows_foldM in E4; [|intros; eapply field_type_step_wgrows; eauto].
    rewrite completeness_loop_result in E4. exact E4.
  - apply wgrows_same.
    apply (foldM_inv (fun st => warnings (fst st) = warnings (fst st4)) _ _
             (fun st x st' _ Hs H => eq_trans (constraint_step_warnings _ _ _ _ H) Hs)
             st4 st5 eq_refl E5).
  - apply wgrows_same. cbn [warnings].
    apply (foldM_inv (fun st => warnings (fst st) = warnings (fst st5)) _ _
             (fun st x st' _ Hs H => eq_trans (logical_step_warnings _ _ _ _ H) Hs)
             st5 (r6, m6) eq_refl E6).
Qed.


Lemma grows_errors_kept E r r' e : grows E r r' -> In e (errors r) -> In e (errors r').
Proof. intros [es [ws [He _]]] H. rewrite He. apply in_or_app. auto. Qed.

Lemma grows_warnings_kept E r r' w : grows E r r' -> In w (warnings r) -> In w (warnings r').
Proof. intros [es [ws [_ [_ [Hw _]]]]] H. rewrite Hw. apply in_or_app. auto. Qed.

(** The step of the type loop for a given field, and what follows it. *)
Lemma field_step_in d r x :
  validate_dict d = Ok r -> In x field_types ->
  exists s1 s2, field_type_step d s1 x = Ok s2 /\ grows (fun _ => True) (fst s2) r.
Proof.
  intros E Hin. destruct (after_types_grows d r E) as [st4 [E4 G]].
  apply in_split in Hin as [l1 [l2 Hl]]. rewrite Hl in E4.
  apply foldM_app in E4 as [s1 [_ E4]]. cbn [foldM] in E4.
  apply bind_ok in E4 as [s2 [Es2 Epost]].
  exists s1, s2. split; [exact Es2|].
  eapply grows_trans; [|exact G].
  eapply grows_weaken; [|eapply (grows_foldM (type_error d)); [|exact Epost]].
  - intros; exact I.
  - intros st y st' _ H. eapply field_type_step_grows, H.
Qed.

Lemma constraint_step_in d r c :
  validate_dict d = Ok r -> In c constraints ->
  exists s1 s2, constraint_step d s1 c = Ok s2 /\ grows (fun _ => True) (fst s2) r.
Proof.
  intros E Hin. destruct (Pipeline.validate_dict_steps d r E) as (st4&st5&r6&m6&b&E4&E5&E6&Eb&->).
  apply in_split in Hin as [l1 [l2 Hl]]. rewrite Hl in E5.
  apply foldM_app in E5 as [s1 [_ E5]]. cbn [foldM] in E5.
  apply bind_ok in E5 as [s2 [Es2 Epost]].
  exists s1, s2. split; [exact Es2|].
  eapply grows_trans.
  { eapply grows_weaken; [|eapply (grows_foldM constraint_error); [|exact Epost]].
    - intros; exact I.
    - intros st y st' _ H. eapply constraint_step_grows, H. }
  eapply grows_trans.
  { eapply grows_weaken; [|eapply (grows_foldM check_error); [|exact E6]].
    - intros; exact I.
    - intros st y st' _ H. eapply logical_step_grows, H. }
  exists [], []. cbn. rewrite !app_nil_r. auto.
Qed.

Lemma present_some d f v : dict_get d f = Some v -> not_none v = true -> present d f = true.
Proof. unfold present. intros -> H. exact H. Qed.

Lemma field_type_step_error d st f t v e st' :
  dict_get d f = Some v -> not_none v = true ->
  type_check f t v (fst st) = Ok (add_error (fst st) e) ->
  field_type_step d st (f, t) = Ok st' -> In e (errors (fst st')).
Proof.
  intros Hv Hn Ht. destruct st as [r m]. unfold field_type_step.
  rewrite (present_some _ _ _ Hv Hn). unfold dict_get_default. rewrite Hv.
  cbn [fst] in Ht. rewrite Ht. cbn [bind].
  assert (In e (errors (add_error r e))) by (simpl; apply in_or_app; right; left; reflexivity).
  destruct (assoc placeholder_patterns f) as [p|]; [destruct v|]; intros E;
    try (injection E as <-; exact H).
  destruct (placeholder_match p s); injection E as <-; [|exact H].
  exact H.
Qed.

Lemma field_type_step_placeholder d st f t s p st' :
  dict_get d f = Some (PStr s) -> assoc placeholder_patterns f = Some p ->
  placeholder_match p s = true ->
  field_type_step d st (f, t) = Ok st' ->
  In ("Field " ++ dq ++ f ++ dq ++ " appears to contain a placeholder value: " ++ dq ++ s ++ dq)
     (warnings (fst st')).
Proof.
  intros Hv Hp Hm. destruct st as [r m]. unfold field_type_step.
  rewrite (present_some _ _ _ Hv eq_refl). unfold dict_get_default. rewrite Hv, Hp.
  intros E. apply bind_ok in E as [r1 [_ E]]. rewrite Hm in E. injection E as <-.
  simpl. apply in_or_app. right. left. reflexivity.
Qed.

Lemma type_check_ok f t v r :
  (t = FDate -> assoc formats f <> None) -> exists r', type_check f t v r = Ok r'.
Proof.
  intros H. unfold type_check. destruct t.
  - destruct (is_str v); eauto.
  - destruct v; eauto. destruct (assoc formats f) as [p|]; [|destruct (H eq_refl); reflexivity].
    destruct (fmt_match p s); eauto.
  - destruct (is_num v); eauto.
  - destruct (is_list v); eauto.
Qed.

Lemma field_type_step_ok d st x : In x field_types -> exists st', field_type_step d st x = Ok st'.
Proof.
  intros Hin. destruct st as [r m], x as [f t]. unfold field_type_step.
  destruct (present d f); [|eauto].
  destruct (type_check_ok f t (dict_get_default d f PNone) r) as [r1 Hr1].
  { intros ->. unfold field_types in Hin. cbn in Hin.
    repeat destruct Hin as [Hin|Hin]; try injection Hin as <-; try discriminate;
      try contradiction; discriminate. }
  rewrite Hr1. cbn [bind].
  destruct (assoc placeholder_patterns f) as [p|]; [destruct (dict_get_default d f PNone)|]; eauto.
  destruct (placeholder_match p s); eauto.
Qed.

Lemma foldM_total {A S} (f : S -> A -> res S) l :
  (forall s x, In x l -> exists s', f s x = Ok s') -> forall s, exists s', foldM f l s = Ok s'.
Proof.
  induction l as [|x l IH]; simpl; intros H s; [eauto|].
  destruct (H s x (or_introl eq_refl)) as [s1 ->]. simpl. apply IH. auto.
Qed.

Lemma foldM_raise {A S} (f : S -> A -> res S) l e :
  (forall s x, In x l -> (exists s', f s x = Ok s') \/ f s x = Raise e) ->
  (exists x, In x l /\ forall s, f s x = Raise e) ->
  forall s, foldM f l s = Raise e.
Proof.
  induction l as [|x l IH]; simpl; intros H [y [Hy Hr]] s; [destruct Hy|].
  destruct Hy as [<-|Hy].
  - rewrite Hr. reflexivity.
  - destruct (H s x (or_introl eq_refl)) as [[s1 ->]| ->]; simpl; [|reflexivity].
    apply IH; eauto.
Qed.

Lemma constraint_step_cases d st c :
  (exists st', constraint_step d st c = Ok st') \/ constraint_step d st c = Raise TypeError.
Proof.
  destruct st as [r m], c as [[f mn] mx]. unfold constraint_step.
  destruct (present d f); [|eauto].
  unfold py_lt_lit, py_gt_lit.
  destruct (num_of (dict_get_default d f PNone)) as [x|];
    destruct mn, mx; simpl; eauto.
Qed.


Lemma flag_ok_add_error r e : flag_ok (add_error r e).
Proof. unfold flag_ok. simpl. split; [discriminate|]. intros H. destruct (app_cons_not_nil _ _ _ (eq_sym H)). Qed.

Lemma flag_ok_add_warning r w : flag_ok r -> flag_ok (add_warning r w).
Proof. unfold flag_ok. simpl. auto. Qed.

Create HintDb flag.
#[local] Hint Resolve flag_ok_add_error flag_ok_add_warning : flag.

Lemma flag_ok_field_type_step d st ft st' :
  flag_ok (fst st) -> field_type_step d st ft = Ok st' -> flag_ok (fst st').
Proof.
  destruct st as [r m], ft as [f t]. unfold field_type_step. cbn [fst]. intros H.
  destruct (present d f); intros E; [|injection E as <-; exact H].
  apply bind_ok in E as [r1 [E1 E]].
  assert (H1 : flag_ok r1).
  { unfold type_check in E1. destruct t; destruct (dict_get_default d f PNone);
      try (destruct (is_str _) || destruct (is_num _) || destruct (is_list _));
      try (injection E1 as <-; auto with flag).
    destruct (assoc formats f) as [p|].
    - destruct (fmt_match p s); injection E1 as <-; auto with flag.
    - destruct (fromisoformat (PStr s)) as [|[]]; try discriminate; injection E1 as <-; auto with flag. }
  destruct (assoc placeholder_patterns f) as [p|]; [destruct (dict_get_default d f PNone)|];
    try (injection E as <-; exact H1).
  destruct (placeholder_match p s); injection E as <-; auto with flag.
Qed.

Lemma flag_ok_constraint_step d st c st' :
  flag_ok (fst st) -> constraint_step d st c = Ok st' -> flag_ok (fst st').
Proof.
  destruct st as [r m], c as [[f mn] mx]. unfold constraint_step. cbn [fst]. intros H.
  destruct (present d f); intros E; [|injection E as <-; exact H].
  apply bind_ok in E as [r1 [E1 E]]. apply bind_ok in E as [r2 [E2 E]].
  injection E as <-. cbn [fst].
  assert (H1 : flag_ok r1).
  { destruct mn as [lo|]; [|injection E1 as <-; exact H].
    apply bind_ok in E1 as [b [_ E1]]. injection E1 as <-. destruct b; auto with flag. }
  destruct mx as [hi|]; [|injection E2 as <-; exact H1].
  apply bind_ok in E2 as [b [_ E2]]. injection E2 as <-. destruct b; auto with flag.
Qed.

Lemma flag_ok_logical_step d st c st' :
  flag_ok (fst st) -> logical_step d st c = Ok st' -> flag_ok (fst st').
Proof.
  destruct st as [r m]. unfold logical_step. cbn [fst]. intros H.
  destruct (forallb (present d) (fields c)); intros E; [|injection E as <-; exact H].
  apply bind_ok in E as [b [_ E]]. destruct b; injection E as <-; cbn [fst]; auto with flag.
Qed.
End WithIso.
End ConfidenceMore.


(** ** [validate_invoice_file] *)

Module InvoiceFileFacts.
Import InvoiceFile.

Section WithDigits.
Variable max_str_digits : Z.

Lemma dict_get_in (d : pydict) k v : dict_get d k = Some v -> In (k, v) d.
Proof.
  induction d as [|[k' v'] d IH]; simpl; [discriminate|].
  destruct (String.eqb k k') eqn:E; [|auto].
  apply String.eqb_eq in E. subst k'. intros H. injection H as <-. auto.
Qed.

Lemma dict_get_default_in (d : pydict) k : In k (map fst d) ->
  exists v, dict_get_default d k PNone = v /\ In (k, v) d.
Proof.
  intros H. unfold dict_get_default. destruct (dict_get d k) as [v|] eqn:E.
  - exists v. split; [reflexivity | apply dict_get_in, E].
  - exfalso. induction d as [|[k' v'] d IH]; simpl in *; [exact H|].
    destruct (String.eqb k k') eqn:E'; [discriminate|].
    destruct H as [H|H]; [subst k'; rewrite String.eqb_refl in E'; discriminate | auto].
Qed.

Lemma forallb_prints (d : pydict) (P : string -> bool) :
  (forall k v, In (k, v) d -> format_value_prints max_str_digits v = true) ->
  forallb (fun k => P k || format_value_prints max_str_digits (dict_get_default d k PNone)) (map fst d) = true.
Proof.
  intros H. apply forallb_forall. intros k Hk.
  destruct (dict_get_default_in d k Hk) as [v [-> Hv]]. rewrite (H k v Hv). apply orb_true_r.
Qed.

Lemma items_loop (items : list pyval) :
  (forall it k v, In (PDict it) items -> In (k, v) it -> format_value_prints max_str_digits v = true) ->
  foldM (fun _ item =>
           match item with
           | PDict it =>
               if forallb (fun k => format_value_prints max_str_digits (dict_get_default it k PNone)) (map fst it)
               then Ok tt else Raise ValueError
           | _ => Raise AttributeError
           end) items tt
  = if forallb is_dict items then Ok tt else Raise AttributeError.
Proof.
  induction items as [|item items IH]; intros H; [reflexivity|]. simpl.
  destruct item as [| | | | | |it0]; try reflexivity.
  assert (Hf : forallb (fun k => format_value_prints max_str_digits (dict_get_default it0 k PNone)) (map fst it0) = true).
  { pose proof (forallb_prints it0 (fun _ => false)) as P. simpl in P. apply P.
    intros k v Hin. eapply H; [left; reflexivity | exact Hin]. }
  rewrite Hf. simpl. apply IH. intros it k v Hi Hk. eapply H; [right; exact Hi | exact Hk].
Qed.

End WithDigits.
End InvoiceFileFacts.

(** X3: [validate_invoice_file] on a record that is neither a JSON string nor
    a dict: the KeyError on [confidence_level] is caught and the except
    branch's dict is returned. *)
Theorem validate_invoice_file_nondict {iso : IsoFormat} (json_loads : string -> res pyval)
    (max_str_digits : Z) (v : pyval) :
  is_str v = false -> is_dict v = false ->
  InvoiceFile.validate_invoice_file json_loads max_str_digits v
  = inl (mkresult false ["Validation error: 'confidence_level'"] [] (NInt 0) (Some "Very Low")).
Proof. destruct v; simpl; intros; try discriminate; reflexivity. Qed.

Lemma validate_invoice_file_nondict_witness :
  InvoiceFile.validate_invoice_file (iso:=iso_date_only) (fun _ => Raise JSONDecodeError) 4300 (PInt 3)
  = inl (mkresult false ["Validation error: 'confidence_level'"] [] (NInt 0) (Some "Very Low")).
Proof. apply validate_invoice_file_nondict; reflexivity. Defined.

(** X5: On a dict whose values all print, [validate_invoice_file] returns
    the dict of the except branch for the exception [validate_invoice_data]
    raises, if it raises; otherwise the validator's result, unless
    [line_items] is a list holding a non-dict item: then [item.items()]
    raises AttributeError and the except branch's dict is returned instead. *)
Theorem validate_invoice_file_dict {iso : IsoFormat} (json_loads : string -> res pyval)
    (max_str_digits : Z) (d : pydict) :
  (forall k v, In (k, v) d -> InvoiceFile.format_value_prints max_str_digits v = true) ->
  (forall items it k v, dict_get d "line_items" = Some (PList items) -> In (PDict it) items ->
     In (k, v) it -> InvoiceFile.format_value_prints max_str_digits v = true) ->
  InvoiceFile.validate_invoice_file json_loads max_str_digits (PDict d)
  = match validate_invoice_data (PDict d) with
    | Raise e => inr e
    | Ok r =>
        match dict_get d "line_items" with
        | Some (PList items) => if forallb is_dict items then inl r else inr AttributeError
        | _ => inl r
        end
    end.
Proof.
  intros Hd Hi. unfold InvoiceFile.validate_invoice_file.
  destruct (validate_invoice_data (PDict d)) as [r|e] eqn:E; [|reflexivity].
  assert (Hl : exists l, confidence_level r = Some l).
  { cbn [validate_invoice_data] in E.
    destruct (Pipeline.validate_dict_steps d r E) as (st4&st5&r6&m6&b&E4&E5&E6&Eb&->).
    eexists. reflexivity. }
  destruct Hl as [l ->]. unfold InvoiceFile.print_assessment.
  rewrite (InvoiceFileFacts.forallb_prints max_str_digits d (fun k => String.eqb k "line_items") Hd).
  destruct (dict_get d "line_items") as [[| | | | |items|]|] eqn:Li; try reflexivity.
  rewrite InvoiceFileFacts.items_loop.
  - destruct (forallb is_dict items); reflexivity.
  - intros it k v. apply Hi. reflexivity.
Qed.

Lemma validate_invoice_file_dict_witness :
  InvoiceFile.validate_invoice_file (iso:=iso_date_only) (fun _ => Raise JSONDecodeError) 4300
    (PDict [("line_items", PList [PStr "x"])])
  = match validate_invoice_data (iso:=iso_date_only) (PDict [("line_items", PList [PStr "x"])]) with
    | Raise e => inr e
    | Ok r =>
        match dict_get [("line_items", PList [PStr "x"])] "line_items" with
        | Some (PList items) => if forallb is_dict items then inl r else inr AttributeError
        | _ => inl r
        end
    end
  /\ InvoiceFile.validate_invoice_file (iso:=iso_date_only) (fun _ => Raise JSONDecodeError) 4300
       (PDict [("line_items", PList [PStr "x"])]) = inr AttributeError.
Proof.
  split; [|vm_compute; reflexivity].
  apply validate_invoice_file_dict.
  - intros k v [H|[]]. injection H as <- <-. reflexivity.
  - intros items it k v L Hi. vm_compute in L. injection L as <-.
    destruct Hi as [H|[]]. discriminate H.
Defined.

Module Chronology.
Import ResultInv Growth Origins ConfidenceAux ConfidenceMore.

Section WithIso.
Context {iso : IsoFormat}.



Lemma grows_not_in r r' : grows (fun e => e <> chrono_msg) r r' ->
  (In chrono_msg (errors r') <-> In chrono_msg (errors r)).
Proof.
  intros [es [ws [He [Hf _]]]]. rewrite He, in_app_iff. rewrite Forall_forall in Hf.
  split; [intros [H|H]; [exact H | destruct (Hf _ H eq_refl)] | auto].
Qed.

Lemma absent_no_date d f : present d f = false -> forall dt, fromisoformat (dict_get_default d f PNone) <> Ok dt.
Proof. intros H dt. rewrite (ConfidenceFacts.present_false_get d f H). discriminate. Qed.

Lemma chronology_step d st st' :
  logical_step d st (mkcheck "dates_chronology" ["invoice_date"; "due_date"] chrono_msg) = Ok st' ->
  (In chrono_msg (errors (fst st')) <-> In chrono_msg (errors (fst st)) \/ chrono_fails d).
Proof.
  destruct st as [r m]. unfold logical_step. cbv [fields forallb validate_logical_check name].
  unfold chrono_fails.
  destruct (present d "invoice_date") eqn:P1;
    [|intros E; injection E as <-; split; [auto | intros [H|(d1&d2&F1&_)]; [exact H|]];
      destruct (absent_no_date d _ P1 d1 F1)].
  destruct (present d "due_date") eqn:P2;
    [|intros E; injection E as <-; split; [auto | intros [H|(d1&d2&_&F2&_)]; [exact H|]];
      destruct (absent_no_date d _ P2 d2 F2)].
  cbn [negb andb]. rewrite String.eqb_refl.
  destruct (fromisoformat (dict_get_default d "invoice_date" PNone)) as [d1|] eqn:F1;
    [|discriminate]. cbn [bind].
  destruct (fromisoformat (dict_get_default d "due_date" PNone)) as [d2|] eqn:F2;
    [|discriminate]. cbn [bind].
  destruct (datetime_le d1 d2) as [[|]|ex] eqn:L; cbn [bind]; intros E; [| |discriminate E];
    apply Ok_inj in E; subst st'; cbn [fst errors add_error].
  - split; [auto|]. intros [H|(e1&e2&G1&G2&G3)]; [exact H|].
    injection G1 as <-. injection G2 as <-. congruence.
  - rewrite in_app_iff. split.
    + intros [H|[H|[]]]; [auto|]. right. exists d1, d2. auto.
    + intros _. right. left. reflexivity.
Qed.

Lemma before_checks d st4 st5 :
  foldM (field_type_step d) field_types
    (fold_left completeness_step d
       (fold_left (important_step d) important_fields
          (fold_left (required_step d) required_fields (init_result, init_metrics)))) = Ok st4 ->
  foldM (constraint_step d) constraints st4 = Ok st5 ->
  ~ In chrono_msg (errors (fst st5)).
Proof.
  intros E4 E5.
  assert (G : grows (fun e => e <> chrono_msg) (fst (init_result, init_metrics)) (fst st5)).
  { eapply grows_trans.
    { eapply grows_weaken; [|apply (grows_fold_left missing_error)].
      - intros e [f [_ ->]]. unfold chrono_msg. discriminate.
      - intros st x _. apply required_step_grows. }
    eapply grows_trans.
    { eapply grows_weaken; [|apply (grows_fold_left (A:=string) (fun _ _ => False))];
        [intros e [x [_ []]] | intros; apply important_step_grows]. }
    eapply grows_trans.
    { eapply grows_weaken; [|apply (grows_fold_left (A:=string*pyval) (fun _ _ => False))];
        [intros e [x [_ []]] | intros; apply completeness_step_grows]. }
    eapply grows_trans.
    { eapply grows_weaken; [|eapply (grows_foldM (type_error d)); [|exact E4]].
      - intros e [ft [_ [sfx [-> _]]]]. unfold chrono_msg. discriminate.
      - intros st x st' _ H. eapply field_type_step_grows, H. }
    eapply grows_weaken; [|eapply (grows_foldM constraint_error); [|exact E5]].
    - intros e [c [_ [sfx ->]]]. unfold chrono_msg. discriminate.
    - intros st x st' _ H. eapply constraint_step_grows, H. }
  rewrite (grows_not_in _ _ G). simpl. tauto.
Qed.

Lemma constraint_step_num d st c :
  (present d (fst (fst c)) = false \/ exists x, num_of (dict_get_default d (fst (fst c)) PNone) = Some x) ->
  exists st', constraint_step d st c = Ok st'.
Proof.
  destruct st as [r m], c as [[f mn] mx]. cbn [fst]. unfold constraint_step.
  intros [P | [x Hx]]; [rewrite P; eauto|].
  destruct (present d f); [|eauto]. unfold py_lt_lit, py_gt_lit. rewrite Hx.
  destruct mn, mx; simpl; eauto.
Qed.

Lemma other_check_grows d s c s' :
  logical_step d s c = Ok s' -> error_message c <> chrono_msg ->
  grows (fun e => e <> chrono_msg) (fst s) (fst s').
Proof.
  intros E Hc. eapply grows_weaken; [|exact (logical_step_grows d s c s' E)].
  intros e He. unfold check_error in He. congruence.
Qed.

End WithIso.
End Chronology.

(** X6: The chronology error is reported exactly when both dates parse and
    the due date is earlier than the invoice date. *)
Theorem dates_chronology_error {iso : IsoFormat} (d : pydict) (r : result) :
  validate_invoice_data (PDict d) = Ok r ->
  (In "Due date must be on or after invoice date" (errors r) <->
   exists d1 d2, fromisoformat (dict_get_default d "invoice_date" PNone) = Ok d1
     /\ fromisoformat (dict_get_default d "due_date" PNone) = Ok d2 /\ datetime_le d1 d2 = Ok false).
Proof.
  intros E. change (validate_dict d = Ok r) in E.
  destruct (Pipeline.validate_dict_steps d r E) as (st4&st5&r6&m6&b&E4&E5&E6&Eb&->).
  change (In ConfidenceAux.chrono_msg (errors (fst (r6, m6))) <-> ConfidenceAux.chrono_fails d).
  pose proof (Chronology.before_checks d st4 st5 E4 E5) as Pre.
  unfold logical_checks in E6. cbn [foldM] in E6.
  apply bind_ok in E6 as [s1 [E61 E6]].
  apply bind_ok in E6 as [s2 [E62 E6]].
  apply bind_ok in E6 as [s3 [E63 E6]]. injection E6 as <-.
  pose proof (Chronology.other_check_grows d s2 _ s3 E63) as G3.
  pose proof (Chronology.other_check_grows d s1 _ s2 E62) as G2.
  cbn [error_message] in G2, G3. unfold ConfidenceAux.chrono_msg in G2, G3 at 1.
  rewrite (Chronology.grows_not_in _ _ (G3 ltac:(discriminate))).
  rewrite (Chronology.grows_not_in _ _ (G2 ltac:(discriminate))).
  rewrite (Chronology.chronology_step d st5 s1 E61). tauto.
Qed.

Lemma dates_chronology_error_witness :
  exists r, validate_invoice_data (iso:=iso_date_only)
              (PDict [("invoice_date", PStr "2023-06-15"); ("due_date", PStr "2023-05-15")]) = Ok r
  /\ In "Due date must be on or after invoice date" (errors r).
Proof.
  destruct (validate_invoice_data (iso:=iso_date_only)
              (PDict [("invoice_date", PStr "2023-06-15"); ("due_date", PStr "2023-05-15")]))
    as [r|e] eqn:E; [|vm_compute in E; discriminate E].
  exists r. split; [reflexivity|].
  apply (proj2 (dates_chronology_error (iso:=iso_date_only) _ r E)).
  exists (mkdt (mkdate 2023 6 15) 0 None), (mkdt (mkdate 2023 5 15) 0 None).
  vm_compute. repeat split.
Defined.

(** X7: A date field holding [YYYY-MM-DD] digits that name no calendar day
    (such as ["2023-02-30"], which the format pattern accepts): when both dates
    are present [datetime.fromisoformat] raises ValueError out of
    [validate_invoice_data], provided the amount fields hold numbers or
    nothing (so the constraint loop before it does not raise first). *)
Theorem bad_calendar_date_raises {iso : IsoFormat} (d : pydict) :
  present d "invoice_date" = true -> present d "due_date" = true ->
  (fromisoformat (dict_get_default d "invoice_date" PNone) = Raise ValueError
   \/ (exists d1, fromisoformat (dict_get_default d "invoice_date" PNone) = Ok d1
        /\ fromisoformat (dict_get_default d "due_date" PNone) = Raise ValueError)) ->
  (forall c, In c constraints -> present d (fst (fst c)) = false
     \/ exists x, num_of (dict_get_default d (fst (fst c)) PNone) = Some x) ->
  validate_invoice_data (PDict d) = Raise ValueError.
Proof.
  intros P1 P2 Hd Hc. change (validate_dict d = Raise ValueError). unfold validate_dict.
  cbv zeta.
  destruct (ConfidenceMore.foldM_total (field_type_step d) field_types
              (fun s x H => ConfidenceMore.field_type_step_ok d s x H)
              (fold_left completeness_step d
                 (fold_left (important_step d) important_fields
                    (fold_left (required_step d) required_fields (init_result, init_metrics)))))
    as [st4 ->].
  cbn [bind].
  destruct (ConfidenceMore.foldM_total (constraint_step d) constraints
              (fun s x H => Chronology.constraint_step_num d s x (Hc x H)) st4) as [st5 ->].
  cbn [bind]. destruct st5 as [r5 m5].
  unfold logical_checks. cbn [foldM]. unfold logical_step at 1.
  cbv [fields forallb validate_logical_check name]. rewrite P1, P2. cbn [negb andb].
  rewrite String.eqb_refl.
  destruct Hd as [-> | [d1 [-> ->]]]; reflexivity.
Qed.

Lemma bad_calendar_date_raises_witness :
  validate_invoice_data (iso:=iso_date_only) (PDict [("invoice_date", PStr "2023-02-30");
                               ("due_date", PStr "2023-03-01")]) = Raise ValueError.
Proof.
  apply (bad_calendar_date_raises (iso:=iso_date_only)).
  - vm_compute. reflexivity.
  - vm_compute. reflexivity.
  - left. vm_compute. reflexivity.
  - intros c Hc. left. vm_compute in Hc.
    repeat destruct Hc as [<-|Hc]; try contradiction; vm_compute; reflexivity.
Defined.

(** ** The [line_items_sum] check *)


(** ** The [line_items_sum] check *)

Module LineItems.
Import ConfidenceAux.

Lemma sum_floats items ts a :
  Forall2 float_total_item items ts ->
  line_items_total items (NFloat a) = Ok (NFloat (fold_left (SFadd prec emax) ts a)).
Proof.
  intros H. revert a.
  induction H as [|it t items ts [kv [-> Ht]] _ IH]; intros a; [reflexivity|].
  cbn [line_items_total]. rewrite Ht. cbn [num_of num_add num_arith to_float bind].
  apply IH.
Qed.

Lemma sum_nondict items a :
  Forall (fun it => is_dict it = false \/ exists t, float_total_item it t) items ->
  forallb is_dict items = false ->
  line_items_total items (NFloat a) = Raise AttributeError.
Proof.
  intros H. revert a.
  induction H as [|it items Hit _ IH]; intros a Hd; [discriminate|].
  destruct Hit as [Hn | [t [kv [-> Ht]]]].
  - destruct it; try discriminate; reflexivity.
  - cbn [forallb is_dict andb] in Hd.
    cbn [line_items_total]. rewrite Ht. cbn [num_of num_add num_arith to_float bind].
    apply IH, Hd.
Qed.

End LineItems.

(** X8: The [line_items_sum] check on a non-empty list of line items and a
    float subtotal, when every item is a dict whose [total] is a float or
    is not a dict at all: if every item is a dict, the totals are summed in
    binary64 from the int 0 and from left to right, and the check passes
    exactly when [abs(sum - subtotal) < 0.01] in binary64; if some item is
    not a dict, [item.get] raises AttributeError. *)
Theorem line_items_sum_check {iso : IsoFormat} (d : pydict) (c : logical_check)
    (items : list pyval) (s : spec_float) :
  In c logical_checks -> name c = "line_items_sum" ->
  dict_get d "line_items" = Some (PList items) -> items <> [] ->
  dict_get d "subtotal" = Some (PFloat s) ->
  Forall (fun it => is_dict it = false \/ exists t, ConfidenceAux.float_total_item it t) items ->
  (forall ts, Forall2 ConfidenceAux.float_total_item items ts ->
     validate_logical_check d c
     = Ok (float_lt (SFabs (SFsub prec emax (fold_left (SFadd prec emax) ts (S754_zero false)) s))
                    f_0_01))
  /\ (forallb is_dict items = false -> validate_logical_check d c = Raise AttributeError).
Proof.
  intros Hc Hn Hl Hne Hs Hall.
  assert (Hf : fields c = ["line_items"; "subtotal"]).
  { unfold logical_checks in Hc. cbn in Hc.
    repeat destruct Hc as [<-|Hc]; try contradiction; try discriminate Hn; reflexivity. }
  assert (E : validate_logical_check d c =
            match items with
            | [] => Ok true
            | _ =>
                sum <- line_items_total items (NInt 0) ;;
                diff <- py_sub (of_num sum) (PFloat s) ;;
                a <- py_abs diff ;; Ok (num_lt a (NFloat f_0_01))
            end).
  { unfold validate_logical_check. rewrite Hf. cbn [forallb].
    assert (Pl : present d "line_items" = true) by (unfold present; rewrite Hl; reflexivity).
    assert (Ps : present d "subtotal" = true) by (unfold present; rewrite Hs; reflexivity).
    rewrite Pl, Ps. cbn [andb negb].
    rewrite Hn. unfold dict_get_default. rewrite Hl, Hs. cbv zeta. reflexivity. }
  rewrite E. destruct items as [|i0 items0]; [destruct (Hne eq_refl)|].
  inversion Hall as [|? ? H0 Hrest]; subst. split.
  - intros ts H2. inversion H2 as [|? t0 ? ts0 [kv [-> Ht]] Hr]; subst.
    cbn [line_items_total]. rewrite Ht. cbn [num_of num_add num_arith to_float int_to_float bind].
    rewrite (LineItems.sum_floats items0 ts0 _ Hr). cbn [bind of_num py_sub num_of num_sub num_arith
      to_float py_abs num_abs fold_left].
    reflexivity.
  - intros Hd. destruct H0 as [Hn0 | [t [kv [-> Ht]]]].
    + destruct i0; try discriminate; reflexivity.
    + cbn [forallb is_dict andb] in Hd.
      cbn [line_items_total]. rewrite Ht. cbn [num_of num_add num_arith to_float int_to_float bind].
      rewrite (LineItems.sum_nondict items0 _ Hrest Hd). reflexivity.
Qed.

(** [1e16 + 1.0] rounds to [1e16] in binary64, so the check passes. *)
Lemma line_items_sum_check_witness :
  validate_logical_check (iso:=iso_date_only)
    [("line_items", PList [PDict [("total", PFloat (float_lit "1e16"))];
                           PDict [("total", PFloat (float_lit "1.0"))]]);
     ("subtotal", PFloat (float_lit "1e16"))]
    (mkcheck "line_items_sum" ["line_items"; "subtotal"] "Line items should sum to subtotal")
  = Ok (float_lt (SFabs (SFsub prec emax
          (fold_left (SFadd prec emax) [float_lit "1e16"; float_lit "1.0"] (S754_zero false))
          (float_lit "1e16"))) f_0_01)
  /\ float_lt (SFabs (SFsub prec emax
          (fold_left (SFadd prec emax) [float_lit "1e16"; float_lit "1.0"] (S754_zero false))
          (float_lit "1e16"))) f_0_01 = true.
Proof.
  split; [|vm_compute; reflexivity].
  refine (proj1 (line_items_sum_check (iso:=iso_date_only)
            [("line_items", PList [PDict [("total", PFloat (float_lit "1e16"))];
                                   PDict [("total", PFloat (float_lit "1.0"))]]);
             ("subtotal", PFloat (float_lit "1e16"))]
            (mkcheck "line_items_sum" ["line_items"; "subtotal"] "Line items should sum to subtotal")
            [PDict [("total", PFloat (float_lit "1e16"))]; PDict [("total", PFloat (float_lit "1.0"))]]
            (float_lit "1e16") _ eq_refl eq_refl _ eq_refl _)
            [float_lit "1e16"; float_lit "1.0"] _).
  - vm_compute. right. right. left. reflexivity.
  - discriminate.
  - constructor; [right; eexists; eexists; split; reflexivity|].
    constructor; [right; eexists; eexists; split; reflexivity|]. constructor.
  - constructor; [eexists; split; reflexivity|].
    constructor; [eexists; split; reflexivity|]. constructor.
Defined.

Import ResultInv Growth Origins Placeholder ConfidenceAux ConfidenceMore.

(** X9: A report of [validate_invoice_data] on a dict has the error
    ["Missing required field: f"] exactly for the required fields [f]
    that are absent or null. *)
Theorem missing_required_errors {iso : IsoFormat} (d : pydict) (r : result) (f : string) :
  validate_invoice_data (PDict d) = Ok r ->
  (In ("Missing required field: " ++ f) (errors r) <-> In f required_fields /\ present d f = false).
Proof.
  intros E. change (validate_dict d = Ok r) in E. destruct (after_required_grows_later d r E) as [es [ws [He [Hf _]]]].
  rewrite He. unfold after_required. rewrite required_loop_errors.
  change (errors (fst (init_result, init_metrics))) with (@nil string). rewrite app_nil_l.
  split.
  - intros H. apply in_app_or in H as [H|H].
    + apply in_prefixed_map, filter_In in H as [Hin Hp]. apply negb_true_iff in Hp. auto.
    + rewrite Forall_forall in Hf. destruct (later_not_missing d f _ (Hf _ H) eq_refl).
  - intros [Hin Hp]. apply in_or_app. left. apply in_prefixed_map, filter_In.
    rewrite Hp. auto.
Qed.

Lemma missing_required_errors_witness :
  exists r, validate_invoice_data (iso:=iso_date_only) (PDict [("invoice_number", PStr "INV-1")]) = Ok r
  /\ (In ("Missing required field: " ++ "total_amount") (errors r)
      <-> In "total_amount" required_fields
          /\ present [("invoice_number", PStr "INV-1")] "total_amount" = false).
Proof.
  eexists. split; [vm_compute; reflexivity|].
  apply (missing_required_errors (iso:=iso_date_only)). vm_compute. reflexivity.
Defined.

(** X10: A report of [validate_invoice_data] on a dict has the warning
    ["Missing important field: f"] exactly for the important fields [f]
    that are absent or null. *)
Theorem missing_important_warnings {iso : IsoFormat} (d : pydict) (r : result) (f : string) :
  validate_invoice_data (PDict d) = Ok r ->
  (In ("Missing important field: " ++ f) (warnings r) <-> In f important_fields /\ present d f = false).
Proof.
  intros E. change (validate_dict d = Ok r) in E. destruct (after_important_wgrows d r E) as [ws [Hw Hf]].
  rewrite Hw, important_loop_warnings. unfold after_required.
  rewrite required_loop_warnings.
  change (warnings (fst (init_result, init_metrics))) with (@nil string). rewrite app_nil_l.
  split.
  - intros H. apply in_app_or in H as [H|H].
    + apply in_prefixed_map, filter_In in H as [Hin Hp]. apply negb_true_iff in Hp. auto.
    + rewrite Forall_forall in Hf. destruct (Hf _ H) as [g [s Hg]]. cbn in Hg. discriminate Hg.
  - intros [Hin Hp]. apply in_or_app. left. apply in_prefixed_map, filter_In.
    rewrite Hp. auto.
Qed.

Lemma missing_important_warnings_witness :
  exists r, validate_invoice_data (iso:=iso_date_only) (PDict [("invoice_number", PStr "INV-1")]) = Ok r
  /\ (In ("Missing important field: " ++ "vendor_name") (warnings r)
      <-> In "vendor_name" important_fields
          /\ present [("invoice_number", PStr "INV-1")] "vendor_name" = false).
Proof.
  eexists. split; [vm_compute; reflexivity|].
  apply (missing_important_warnings (iso:=iso_date_only)). vm_compute. reflexivity.
Defined.

(** X11: A report of [validate_invoice_data] is valid exactly when it has no
    error. *)
Theorem valid_iff_no_errors {iso : IsoFormat} (v : pyval) (r : result) :
  validate_invoice_data v = Ok r -> (valid r = true <-> errors r = []).
Proof.
  destruct v as [| | | | | |d]; simpl; intros E;
    try (injection E as <-; simpl; split; discriminate).
  fold (flag_ok r).
  destruct (Pipeline.validate_dict_steps d r E) as (st4&st5&r6&m6&b&E4&E5&E6&Eb&->).
  assert (H3 : flag_ok (fst (fold_left completeness_step d
                (fold_left (important_step d) important_fields
                  (fold_left (required_step d) required_fields (init_result, init_metrics)))))).
  { rewrite completeness_loop_result.
    apply (fold_left_inv (fun st => flag_ok (fst st))).
    { intros [r0 m0] f _ H. unfold important_step. destruct (present d f); cbn -[flag_ok add_error add_warning] in *; auto using flag_ok_add_error, flag_ok_add_warning. }
    apply (fold_left_inv (fun st => flag_ok (fst st))).
    { intros [r0 m0] f _ H. unfold required_step. destruct (present d f); cbn -[flag_ok add_error add_warning] in *; auto using flag_ok_add_error, flag_ok_add_warning. }
    unfold flag_ok. simpl. split; reflexivity. }
  assert (H4 : flag_ok (fst st4)).
  { eapply (foldM_inv (fun st => flag_ok (fst st))); [|exact H3|exact E4].
    intros; eapply flag_ok_field_type_step; eauto. }
  assert (H5 : flag_ok (fst st5)).
  { eapply (foldM_inv (fun st => flag_ok (fst st))); [|exact H4|exact E5].
    intros; eapply flag_ok_constraint_step; eauto. }
  assert (H6 : flag_ok (fst (r6, m6))).
  { eapply (foldM_inv (fun st => flag_ok (fst st))); [|exact H5|exact E6].
    intros; eapply flag_ok_logical_step; eauto. }
  exact H6.
Qed.

Lemma valid_iff_no_errors_witness :
  exists r, validate_invoice_data (iso:=iso_date_only) (PDict partial_invoice) = Ok r
  /\ (valid r = true <-> errors r = []).
Proof.
  eexists. split; [vm_compute; reflexivity|].
  apply (valid_iff_no_errors (iso:=iso_date_only)) with (v := PDict partial_invoice). vm_compute. reflexivity.
Defined.

(** X12: Every field of [placeholder_patterns] whose string value matches its
    pattern gets the warning naming the field and the value. *)
Theorem placeholder_warnings {iso : IsoFormat} (d : pydict) (r : result) (f : string) (p : placeholder) (s : string) :
  validate_invoice_data (PDict d) = Ok r -> In (f, p) placeholder_patterns ->
  dict_get d f = Some (PStr s) -> placeholder_match p s = true ->
  In ("Field " ++ dq ++ f ++ dq ++ " appears to contain a placeholder value: " ++ dq ++ s ++ dq)
     (warnings r).
Proof.
  intros E Hin Hv Hm. change (validate_dict d = Ok r) in E.
  assert (H : In (f, FString) field_types /\ assoc placeholder_patterns f = Some p).
  { unfold placeholder_patterns in Hin. cbn in Hin.
    repeat destruct Hin as [Hin|Hin]; try injection Hin as <- <-; try contradiction;
      (split; [cbn; tauto | reflexivity]). }
  destruct H as [Hft Hp].
  destruct (field_step_in d r _ E Hft) as (s1 & s2 & Es & G).
  eapply grows_warnings_kept; [exact G|].
  eapply field_type_step_placeholder; eauto.
Qed.

Lemma placeholder_warnings_witness :
  exists r, validate_invoice_data (iso:=iso_date_only) (PDict placeholder_vendor_invoice) = Ok r
  /\ In ("Field " ++ dq ++ "vendor_name" ++ dq ++ " appears to contain a placeholder value: "
         ++ dq ++ "N/A" ++ dq) (warnings r).
Proof.
  eexists. split; [vm_compute; reflexivity|].
  apply (placeholder_warnings (iso:=iso_date_only) placeholder_vendor_invoice _ "vendor_name" NamePlaceholder "N/A").
  - vm_compute. reflexivity.
  - vm_compute. right. left. reflexivity.
  - vm_compute. reflexivity.
  - vm_compute. reflexivity.
Defined.

(** X13: A non-null value of the wrong type in a field of [field_types] gets
    the type error of that field; a date field holding a string that is
    not YYYY-MM-DD gets the date-format error. *)
Theorem field_type_errors {iso : IsoFormat} (d : pydict) (r : result) (f : string) (t : ftype) (v : pyval) :
  validate_invoice_data (PDict d) = Ok r -> In (f, t) field_types ->
  dict_get d f = Some v -> not_none v = true ->
  (t = FString -> is_str v = false -> In ("Field " ++ dq ++ f ++ dq ++ " must be a string") (errors r))
  /\ (t = FNumber -> is_num v = false -> In ("Field " ++ dq ++ f ++ dq ++ " must be a number") (errors r))
  /\ (t = FArray -> is_list v = false -> In ("Field " ++ dq ++ f ++ dq ++ " must be an array") (errors r))
  /\ (t = FDate -> is_str v = false ->
        In ("Field " ++ dq ++ f ++ dq ++ " must be a date string") (errors r))
  /\ (forall s, t = FDate -> v = PStr s -> fmt_match IsoDatePattern s = false ->
        In ("Field " ++ dq ++ f ++ dq ++ " has invalid date format. Expected: YYYY-MM-DD") (errors r)).
Proof.
  intros E Hin Hv Hn. change (validate_dict d = Ok r) in E.
  destruct (field_step_in d r _ E Hin) as (s1 & s2 & Es & G).
  assert (K : forall e, type_check f t v (fst s1) = Ok (add_error (fst s1) e) -> In e (errors r)).
  { intros e Ht. eapply grows_errors_kept; [exact G|].
    eapply field_type_step_error; eauto. }
  repeat split; intros; subst t; apply K; unfold type_check.
  - rewrite H0. reflexivity.
  - rewrite H0. reflexivity.
  - rewrite H0. reflexivity.
  - destruct v; try discriminate; reflexivity.
  - subst v. assert (Hf : assoc formats f = Some IsoDatePattern).
    { unfold field_types in Hin. cbn in Hin.
      repeat destruct Hin as [Hin|Hin]; try injection Hin as <-; try discriminate;
        try contradiction; reflexivity. }
    rewrite Hf, H1. reflexivity.
Qed.

Lemma field_type_errors_witness :
  exists r, validate_invoice_data (iso:=iso_date_only) (PDict [("line_items", PStr "x")]) = Ok r
  /\ In ("Field " ++ dq ++ "line_items" ++ dq ++ " must be an array") (errors r).
Proof.
  eexists. split; [vm_compute; reflexivity|].
  refine (proj1 (proj2 (proj2 (field_type_errors (iso:=iso_date_only) [("line_items", PStr "x")] _ "line_items" FArray
            (PStr "x") _ _ _ _))) eq_refl _).
  - vm_compute. reflexivity.
  - vm_compute. do 6 right. left. reflexivity.
  - vm_compute. reflexivity.
  - vm_compute. reflexivity.
  - vm_compute. reflexivity.
Defined.

(** X14: [formats] gives a pattern for [invoice_number], but only date fields
    are checked against [formats]: whatever characters a string
    [invoice_number] holds, no error ["Field "invoice_number" ..."] is
    reported. *)
Theorem invoice_number_format_unchecked {iso : IsoFormat} (d : pydict) (r : result) (s sfx : string) :
  validate_invoice_data (PDict d) = Ok r -> dict_get d "invoice_number" = Some (PStr s) ->
  ~ In ("Field " ++ dq ++ "invoice_number" ++ dq ++ sfx) (errors r).
Proof.
  intros E Hv Hin. change (validate_dict d = Ok r) in E.
  destruct (validate_dict_grows d r E) as [es [ws [He [Hf _]]]].
  rewrite He in Hin. simpl in Hin. rewrite Forall_forall in Hf.
  destruct (Hf _ Hin) as [[f [_ Hm]] | [[ft [Hft Ht]] | [[c [Hc Hce]] | [c [Hc Hce]]]]].
  - unfold missing_error in Hm. cbn in Hm. discriminate Hm.
  - destruct Ht as [sfx' [He' Hs]].
    unfold field_types in Hft. cbn in Hft.
    repeat destruct Hft as [<- | Hft]; try contradiction;
      first [ cbn in He'; discriminate He' | idtac ].
    cbn [fst snd] in He', Hs. destruct (Hs eq_refl) as [_ Hstr].
    unfold dict_get_default in Hstr. rewrite Hv in Hstr. discriminate Hstr.
  - destruct Hce as [sfx' He']. unfold constraints in Hc. cbn in Hc.
    repeat destruct Hc as [<- | Hc]; try contradiction; cbn in He'; discriminate He'.
  - unfold check_error in Hce. unfold logical_checks in Hc. cbn in Hc.
    repeat destruct Hc as [<- | Hc]; try contradiction; cbn in Hce; discriminate Hce.
Qed.

Lemma invoice_number_format_unchecked_witness :
  exists r, validate_invoice_data (iso:=iso_date_only) (PDict [("invoice_number", PStr "#1")]) = Ok r
  /\ ~ In ("Field " ++ dq ++ "invoice_number" ++ dq ++ " has invalid format") (errors r).
Proof.
  eexists. split; [vm_compute; reflexivity|].
  apply (invoice_number_format_unchecked (iso:=iso_date_only) [("invoice_number", PStr "#1")] _ "#1"); vm_compute; reflexivity.
Defined.

(** X15: A number (int, bool or float) below 0 in a field with a minimum of 0
    gets the error
    ["Field "f" must be at least 0"]. *)
Theorem constraint_min_error {iso : IsoFormat} (d : pydict) (r : result) (f : string) (v : pyval) (x : num) :
  validate_invoice_data (PDict d) = Ok r -> In (f, Some 0%Z, None) constraints ->
  dict_get d f = Some v -> num_of v = Some x -> num_lt x (NInt 0) = true ->
  In ("Field " ++ dq ++ f ++ dq ++ " must be at least 0") (errors r).
Proof.
  intros E Hin Hv Hx Hneg. change (validate_dict d = Ok r) in E.
  destruct (constraint_step_in d r _ E Hin) as (s1 & s2 & Es & G).
  eapply grows_errors_kept; [exact G|].
  destruct s1 as [r1 m1]. unfold constraint_step in Es.
  assert (Hp : present d f = true).
  { apply (present_some _ _ v Hv). destruct v; try discriminate; reflexivity. }
  rewrite Hp in Es. unfold py_lt_lit, dict_get_default in Es. rewrite Hv, Hx in Es.
  rewrite Hneg in Es. simpl in Es. injection Es as <-.
  simpl. apply in_or_app. right. left. reflexivity.
Qed.

Lemma constraint_min_error_witness :
  exists r, validate_invoice_data (iso:=iso_date_only) (PDict [("subtotal", PInt (-5))]) = Ok r
  /\ In ("Field " ++ dq ++ "subtotal" ++ dq ++ " must be at least 0") (errors r).
Proof.
  eexists. split; [vm_compute; reflexivity|].
  apply (constraint_min_error (iso:=iso_date_only) [("subtotal", PInt (-5))] _ "subtotal" (PInt (-5)) (NInt (-5))).
  - vm_compute. reflexivity.
  - vm_compute. right. left. reflexivity.
  - vm_compute. reflexivity.
  - vm_compute. reflexivity.
  - vm_compute. reflexivity.
Defined.

(** X16: A value that is not a number (a string, a list or a dict) in a field
    with a minimum makes [validate_invoice_data] raise TypeError from the
    comparison [value < 0], whatever the other fields hold. *)
Theorem constraint_type_error {iso : IsoFormat} (d : pydict) (f : string) (v : pyval) :
  In (f, Some 0%Z, None) constraints -> dict_get d f = Some v ->
  not_none v = true -> num_of v = None ->
  validate_invoice_data (PDict d) = Raise TypeError.
Proof.
  intros Hin Hv Hn Hx. change (validate_dict d = Raise TypeError). unfold validate_dict.
  cbv zeta.
  destruct (foldM_total (field_type_step d) field_types
              (fun s x H => field_type_step_ok d s x H)
              (fold_left completeness_step d
                 (fold_left (important_step d) important_fields
                    (fold_left (required_step d) required_fields (init_result, init_metrics)))))
    as [st4 ->].
  cbn [bind]. rewrite (foldM_raise (constraint_step d) constraints TypeError); [reflexivity| |].
  - intros s x _. apply constraint_step_cases.
  - exists (f, Some 0%Z, None). split; [exact Hin|]. intros [r m].
    unfold constraint_step. rewrite (present_some _ _ _ Hv Hn).
    unfold py_lt_lit, dict_get_default. rewrite Hv, Hx. reflexivity.
Qed.

Lemma constraint_type_error_witness :
  validate_invoice_data (iso:=iso_date_only) (PDict [("total_amount", PStr "12")]) = Raise TypeError.
Proof.
  apply (constraint_type_error (iso:=iso_date_only) _ "total_amount" (PStr "12")).
  - vm_compute. left. reflexivity.
  - vm_compute. reflexivity.
  - vm_compute. reflexivity.
  - vm_compute. reflexivity.
Defined.

(** ** The strict validators: entries of the report *)

Module StrictFields.
Import Strict StrictInv StrictAux.


Lemma assoc_dict_set_eq {V} (d : list (string * V)) k v : assoc (dict_set d k v) k = Some v.
Proof.
  induction d as [|[k' v'] d IH]; simpl; [rewrite String.eqb_refl; reflexivity|].
  destruct (String.eqb k k') eqn:E; simpl; rewrite E; [reflexivity | exact IH].
Qed.

Lemma assoc_dict_set_neq {V} (d : list (string * V)) k k2 v :
  k2 <> k -> assoc (dict_set d k v) k2 = assoc d k2.
Proof.
  intros Hne. induction d as [|[k' v'] d IH]; simpl.
  - apply String.eqb_neq in Hne. rewrite Hne. reflexivity.
  - destruct (String.eqb k k') eqn:E; simpl.
    + apply String.eqb_eq in E. subst k'.
      apply String.eqb_neq in Hne. rewrite Hne. reflexivity.
    + destruct (String.eqb k2 k'); [reflexivity | exact IH].
Qed.

Lemma assoc_dict_set_same {V} (d : list (string * V)) k f v :
  assoc d f = Some v -> assoc (dict_set d k v) f = Some v.
Proof.
  intros H. destruct (String.eqb f k) eqn:E.
  - apply String.eqb_eq in E. subst. apply assoc_dict_set_eq.
  - apply String.eqb_neq in E. rewrite assoc_dict_set_neq; auto.
Qed.

Lemma in_dict_set {V} (d : list (string * V)) k v k' v' :
  In (k', v') (dict_set d k v) -> In (k', v') d \/ (k' = k /\ v' = v).
Proof.
  induction d as [|[k0 v0] d IH]; simpl.
  - intros [H|[]]. injection H as <- <-. auto.
  - destruct (String.eqb k k0) eqn:E; simpl.
    + apply String.eqb_eq in E. subst k0. intros [H|H]; [injection H as <- <-|]; auto.
    + intros [H|H]; [auto|]. destruct (IH H); auto.
Qed.


Lemma fail_field_keeps f r k m : k <> f -> keeps f r (fail_field r k m).
Proof. intros H. unfold keeps. simpl. apply assoc_dict_set_neq. congruence. Qed.

Lemma fail_field_at r f m : assoc (invalid_fields (fail_field r f m)) f = Some m.
Proof. simpl. apply assoc_dict_set_eq. Qed.

Lemma fold_keeps {A} (g : report -> A -> report) (l : list A) f :
  (forall r x, In x l -> keeps f r (g r x)) -> forall r, keeps f r (fold_left g l r).
Proof.
  unfold keeps. induction l as [|x l IH]; simpl; intros H r; [reflexivity|].
  rewrite IH by auto. apply H. auto.
Qed.

Lemma optional_step_keeps doc dfs r fr f : fst fr <> f -> keeps f r (optional_step doc dfs r fr).
Proof.
  destruct fr as [k t]. simpl. intros Hne. unfold optional_step, keeps.
  destruct (dict_get doc k) as [v|]; [|reflexivity].
  destruct (in_placeholders v); [reflexivity|].
  destruct (isinstance v t), (existsb _ dfs), (negb (is_str v) || negb (date_format v));
    simpl; rewrite ?assoc_dict_set_neq by congruence; reflexivity.
Qed.

Lemma invoice_required_step_keeps inv r fr f : fst fr <> f -> keeps f r (invoice_required_step inv r fr).
Proof.
  destruct fr as [k t]. simpl. intros Hne. unfold invoice_required_step, keeps.
  destruct (dict_get inv k) as [v|]; [|simpl; apply assoc_dict_set_neq; congruence].
  destruct (negb (isinstance v t)); [simpl; apply assoc_dict_set_neq; congruence|].
  destruct (String.eqb k "invoice_date");
    [destruct (negb (is_str v) || negb (date_format v)); simpl;
       rewrite ?assoc_dict_set_neq by congruence; reflexivity|].
  destruct (String.eqb k "item_details"); [|reflexivity].
  destruct v as [| | | | |[|]|]; simpl; rewrite ?assoc_dict_set_neq by congruence; reflexivity.
Qed.


Lemma try_total_fields r body :
  (forall r0, body = Ok r0 -> invalid_fields r0 = invalid_fields r) ->
  invalid_fields (try_total r body) = invalid_fields r.
Proof.
  intros H. unfold try_total. destruct body as [r0|e]; [auto | reflexivity].
Qed.

Lemma invoice_total_check_fields inv r :
  invalid_fields (invoice_total_check inv r) = invalid_fields r.
Proof.
  unfold invoice_total_check. destruct (_ && _ && _); [|reflexivity].
  apply try_total_fields. intros r0 E.
  apply bind_ok in E as [s [_ E]]. apply bind_ok in E as [v [_ E]].
  apply bind_ok in E as [d [_ E]]. apply bind_ok in E as [t [_ E]].
  destruct (float_lt _ _); injection E as <-; reflexivity.
Qed.

Lemma expense_total_check_fields ex r :
  invalid_fields (expense_total_check ex r) = invalid_fields r.
Proof.
  unfold expense_total_check. destruct (_ && _ && _); [|reflexivity].
  apply try_total_fields. intros r0 E.
  apply bind_ok in E as [s [_ E]]. apply bind_ok in E as [v [_ E]].
  apply bind_ok in E as [t [_ E]].
  destruct (float_lt _ _); injection E as <-; reflexivity.
Qed.

Lemma expense_period_check_fields ex r :
  invalid_fields (expense_period_check ex r) = invalid_fields r.
Proof.
  unfold expense_period_check. destruct (_ && _ && _ && _); [|reflexivity].
  destruct (strptime (dict_get_default ex "period_start" PNone)) as [d1|],
    (strptime (dict_get_default ex "period_end" PNone)) as [d2|]; try reflexivity.
  destruct (date_gt d1 d2); reflexivity.
Qed.



(** [find_empty_fields] and [apply_empty]: every entry holds [M_empty]. *)
Lemma find_empty_fields_at data req f :
  In f (map fst req) -> is_empty (dict_get_default data f PNone) = true ->
  assoc (find_empty_fields data req) f = Some M_empty.
Proof.
  unfold find_empty_fields.
  assert (G : forall acc, (assoc acc f = Some M_empty
                \/ (In f (map fst req) /\ is_empty (dict_get_default data f PNone) = true)) ->
    assoc (fold_left (fun acc (fr : string * pytype) =>
               if is_empty (dict_get_default data (fst fr) PNone)
               then dict_set acc (fst fr) "Required field cannot be empty" else acc) req acc) f
    = Some M_empty).
  { induction req as [|[k t] req IH]; simpl; intros acc H.
    - destruct H as [H|[[] _]]; exact H.
    - apply IH. destruct H as [H|[[Hk|Hin] He]].
      + left. destruct (is_empty (dict_get_default data k PNone));
          [apply assoc_dict_set_same|]; exact H.
      + subst k. left. rewrite He. apply assoc_dict_set_eq.
      + destruct (String.eqb f k) eqn:E.
        * apply String.eqb_eq in E. subst k. left. rewrite He. apply assoc_dict_set_eq.
        * right. auto. }
  intros Hin He. apply G. auto.
Qed.

Lemma find_empty_fields_values data req k m :
  In (k, m) (find_empty_fields data req) -> m = M_empty.
Proof.
  unfold find_empty_fields.
  assert (G : forall acc, (forall k m, In (k, m) acc -> m = M_empty) ->
    forall k m, In (k, m) (fold_left (fun acc (fr : string * pytype) =>
               if is_empty (dict_get_default data (fst fr) PNone)
               then dict_set acc (fst fr) "Required field cannot be empty" else acc) req acc) ->
    m = M_empty).
  { induction req as [|fr req IH]; simpl; intros acc H; [exact H|].
    apply IH. intros k0 m0 Hin.
    destruct (is_empty (dict_get_default data (fst fr) PNone)); [|eauto].
    apply in_dict_set in Hin as [Hin|[_ ->]]; [eauto | reflexivity]. }
  apply G. intros ? ? [].
Qed.


Lemma assoc_in {V} (l : list (string * V)) k v : assoc l k = Some v -> In (k, v) l.
Proof.
  induction l as [|[k' v'] l IH]; simpl; [discriminate|].
  destruct (String.eqb k k') eqn:E; [|auto].
  apply String.eqb_eq in E. subst k'. intros H. injection H as <-. auto.
Qed.

Lemma apply_empty_at r e f :
  assoc e f = Some M_empty -> (forall k m, In (k, m) e -> m = M_empty) ->
  assoc (invalid_fields (apply_empty r e)) f = Some M_empty.
Proof.
  intros Ha Hv. apply assoc_in in Ha.
  destruct e as [|kv e]; [destruct Ha|]. unfold apply_empty.
  assert (G : forall l r, (assoc (invalid_fields r) f = Some M_empty \/ In (f, M_empty) l) ->
            (forall k m, In (k, m) l -> m = M_empty) ->
            assoc (invalid_fields (fold_left (fun r' (kv : string * string) =>
                     fail_field r' (fst kv) (snd kv)) l r)) f = Some M_empty).
  { induction l as [|[k m] l IH]; simpl; intros r0 H Hl.
    - destruct H as [H|[]]. exact H.
    - apply IH; [|intros k0 m0 Hk; apply (Hl k0 m0); auto].
      rewrite (Hl k m (or_introl eq_refl)).
      destruct H as [H|[H|H]];
        [left; apply assoc_dict_set_same; exact H
        |injection H as -> _; left; apply assoc_dict_set_eq
        |right; exact H]. }
  apply G; auto.
Qed.

Lemma fold_split_at {A} (g : report -> A -> report) (key : A -> string) l1 x l2 r f :
  ~ In f (map key l1) -> ~ In f (map key l2) ->
  (forall r y, key y <> f -> keeps f r (g r y)) ->
  assoc (invalid_fields (fold_left g (l1 ++ x :: l2) r)) f
    = assoc (invalid_fields (g (fold_left g l1 r) x)) f
  /\ assoc (invalid_fields (fold_left g l1 r)) f = assoc (invalid_fields r) f.
Proof.
  intros H1 H2 Hg. rewrite fold_left_app. cbn [fold_left]. split.
  - apply fold_keeps. intros r0 y Hy. apply Hg. intros <-. apply H2, in_map, Hy.
  - apply fold_keeps. intros r0 y Hy. apply Hg. intros <-. apply H1, in_map, Hy.
Qed.

Lemma split_nodup {A} (l : list (string * A)) f t :
  NoDup (map fst l) -> In (f, t) l ->
  exists l1 l2, l = (l1 ++ (f, t) :: l2)%list
    /\ ~ In f (map fst l1) /\ ~ In f (map fst l2).
Proof.
  intros ND Hin. apply in_split in Hin as [l1 [l2 ->]].
  exists l1, l2. split; [reflexivity|].
  rewrite map_app in ND. cbn [map fst] in ND.
  apply NoDup_remove_2 in ND. split; intros H; apply ND, in_or_app; auto.
Qed.

Ltac nodup_tac := cbn; repeat constructor; cbn; intuition discriminate.


Lemma within_init K : within K init_report.
Proof. intros k m []. Qed.

Lemma within_fail_field K r k m : within K r -> K k -> within K (fail_field r k m).
Proof.
  intros H Hk k' m' Hin. simpl in Hin.
  apply in_dict_set in Hin as [Hin|[-> _]]; eauto.
Qed.

Lemma within_apply_empty K r e :
  within K r -> (forall k m, In (k, m) e -> K k) -> within K (apply_empty r e).
Proof.
  intros H He. destruct e as [|kv e]; [exact H|]. unfold apply_empty.
  revert r H He. generalize (kv :: e) as l. clear kv e.
  induction l as [|[k m] l IH]; simpl; intros r H He; [exact H|].
  apply IH; [apply within_fail_field; eauto|eauto].
Qed.

Lemma find_empty_fields_keys data req k m :
  In (k, m) (find_empty_fields data req) -> In k (map fst req).
Proof.
  unfold find_empty_fields.
  assert (G : forall l acc k m,
    In (k, m) (fold_left (fun acc (fr : string * pytype) =>
               if is_empty (dict_get_default data (fst fr) PNone)
               then dict_set acc (fst fr) "Required field cannot be empty" else acc) l acc) ->
    In (k, m) acc \/ In k (map fst l)).
  { induction l as [|fr l IH]; simpl; intros acc k0 m0 H; [auto|].
    destruct (IH _ _ _ H) as [H1|H1]; [|auto].
    destruct (is_empty (dict_get_default data (fst fr) PNone)); [|auto].
    apply in_dict_set in H1 as [H1|[-> _]]; auto. }
  intros H. destruct (G _ _ _ _ H) as [[]|H1]. exact H1.
Qed.

Lemma within_optional_step K doc dfs r fr :
  within K r -> K (fst fr) -> within K (optional_step doc dfs r fr).
Proof.
  destruct fr as [k t]. simpl. intros H Hk. unfold optional_step.
  destruct (dict_get doc k) as [v|]; [|exact H].
  destruct (in_placeholders v); [exact H|].
  destruct (isinstance v t), (existsb _ dfs), (negb (is_str v) || negb (date_format v));
    repeat apply within_fail_field; auto.
Qed.

Lemma within_invoice_required_step K inv r fr :
  within K r -> K (fst fr) -> within K (invoice_required_step inv r fr).
Proof.
  destruct fr as [k t]. simpl. intros H Hk. unfold invoice_required_step.
  destruct (dict_get inv k) as [v|]; [|apply within_fail_field; auto].
  destruct (negb (isinstance v t)); [apply within_fail_field; auto|].
  destruct (String.eqb k "invoice_date");
    [destruct (negb (is_str v) || negb (date_format v)); auto; apply within_fail_field; auto|].
  destruct (String.eqb k "item_details"); [|exact H].
  destruct v as [| | | | |[|]|]; auto; apply within_fail_field; auto.
Qed.

Lemma within_expense_required_step K ex r fr :
  within K r -> K (fst fr) -> within K (expense_required_step ex r fr).
Proof.
  destruct fr as [k t]. simpl. intros H Hk. unfold expense_required_step.
  destruct (dict_get ex k) as [v|]; [|apply within_fail_field; auto].
  destruct (negb (isinstance v t)); [apply within_fail_field; auto|].
  destruct (String.eqb k "expense_items"); [|exact H].
  destruct v as [| | | | |[|]|]; auto; apply within_fail_field; auto.
Qed.

Lemma within_fields K r r' : invalid_fields r' = invalid_fields r -> within K r -> within K r'.
Proof. unfold within. intros ->. auto. Qed.


(** [strptime] succeeds only on a non-empty string. *)
Lemma strptime_truthy v d : strptime v = Ok d -> truthy v = true.
Proof. destruct v as [| | | |[|c s]| |]; simpl; try discriminate; reflexivity. Qed.

(** The period check never takes its [except] branch: it fails exactly
    when both ends parse and the start is later. *)
Lemma expense_period_check_eq ex r :
  expense_period_check ex r =
  match strptime (dict_get_default ex "period_start" PNone),
        strptime (dict_get_default ex "period_end" PNone) with
  | Ok d1, Ok d2 =>
      if date_gt d1 d2 then fail_check r (CheckText "period_start is after period_end") else r
  | _, _ => r
  end.
Proof.
  unfold expense_period_check, date_format.
  destruct (strptime (dict_get_default ex "period_start" PNone)) as [d1|e1] eqn:E1,
    (strptime (dict_get_default ex "period_end" PNone)) as [d2|e2] eqn:E2;
    rewrite ?andb_false_r; try reflexivity.
  rewrite (strptime_truthy _ _ E1), (strptime_truthy _ _ E2). simpl.
  destruct (date_gt d1 d2); reflexivity.
Qed.

Lemma expense_items_loop_checks items : forall idx r r',
  expense_items_loop idx items r = Ok r' -> logical_checks r' = logical_checks r.
Proof.
  induction items as [|it items IH]; simpl; intros idx r r' E.
  - injection E as <-. reflexivity.
  - destruct it; try discriminate. rewrite (IH _ _ _ E).
    destruct (_ && _); reflexivity.
Qed.

Lemma fold_required_checks {A} (g : report -> A -> report) l r :
  (forall r x, logical_checks (g r x) = logical_checks r) ->
  logical_checks (fold_left g l r) = logical_checks r.
Proof.
  intros H. revert r. induction l as [|x l IH]; simpl; intros r; [reflexivity|].
  rewrite IH. apply H.
Qed.

Lemma optional_step_checks doc dfs r fr : logical_checks (optional_step doc dfs r fr) = logical_checks r.
Proof.
  destruct fr as [k t]. unfold optional_step.
  destruct (dict_get doc k) as [v|]; [|reflexivity].
  destruct (in_placeholders v); [reflexivity|].
  destruct (isinstance v t), (existsb _ dfs), (negb (is_str v) || negb (date_format v)); reflexivity.
Qed.

Lemma invoice_required_step_checks inv r fr :
  logical_checks (invoice_required_step inv r fr) = logical_checks r.
Proof.
  destruct fr as [k t]. unfold invoice_required_step.
  destruct (dict_get inv k) as [v|]; [|reflexivity].
  destruct (negb (isinstance v t)); [reflexivity|].
  destruct (String.eqb k "invoice_date");
    [destruct (negb (is_str v) || negb (date_format v)); reflexivity|].
  destruct (String.eqb k "item_details"); [|reflexivity].
  destruct v as [| | | | |[|]|]; reflexivity.
Qed.

Lemma expense_required_step_checks ex r fr :
  logical_checks (expense_required_step ex r fr) = logical_checks r.
Proof.
  destruct fr as [k t]. unfold expense_required_step.
  destruct (dict_get ex k) as [v|]; [|reflexivity].
  destruct (negb (isinstance v t)); [reflexivity|].
  destruct (String.eqb k "expense_items"); [|reflexivity].
  destruct v as [| | | | |[|]|]; reflexivity.
Qed.

Lemma apply_empty_checks r e : logical_checks (apply_empty r e) = logical_checks r.
Proof.
  destruct e as [|kv e]; [reflexivity|]. unfold apply_empty.
  apply fold_required_checks. reflexivity.
Qed.

(** An exception raised by [float(x)] or by what follows it. *)
Lemma bind_raise_float {A} (x : pyval) (k : spec_float -> res A) e :
  bind (py_float x) k = Raise e -> py_float x = Raise e \/ exists f, py_float x = Ok f /\ k f = Raise e.
Proof. destruct (py_float x) as [f|e']; simpl; intros H; [eauto | left; congruence]. Qed.

Lemma expense_total_check_checks ex r :
  logical_checks (expense_total_check ex r) = logical_checks r
  \/ (exists s v t, logical_checks (expense_total_check ex r)
                    = (logical_checks r ++ [IncorrectTotalExpense s v t])%list)
  \/ (exists e k, logical_checks (expense_total_check ex r)
                  = (logical_checks r ++ [CalculationError e])%list
       /\ In k ["subtotal_amount"; "vat_amount"; "total_amount"]
       /\ py_float (dict_get_default ex k PNone) = Raise e).
Proof.
  unfold expense_total_check.
  destruct (_ && _ && _); [|auto].
  unfold try_total.
  destruct (s <- _ ;; _) as [r0|e] eqn:B.
  - apply bind_ok in B as [s [_ B]]. apply bind_ok in B as [v [_ B]].
    apply bind_ok in B as [t [_ B]].
    destruct (float_lt _ _); injection B as <-; [|auto].
    right; left. do 3 eexists. reflexivity.
  - right; right. exists e.
    apply bind_raise_float in B as [B|(s&_&B)];
      [exists "subtotal_amount"; simpl; intuition auto|].
    apply bind_raise_float in B as [B|(v&_&B)];
      [exists "vat_amount"; simpl; intuition auto|].
    cbv zeta in B. apply bind_raise_float in B as [B|(t&_&B)];
      [exists "total_amount"; simpl; intuition auto|].
    revert B; cbv beta; destruct (float_lt _ _); discriminate.
Qed.

Lemma invoice_total_check_checks inv r :
  logical_checks (invoice_total_check inv r) = logical_checks r
  \/ (exists s v d t, logical_checks (invoice_total_check inv r)
                      = (logical_checks r ++ [IncorrectTotalInvoice s v d t])%list)
  \/ (exists e k, logical_checks (invoice_total_check inv r)
                  = (logical_checks r ++ [CalculationError e])%list
       /\ In k ["subtotal_amount"; "vat_amount"; "total_discount"; "total_amount"]
       /\ py_float (dict_get_default inv k PNone) = Raise e).
Proof.
  unfold invoice_total_check.
  destruct (_ && _ && _); [|auto].
  unfold try_total.
  destruct (s <- _ ;; _) as [r0|e] eqn:B.
  - apply bind_ok in B as [s [_ B]]. apply bind_ok in B as [v [_ B]].
    apply bind_ok in B as [d [_ B]]. apply bind_ok in B as [t [_ B]].
    destruct (float_lt _ _); injection B as <-; [|auto].
    right; left. do 4 eexists. reflexivity.
  - right; right. exists e.
    apply bind_raise_float in B as [B|(s&_&B)];
      [exists "subtotal_amount"; simpl; intuition auto|].
    apply bind_raise_float in B as [B|(v&_&B)];
      [exists "vat_amount"; simpl; intuition auto|].
    apply bind_raise_float in B as [B|(d&_&B)].
    + exists "total_discount". split; [reflexivity|]. split; [simpl; intuition auto|].
      destruct (not_none (dict_get_default inv "total_discount" PNone)); [exact B|discriminate B].
    + cbv zeta in B. apply bind_raise_float in B as [B|(t&_&B)];
        [exists "total_amount"; simpl; intuition auto|].
      revert B; cbv beta; destruct (float_lt _ _); discriminate.
Qed.


Lemma expense_items_loop_sticky items : forall idx r r' k,
  assoc (invalid_fields r) k = Some M_item_date ->
  expense_items_loop idx items r = Ok r' -> assoc (invalid_fields r') k = Some M_item_date.
Proof.
  induction items as [|it items IH]; simpl; intros idx r r' k H E.
  - injection E as <-. exact H.
  - destruct it; try discriminate. eapply IH; [|exact E].
    destruct (_ && _); [|exact H]. apply assoc_dict_set_same. exact H.
Qed.

Lemma expense_items_loop_entry items : forall idx r r' i it,
  expense_items_loop idx items r = Ok r' -> nth_error items i = Some (PDict it) ->
  in_placeholders (dict_get_default it "date" PNone) = false ->
  date_format (dict_get_default it "date" PNone) = false ->
  assoc (invalid_fields r') ("expense_items " ++ nat_to_string (S (idx + i))) = Some M_item_date.
Proof.
  induction items as [|x items IH]; intros idx r r' i it E Hi Hp Hd; [destruct i; discriminate|].
  destruct i as [|i]; simpl in Hi, E.
  - injection Hi as ->. rewrite Hp, Hd, orb_true_r in E. simpl in E.
    eapply expense_items_loop_sticky; [|exact E]. rewrite Nat.add_0_r. apply assoc_dict_set_eq.
  - destruct x; try discriminate.
    rewrite <- Nat.add_succ_comm. eapply IH; eauto.
Qed.

Lemma expense_items_loop_raises items : forall idx r v,
  In v items -> is_dict v = false -> expense_items_loop idx items r = Raise AttributeError.
Proof.
  induction items as [|x items IH]; simpl; intros idx r v Hin Hv; [destruct Hin|].
  destruct Hin as [->|Hin].
  - destruct v; try discriminate; reflexivity.
  - destruct x; try reflexivity. eapply IH; eauto.
Qed.

End StrictFields.


Import Strict StrictAux StrictFields.

(** X17: The entry a missing, mistyped or blank required field gets in the
    report of [validate_invoice]. *)
Theorem invoice_required_entries (inv : pydict) (f : string) (t : pytype) :
  In (f, t) INVOICE_REQUIRED_FIELDS ->
  let r := validate_invoice inv in
  (dict_get inv f = None -> assoc (invalid_fields r) f = Some "Missing required field")
  /\ (forall v, dict_get inv f = Some v -> isinstance v t = false ->
        assoc (invalid_fields r) f
        = Some ("Invalid type for required field. Expected " ++ type_repr t))
  /\ (forall s, dict_get inv f = Some (PStr s) -> t = TStr -> f <> "invoice_date" ->
        is_empty (PStr s) = true ->
        assoc (invalid_fields r) f = Some "Required field cannot be empty").
Proof.
  intros Hin r. unfold r, validate_invoice.
  rewrite invoice_total_check_fields.
  assert (Hopt : ~ In f (map fst INVOICE_OPTIONAL_FIELDS)).
  { cbn in Hin. repeat destruct Hin as [Hin|Hin]; try injection Hin as <- <-;
      try contradiction; cbn; intuition discriminate. }
  rewrite fold_keeps
    by (intros r0 y Hy; apply optional_step_keeps; intros Hf; apply Hopt; subst f; apply in_map, Hy).
  destruct (split_nodup INVOICE_REQUIRED_FIELDS _ _ ltac:(nodup_tac) Hin) as (l1 & l2 & Hl & N1 & N2).
  destruct (fold_split_at (invoice_required_step inv) fst l1 (f, t) l2
              (apply_empty init_report (find_empty_fields inv INVOICE_REQUIRED_FIELDS)) f N1 N2)
    as [P0 P1]; [intros; apply invoice_required_step_keeps; auto|].
  rewrite <- Hl in P0. rewrite P0.
  set (r1 := fold_left _ l1 _) in *.
  unfold invoice_required_step. repeat split.
  - intros ->. apply fail_field_at.
  - intros v -> Hv. rewrite Hv. apply fail_field_at.
  - intros s Hs -> Hd He. rewrite Hs. cbn [isinstance is_str negb].
    apply String.eqb_neq in Hd. rewrite Hd.
    destruct (String.eqb f "item_details") eqn:Hi.
    { apply String.eqb_eq in Hi. subst f. cbn in Hin. intuition discriminate. }
    rewrite P1. apply apply_empty_at; [|apply find_empty_fields_values].
    apply find_empty_fields_at; [apply (in_map fst _ _ Hin)|].
    unfold dict_get_default. rewrite Hs. exact He.
Qed.

Lemma invoice_required_entries_witness :
  In ("invoice_number", TStr) INVOICE_REQUIRED_FIELDS
  /\ assoc (invalid_fields (validate_invoice
              [("document_type", PStr "invoice"); ("invoice_number", PInt 7)])) "invoice_number"
     = Some ("Invalid type for required field. Expected " ++ type_repr TStr).
Proof.
  split; [vm_compute; right; left; reflexivity|].
  refine (proj1 (proj2 (invoice_required_entries
            [("document_type", PStr "invoice"); ("invoice_number", PInt 7)] "invoice_number" TStr
            _)) (PInt 7) _ _).
  - vm_compute. right. left. reflexivity.
  - vm_compute. reflexivity.
  - vm_compute. reflexivity.
Defined.




(** X19: Every key of [invalid_fields] in the report of [validate_invoice] is
    a field of the invoice tables. *)
Theorem invoice_field_keys (inv : pydict) (k m : string) :
  In (k, m) (invalid_fields (validate_invoice inv)) ->
  In k (map fst INVOICE_REQUIRED_FIELDS) \/ In k (map fst INVOICE_OPTIONAL_FIELDS).
Proof.
  revert k m. fold (within (fun k => In k (map fst INVOICE_REQUIRED_FIELDS)
                              \/ In k (map fst INVOICE_OPTIONAL_FIELDS)) (validate_invoice inv)).
  unfold validate_invoice.
  eapply within_fields; [exact (invoice_total_check_fields _ _)|].
  apply fold_left_inv; [intros; apply within_optional_step; auto; right; apply in_map; auto|].
  apply fold_left_inv; [intros; apply within_invoice_required_step; auto; left; apply in_map; auto|].
  apply within_apply_empty; [apply within_init|].
  intros k m H. left. eapply find_empty_fields_keys, H.
Qed.

Lemma invoice_field_keys_witness :
  In ("total_amount", "Missing required field") (invalid_fields (validate_invoice []))
  /\ (In "total_amount" (map fst INVOICE_REQUIRED_FIELDS)
      \/ In "total_amount" (map fst INVOICE_OPTIONAL_FIELDS)).
Proof.
  assert (Hin : In ("total_amount", "Missing required field") (invalid_fields (validate_invoice []))).
  { vm_compute. repeat first [left; reflexivity | right]. }
  split; [exact Hin|]. exact (invoice_field_keys [] _ _ Hin).
Defined.

(** X20: Every key of [invalid_fields] in a report of [validate_expense] is a
    field of the expense tables or ["expense_items n"] for a 1-based item
    position [n]. *)
Theorem expense_field_keys (ex : pydict) (r : report) (k m : string) :
  validate_expense ex = Ok r -> In (k, m) (invalid_fields r) ->
  In k (map fst EXPENSE_REQUIRED_FIELDS) \/ In k (map fst EXPENSE_OPTIONAL_FIELDS)
  \/ exists n, k = "expense_items " ++ nat_to_string (S n).
Proof.
  intros E. revert k m.
  set (K := fun k => In k (map fst EXPENSE_REQUIRED_FIELDS) \/ In k (map fst EXPENSE_OPTIONAL_FIELDS)
                     \/ exists n, k = "expense_items " ++ nat_to_string (S n)).
  fold (within K r).
  unfold validate_expense, expense_items_check in E.
  set (r5 := expense_period_check ex _) in E.
  assert (H5 : within K r5).
  { eapply within_fields; [exact (expense_period_check_fields _ _)|].
    eapply within_fields; [exact (expense_total_check_fields _ _)|].
    apply fold_left_inv;
      [intros; apply within_optional_step; auto; right; left; apply in_map; auto|].
    apply fold_left_inv;
      [intros; apply within_expense_required_step; auto; left; apply in_map; auto|].
    apply within_apply_empty; [apply within_init|].
    intros k m H. left. eapply find_empty_fields_keys, H. }
  destruct (dict_get_default ex "expense_items" (PList [])); try (injection E as <-; exact H5).
  assert (G : forall items idx r r', within K r -> expense_items_loop idx items r = Ok r' -> within K r').
  { induction items as [|it items IH]; simpl; intros idx r0 r' H Ei.
    - injection Ei as <-. exact H.
    - destruct it; try discriminate. eapply IH; [|exact Ei].
      destruct (_ && _); [apply within_fail_field|]; auto.
      right; right. exists idx. reflexivity. }
  eapply G; eauto.
Qed.

Lemma expense_field_keys_witness :
  exists r, validate_expense [("expense_items", PList [PDict [("date", PStr "05/10/2023")]])] = Ok r
  /\ In ("expense_items 1", "Invalid date format. Expected YYYY-MM-DD") (invalid_fields r)
  /\ (In "expense_items 1" (map fst EXPENSE_REQUIRED_FIELDS)
      \/ In "expense_items 1" (map fst EXPENSE_OPTIONAL_FIELDS)
      \/ exists n, "expense_items 1" = "expense_items " ++ nat_to_string (S n)).
Proof.
  destruct (validate_expense [("expense_items", PList [PDict [("date", PStr "05/10/2023")]])])
    as [r|e] eqn:E; [|vm_compute in E; discriminate E].
  exists r. split; [reflexivity|].
  assert (Hin : In ("expense_items 1", "Invalid date format. Expected YYYY-MM-DD") (invalid_fields r)).
  { vm_compute in E. injection E as <-. vm_compute. repeat first [left; reflexivity | right]. }
  split; [exact Hin|]. exact (expense_field_keys _ r _ _ E Hin).
Defined.

(** X21: The only logical check of [validate_invoice] is the reconciliation of
    the totals: its report has at most one entry in [logical_checks], a
    mismatch of the totals, or the caught exception of the calculation,
    raised by [float()] on one of the four amounts. *)
Theorem invoice_logical_checks (inv : pydict) :
  let r := validate_invoice inv in
  logical_checks r = []
  \/ (exists s v d t, logical_checks r = [IncorrectTotalInvoice s v d t])
  \/ (exists e k, logical_checks r = [CalculationError e]
        /\ In k ["subtotal_amount"; "vat_amount"; "total_discount"; "total_amount"]
        /\ py_float (dict_get_default inv k PNone) = Raise e).
Proof.
  cbv zeta. unfold validate_invoice.
  set (r3 := fold_left (optional_step inv ["due_date"]) _ _).
  assert (H3 : logical_checks r3 = []).
  { unfold r3. rewrite fold_required_checks by apply optional_step_checks.
    rewrite fold_required_checks by apply invoice_required_step_checks.
    apply apply_empty_checks. }
  destruct (invoice_total_check_checks inv r3) as [H|[(s&v&d&t&H)|(e&k&H&Hk&He)]];
    rewrite H, H3; simpl.
  - left. reflexivity.
  - right; left. eauto.
  - right; right. exists e, k. split; [reflexivity | split; [exact Hk | exact He]].
Qed.

(** The caught calculation error is reachable: [float("abc")] raises
    ValueError inside the [try]. *)
Example invoice_calculation_error_sample :
  logical_checks (validate_invoice [("subtotal_amount", PStr "abc");
                                    ("vat_amount", PFloat (float_lit "1.0"));
                                    ("total_amount", PFloat (float_lit "1.0"))])
  = [CalculationError ValueError].
Proof. vm_compute. reflexivity. Qed.

(** X22: The logical checks of [validate_expense]: the reconciliation of the
    totals and the order of the period.  A total entry is a mismatch or the
    caught exception of [float()] on one of the three amounts; the period
    entry is there exactly when both ends parse as dates and the start is
    later; the ["Date format error"] entry of the [except] branch never
    appears. *)
Theorem expense_logical_checks (ex : pydict) (r : report) :
  validate_expense ex = Ok r ->
  (forall m, In m (logical_checks r) ->
     m = CheckText "period_start is after period_end"
     \/ (exists s v t, m = IncorrectTotalExpense s v t)
     \/ (exists e k, m = CalculationError e
           /\ In k ["subtotal_amount"; "vat_amount"; "total_amount"]
           /\ py_float (dict_get_default ex k PNone) = Raise e))
  /\ (In (CheckText "period_start is after period_end") (logical_checks r) <->
      exists d1 d2, strptime (dict_get_default ex "period_start" PNone) = Ok d1
        /\ strptime (dict_get_default ex "period_end" PNone) = Ok d2 /\ date_gt d1 d2 = true).
Proof.
  unfold validate_expense. intros E.
  set (r3 := fold_left (optional_step ex _) _ _) in E.
  set (r4 := expense_total_check ex r3) in E.
  assert (H6 : logical_checks r = logical_checks (expense_period_check ex r4)).
  { unfold expense_items_check in E.
    destruct (dict_get_default ex "expense_items" (PList [])); try (injection E as <-; reflexivity).
    eapply expense_items_loop_checks, E. }
  rewrite H6. clear E H6.
  assert (H3 : logical_checks r3 = []).
  { unfold r3. rewrite fold_required_checks by apply optional_step_checks.
    rewrite fold_required_checks by apply expense_required_step_checks.
    apply apply_empty_checks. }
  set (P := fun m => (exists s v t, m = IncorrectTotalExpense s v t)
     \/ (exists e k, m = CalculationError e
           /\ In k ["subtotal_amount"; "vat_amount"; "total_amount"]
           /\ py_float (dict_get_default ex k PNone) = Raise e)).
  assert (A4 : forall m, In m (logical_checks r4) -> P m).
  { intros m Hm. unfold r4 in Hm.
    destruct (expense_total_check_checks ex r3) as [H|[(s&v&t&H)|(e&k&H&Hk&He)]];
      rewrite H, H3 in Hm; simpl in Hm; [contradiction| |];
      destruct Hm as [<-|[]]; unfold P; eauto 10. }
  assert (N4 : ~ In (CheckText "period_start is after period_end") (logical_checks r4)).
  { intros Hin. destruct (A4 _ Hin) as [(s&v&t&Hm)|(e&k&Hm&_)]; discriminate Hm. }
  rewrite expense_period_check_eq.
  destruct (strptime (dict_get_default ex "period_start" PNone)) as [d1|e1],
    (strptime (dict_get_default ex "period_end" PNone)) as [d2|e2].
  2-4: split; [intros m Hm; right; apply A4, Hm
              |split; [intros Hin; contradiction | intros (x1&x2&Hx1&Hx2&_); discriminate]].
  destruct (date_gt d1 d2) eqn:G.
  - simpl. split.
    + intros m Hm. apply in_app_or in Hm as [Hm|[<-|[]]]; [right; apply A4, Hm | left; reflexivity].
    + split; [intros _; eauto|]. intros _. apply in_or_app. right. left. reflexivity.
  - split; [intros m Hm; right; apply A4, Hm|].
    split; [intros Hin; contradiction|]. intros (x1&x2&Hx1&Hx2&Hg).
    injection Hx1 as <-. injection Hx2 as <-. congruence.
Qed.

Lemma expense_logical_checks_witness :
  exists r, validate_expense expense_period_reversed = Ok r
  /\ In (CheckText "period_start is after period_end") (logical_checks r).
Proof.
  destruct (validate_expense expense_period_reversed) as [r|e] eqn:E;
    [|vm_compute in E; discriminate E].
  exists r. split; [reflexivity|].
  apply (proj2 (expense_logical_checks _ r E)).
  exists (mkdate 2023 6 1), (mkdate 2023 5 1). vm_compute. repeat split.
Defined.

(** X23: An expense item that is a dict, whose ["date"] is not a placeholder
    and does not parse as YYYY-MM-DD, gets an entry under
    ["expense_items n"], [n] its 1-based position. *)
Theorem expense_item_date_entry (ex : pydict) (r : report) (items : list pyval) (i : nat)
    (it : pydict) :
  validate_expense ex = Ok r -> dict_get ex "expense_items" = Some (PList items) ->
  nth_error items i = Some (PDict it) ->
  in_placeholders (dict_get_default it "date" PNone) = false ->
  date_format (dict_get_default it "date" PNone) = false ->
  assoc (invalid_fields r) ("expense_items " ++ nat_to_string (S i))
  = Some "Invalid date format. Expected YYYY-MM-DD".
Proof.
  unfold validate_expense. intros E Hl Hi Hp Hd.
  unfold expense_items_check, dict_get_default in E. rewrite Hl in E.
  exact (expense_items_loop_entry items 0 _ r i it E Hi Hp Hd).
Qed.

Lemma expense_item_date_entry_witness :
  exists r, validate_expense [("expense_items", PList [PDict [("date", PStr "05/10/2023")]])] = Ok r
  /\ assoc (invalid_fields r) ("expense_items " ++ nat_to_string 1)
     = Some "Invalid date format. Expected YYYY-MM-DD".
Proof.
  eexists. split; [vm_compute; reflexivity|].
  apply (expense_item_date_entry [("expense_items", PList [PDict [("date", PStr "05/10/2023")]])] _ [PDict [("date", PStr "05/10/2023")]] 0
           [("date", PStr "05/10/2023")]); vm_compute; reflexivity.
Defined.

(** X24: An expense whose [expense_items] list holds an element that is not a
    dict never gets a report: [validate_expense] raises AttributeError. *)
Theorem expense_nondict_item_raises (ex : pydict) (items : list pyval) (v : pyval) :
  dict_get ex "expense_items" = Some (PList items) -> In v items -> is_dict v = false ->
  validate_expense ex = Raise AttributeError.
Proof.
  intros Hl Hin Hv. unfold validate_expense, expense_items_check, dict_get_default.
  rewrite Hl. eapply expense_items_loop_raises; eauto.
Qed.

Lemma expense_nondict_item_raises_witness :
  validate_expense expense_with_string_item = Raise AttributeError.
Proof.
  apply (expense_nondict_item_raises _ [PStr "taxi"] (PStr "taxi")).
  - vm_compute. reflexivity.
  - left. reflexivity.
  - reflexivity.
Defined.
